(** * Recipe-AI-App: the authentication and session core

    A shallow embedding of [services/auth_service.py], of the [User],
    [UserSession] and [UserPreference] models of [models/user.py], of the
    [/signup], [/login] and [/logout] routes of [routes/auth.py] and of the
    start of the database in [app.py], with the properties of the
    identity/session core stated and proved over it.

    Conventions of the embedding.
    - Text is a [string] of 8-bit code points (the Latin-1 range of Python's
      [str]); on that range [str.lower], [str.strip] and the classes of the
      [re] module are exactly the functions below ([\d] is [0-9] there).
    - Time is an integer number of seconds; one call reads the clock once.
    - The relational store is a pair of snapshots, the committed one and the
      working one of the open transaction, with the outcome of the next
      commits given by the environment. A commit that fails rolls the
      transaction back, as the session of SQLAlchemy does.
    - Python exceptions are values: a computation returns [Ret v] or
      [Raise e], and the state reached when the exception is raised is kept.
    - [bcrypt] and [flask_jwt_extended] are outside the repository: the
      digest of [bcrypt] is a parameter, a token is the record of its
      claims.

    The file has two parts: the embedding, then the properties. *)

From Stdlib Require Import String Ascii List NArith ZArith Bool Lia.
From Stdlib Require Import Permutation Sorted.
Import ListNotations.
Local Open Scope string_scope.
Local Open Scope Z_scope.

Set Implicit Arguments.

(* ===================================================================== *)
(** ** Python strings *)
(* ===================================================================== *)

Module PyStr.

Definition code (c : ascii) : N := N_of_ascii c.

Definition between (lo hi : N) (c : ascii) : bool :=
  (N.leb lo (code c) && N.leb (code c) hi)%bool.

Definition is_upper (c : ascii) : bool := between 65 90 c.     (* [A-Z] *)
Definition is_lower (c : ascii) : bool := between 97 122 c.    (* [a-z] *)
Definition is_digit (c : ascii) : bool := between 48 57 c.     (* \d    *)

(** [str.isspace] on the Latin-1 range: TAB..CR, FS..US, SPACE, NEL, NBSP. *)
Definition isspace (c : ascii) : bool :=
  (between 9 13 c || between 28 32 c
   || N.eqb (code c) 133 || N.eqb (code c) 160)%bool.

(** [str.lower] on one code point: A-Z, and the accented capitals
    U+00C0..U+00DE except the multiplication sign U+00D7. *)
Definition lower_char (c : ascii) : ascii :=
  if (is_upper c
      || (between 192 222 c && negb (N.eqb (code c) 215)))%bool
  then ascii_of_N (code c + 32)
  else c.

Fixpoint dropwhile (p : ascii -> bool) (l : list ascii) : list ascii :=
  match l with
  | [] => []
  | c :: t => if p c then dropwhile p t else l
  end.

Definition lstrip_l (l : list ascii) : list ascii := dropwhile isspace l.
Definition rstrip_l (l : list ascii) : list ascii :=
  rev (dropwhile isspace (rev l)).
Definition strip_l (l : list ascii) : list ascii := rstrip_l (lstrip_l l).

Definition lower (s : string) : string :=
  string_of_list_ascii (map lower_char (list_ascii_of_string s)).

Definition strip (s : string) : string :=
  string_of_list_ascii (strip_l (list_ascii_of_string s)).

Definition len (s : string) : Z := Z.of_nat (String.length s).

(** Truthiness of a string: [not s] holds exactly for the empty string. *)
Definition truthy (s : string) : bool :=
  match s with EmptyString => false | _ => true end.

(** ["; ".join(parts)] *)
Fixpoint join (sep : string) (parts : list string) : string :=
  match parts with
  | [] => ""
  | [p] => p
  | p :: rest => p ++ sep ++ join sep rest
  end.

End PyStr.

(* ===================================================================== *)
(** ** The fragment of [re] used by the validators *)
(* ===================================================================== *)

Module Re.

Inductive regex : Type :=
| Void : regex
| Eps : regex
| Class : (ascii -> bool) -> regex
| Cat : regex -> regex -> regex
| Alt : regex -> regex -> regex
| Star : regex -> regex.

Fixpoint nullable (r : regex) : bool :=
  match r with
  | Void => false
  | Eps => true
  | Class _ => false
  | Cat a b => nullable a && nullable b
  | Alt a b => nullable a || nullable b
  | Star _ => true
  end.

Fixpoint deriv (c : ascii) (r : regex) : regex :=
  match r with
  | Void => Void
  | Eps => Void
  | Class p => if p c then Eps else Void
  | Cat a b =>
      if nullable a then Alt (Cat (deriv c a) b) (deriv c b)
      else Cat (deriv c a) b
  | Alt a b => Alt (deriv c a) (deriv c b)
  | Star a => Cat (deriv c a) (Star a)
  end.

Fixpoint fullmatch_l (r : regex) (l : list ascii) : bool :=
  match l with
  | [] => nullable r
  | c :: t => fullmatch_l (deriv c r) t
  end.

Definition fullmatch (r : regex) (s : string) : bool :=
  fullmatch_l r (list_ascii_of_string s).

Definition Plus (r : regex) : regex := Cat r (Star r).
(** [r{2,}] *)
Definition AtLeast2 (r : regex) : regex := Cat r (Cat r (Star r)).
Definition Lit (c : ascii) : regex := Class (Ascii.eqb c).

Definition newline : ascii := ascii_of_N 10.

(** [re.match('^' body '$', s) is not None], without [re.MULTILINE]:
    [$] holds at the end of the string and also just before a newline
    that ends the string. *)
Definition match_anchored (body : regex) (s : string) : bool :=
  let l := list_ascii_of_string s in
  (fullmatch_l body l
   || match rev l with
      | c :: t => Ascii.eqb c newline && fullmatch_l body (rev t)
      | [] => false
      end)%bool.

(** [re.search('[...]', s) is not None] for a pattern that is one
    character class. *)
Definition search_class (cls : ascii -> bool) (s : string) : bool :=
  existsb cls (list_ascii_of_string s).

End Re.

(* ===================================================================== *)
(** ** Credential validators ([AuthenticationService.validate_*]) *)
(* ===================================================================== *)

Module Validator.
Import PyStr Re.

Definition one_of (chars : string) (c : ascii) : bool :=
  existsb (Ascii.eqb c) (list_ascii_of_string chars).

Definition alnum (c : ascii) : bool :=
  (is_lower c || is_upper c || is_digit c)%bool.

(** [[a-zA-Z0-9._%+-]] *)
Definition local_class (c : ascii) : bool := (alnum c || one_of "._%+-" c)%bool.
(** [[a-zA-Z0-9.-]] *)
Definition domain_class (c : ascii) : bool := (alnum c || one_of ".-" c)%bool.
(** [[a-zA-Z]] *)
Definition alpha_class (c : ascii) : bool := (is_lower c || is_upper c)%bool.

(** [[a-zA-Z0-9._%+-]+@[a-zA-Z0-9.-]+\.[a-zA-Z]{2,}] *)
Definition email_pattern : regex :=
  Cat (Plus (Class local_class))
    (Cat (Lit "@")
       (Cat (Plus (Class domain_class))
          (Cat (Lit ".") (AtLeast2 (Class alpha_class))))).

Definition validate_email (email : string) : bool :=
  match_anchored email_pattern email.

(** [self.password_requirements] *)
Record requirements : Type := {
  min_length : Z;
  require_uppercase : bool;
  require_lowercase : bool;
  require_number : bool;
  require_special : bool
}.

Definition password_requirements : requirements :=
  {| min_length := 8;
     require_uppercase := true;
     require_lowercase := true;
     require_number := true;
     require_special := true |}.

(** The class of special characters of the last rule:
    ! @ # $ % ^ & * ( ) , . ? : { } | < > and the double quote, which is
    given by its code point 34. *)
Definition special_class (c : ascii) : bool :=
  (one_of "!@#$%^&*(),.?:{}|<>" c || N.eqb (code c) 34)%bool.

(** The reasons; the first is the f-string of the source at
    [min_length = 8]. *)
Definition msg_length : string :=
  "Password must be at least 8 characters long".
Definition msg_upper : string :=
  "Password must contain at least one uppercase letter".
Definition msg_lower : string :=
  "Password must contain at least one lowercase letter".
Definition msg_number : string :=
  "Password must contain at least one number".
Definition msg_special : string :=
  "Password must contain at least one special character".

(** [errors.append(m)] under a condition. *)
Definition append_if (cond : bool) (m : string) (errors : list string)
  : list string :=
  if cond then errors ++ [m] else errors.

Definition validate_password (password : string) : bool * list string :=
  let rq := password_requirements in
  let errors := [] in
  let errors := append_if (len password <? min_length rq) msg_length errors in
  let errors :=
    append_if (require_uppercase rq && negb (search_class is_upper password))
      msg_upper errors in
  let errors :=
    append_if (require_lowercase rq && negb (search_class is_lower password))
      msg_lower errors in
  let errors :=
    append_if (require_number rq && negb (search_class is_digit password))
      msg_number errors in
  let errors :=
    append_if (require_special rq && negb (search_class special_class password))
      msg_special errors in
  (Nat.eqb (List.length errors) 0, errors).

End Validator.

(* ===================================================================== *)
(** ** Exceptions and results *)
(* ===================================================================== *)

Inductive exn : Type :=
| ValueError (msg : string)
| IntegrityError
| OperationalError.

Inductive res (A : Type) : Type :=
| Ret (a : A)
| Raise (e : exn).

Arguments Ret {A} a.
Arguments Raise {A} e.

(* ===================================================================== *)
(** ** The [bcrypt] package *)
(* ===================================================================== *)

(** [bcrypt] is a third-party package. Its hashes have the modular-crypt
    layout [$2b$12$] followed by 22 characters of salt and 31 characters of
    digest; [hashpw] raises [ValueError("Invalid salt")] when its second
    argument does not start with such a prefix, and [checkpw] hashes the
    password under the prefix of the stored value and compares the result
    with the stored value. The Blowfish-based digest itself is the parameter
    [raw] of the class [Core]. *)
Module Bcrypt.
Import PyStr.

Class Core : Type := { raw : N -> string -> string -> string }.

Definition alphabet : string :=
  "./ABCDEFGHIJKLMNOPQRSTUVWXYZabcdefghijklmnopqrstuvwxyz0123456789".

Definition is_b64 (c : ascii) : bool :=
  existsb (Ascii.eqb c) (list_ascii_of_string alphabet).

Definition version_ok (c : ascii) : bool :=
  existsb (Ascii.eqb c) (list_ascii_of_string "abxy").

Definition digit_val (c : ascii) : N := (code c - 48)%N.

(** The cost and the 22 salt characters of a well-formed prefix. *)
Definition parse_salt (s : string) : option (N * string) :=
  match list_ascii_of_string s with
  | d0 :: two :: v :: d1 :: c1 :: c2 :: d2 :: rest =>
      let cost := (10 * digit_val c1 + digit_val c2)%N in
      if (Ascii.eqb d0 "$" && Ascii.eqb two "2" && version_ok v
          && Ascii.eqb d1 "$" && is_digit c1 && is_digit c2
          && Ascii.eqb d2 "$"
          && N.leb 4 cost && N.leb cost 31
          && Nat.leb 22 (List.length rest)
          && forallb is_b64 (firstn 22 rest))%bool
      then Some (cost, string_of_list_ascii (firstn 22 rest))
      else None
  | _ => None
  end.

Definition prefix (s : string) : string :=
  string_of_list_ascii (firstn 29 (list_ascii_of_string s)).

Definition hashpw {core : Core} (password salt : string) : res string :=
  match parse_salt salt with
  | Some (cost, salt22) => Ret (prefix salt ++ raw cost salt22 password)
  | None => Raise (ValueError "Invalid salt")
  end.

Definition checkpw {core : Core} (password hashed : string) : res bool :=
  match hashpw password hashed with
  | Ret h => Ret (String.eqb h hashed)
  | Raise e => Raise e
  end.

(** [gensalt()], from 22 draws of the random source (each reduced
    modulo 64 and read in the alphabet). *)
Definition salt_char (n : N) : ascii :=
  nth (N.to_nat (n mod 64)) (list_ascii_of_string alphabet) "."%char.

Fixpoint salt_chars (k : nat) (entropy : list N) : list ascii :=
  match k with
  | O => []
  | S k' =>
      match entropy with
      | [] => salt_char 0 :: salt_chars k' []
      | n :: t => salt_char n :: salt_chars k' t
      end
  end.

Definition gensalt (entropy : list N) : string :=
  "$2b$12$" ++ string_of_list_ascii (salt_chars 22 entropy).

(** A stand-in digest with which the examples are evaluated: the first
    31 characters of the password followed by the salt and by dots. *)
Definition stand_in : Core :=
  {| raw := fun _ salt22 password =>
       string_of_list_ascii
         (firstn 31 (list_ascii_of_string
                       (password ++ salt22 ++ "...............................")))
  |}.

End Bcrypt.

(* ===================================================================== *)
(** ** The models of [models/user.py] *)
(* ===================================================================== *)

(** The columns of [users] that the service reads or writes. The JSON text
    columns [dietary_restrictions] and [favorite_cuisines] are kept as the
    lists they encode. *)
Module User.
Import PyStr.

Record t : Type := mk {
  id : Z;
  name : string;
  email : string;
  password_hash : option string;
  preferred_language : string;
  phone : option string;
  bio : option string;
  dietary_restrictions : option (list string);
  favorite_cuisines : option (list string);
  default_servings : Z;
  skill_level : string;
  recipe_notifications : bool;
  meal_plan_notifications : bool;
  shopping_notifications : bool;
  tips_notifications : bool;
  allow_sharing : bool;
  analytics_enabled : bool;
  is_active : bool;
  is_verified : bool;
  email_verified_at : option Z;
  last_login_at : option Z;
  created_at : Z
}.

Definition set_id (v : Z) (u : t) : t :=
  {| id := v; name := name u; email := email u;
     password_hash := password_hash u;
     preferred_language := preferred_language u; phone := phone u;
     bio := bio u; dietary_restrictions := dietary_restrictions u;
     favorite_cuisines := favorite_cuisines u;
     default_servings := default_servings u; skill_level := skill_level u;
     recipe_notifications := recipe_notifications u;
     meal_plan_notifications := meal_plan_notifications u;
     shopping_notifications := shopping_notifications u;
     tips_notifications := tips_notifications u;
     allow_sharing := allow_sharing u;
     analytics_enabled := analytics_enabled u; is_active := is_active u;
     is_verified := is_verified u; email_verified_at := email_verified_at u;
     last_login_at := last_login_at u; created_at := created_at u |}.

Definition set_name (v : string) (u : t) : t :=
  {| id := id u; name := v; email := email u;
     password_hash := password_hash u;
     preferred_language := preferred_language u; phone := phone u;
     bio := bio u; dietary_restrictions := dietary_restrictions u;
     favorite_cuisines := favorite_cuisines u;
     default_servings := default_servings u; skill_level := skill_level u;
     recipe_notifications := recipe_notifications u;
     meal_plan_notifications := meal_plan_notifications u;
     shopping_notifications := shopping_notifications u;
     tips_notifications := tips_notifications u;
     allow_sharing := allow_sharing u;
     analytics_enabled := analytics_enabled u; is_active := is_active u;
     is_verified := is_verified u; email_verified_at := email_verified_at u;
     last_login_at := last_login_at u; created_at := created_at u |}.

Definition set_password_hash (v : option string) (u : t) : t :=
  {| id := id u; name := name u; email := email u; password_hash := v;
     preferred_language := preferred_language u; phone := phone u;
     bio := bio u; dietary_restrictions := dietary_restrictions u;
     favorite_cuisines := favorite_cuisines u;
     default_servings := default_servings u; skill_level := skill_level u;
     recipe_notifications := recipe_notifications u;
     meal_plan_notifications := meal_plan_notifications u;
     shopping_notifications := shopping_notifications u;
     tips_notifications := tips_notifications u;
     allow_sharing := allow_sharing u;
     analytics_enabled := analytics_enabled u; is_active := is_active u;
     is_verified := is_verified u; email_verified_at := email_verified_at u;
     last_login_at := last_login_at u; created_at := created_at u |}.

Definition set_preferred_language (v : string) (u : t) : t :=
  {| id := id u; name := name u; email := email u;
     password_hash := password_hash u; preferred_language := v;
     phone := phone u; bio := bio u;
     dietary_restrictions := dietary_restrictions u;
     favorite_cuisines := favorite_cuisines u;
     default_servings := default_servings u; skill_level := skill_level u;
     recipe_notifications := recipe_notifications u;
     meal_plan_notifications := meal_plan_notifications u;
     shopping_notifications := shopping_notifications u;
     tips_notifications := tips_notifications u;
     allow_sharing := allow_sharing u;
     analytics_enabled := analytics_enabled u; is_active := is_active u;
     is_verified := is_verified u; email_verified_at := email_verified_at u;
     last_login_at := last_login_at u; created_at := created_at u |}.

Definition set_phone (v : option string) (u : t) : t :=
  {| id := id u; name := name u; email := email u;
     password_hash := password_hash u;
     preferred_language := preferred_language u; phone := v; bio := bio u;
     dietary_restrictions := dietary_restrictions u;
     favorite_cuisines := favorite_cuisines u;
     default_servings := default_servings u; skill_level := skill_level u;
     recipe_notifications := recipe_notifications u;
     meal_plan_notifications := meal_plan_notifications u;
     shopping_notifications := shopping_notifications u;
     tips_notifications := tips_notifications u;
     allow_sharing := allow_sharing u;
     analytics_enabled := analytics_enabled u; is_active := is_active u;
     is_verified := is_verified u; email_verified_at := email_verified_at u;
     last_login_at := last_login_at u; created_at := created_at u |}.

Definition set_bio (v : option string) (u : t) : t :=
  {| id := id u; name := name u; email := email u;
     password_hash := password_hash u;
     preferred_language := preferred_language u; phone := phone u; bio := v;
     dietary_restrictions := dietary_restrictions u;
     favorite_cuisines := favorite_cuisines u;
     default_servings := default_servings u; skill_level := skill_level u;
     recipe_notifications := recipe_notifications u;
     meal_plan_notifications := meal_plan_notifications u;
     shopping_notifications := shopping_notifications u;
     tips_notifications := tips_notifications u;
     allow_sharing := allow_sharing u;
     analytics_enabled := analytics_enabled u; is_active := is_active u;
     is_verified := is_verified u; email_verified_at := email_verified_at u;
     last_login_at := last_login_at u; created_at := created_at u |}.

Definition set_dietary_restrictions (v : option (list string)) (u : t) : t :=
  {| id := id u; name := name u; email := email u;
     password_hash := password_hash u;
     preferred_language := preferred_language u; phone := phone u;
     bio := bio u; dietary_restrictions := v;
     favorite_cuisines := favorite_cuisines u;
     default_servings := default_servings u; skill_level := skill_level u;
     recipe_notifications := recipe_notifications u;
     meal_plan_notifications := meal_plan_notifications u;
     shopping_notifications := shopping_notifications u;
     tips_notifications := tips_notifications u;
     allow_sharing := allow_sharing u;
     analytics_enabled := analytics_enabled u; is_active := is_active u;
     is_verified := is_verified u; email_verified_at := email_verified_at u;
     last_login_at := last_login_at u; created_at := created_at u |}.

Definition set_favorite_cuisines (v : option (list string)) (u : t) : t :=
  {| id := id u; name := name u; email := email u;
     password_hash := password_hash u;
     preferred_language := preferred_language u; phone := phone u;
     bio := bio u; dietary_restrictions := dietary_restrictions u;
     favorite_cuisines := v; default_servings := default_servings u;
     skill_level := skill_level u;
     recipe_notifications := recipe_notifications u;
     meal_plan_notifications := meal_plan_notifications u;
     shopping_notifications := shopping_notifications u;
     tips_notifications := tips_notifications u;
     allow_sharing := allow_sharing u;
     analytics_enabled := analytics_enabled u; is_active := is_active u;
     is_verified := is_verified u; email_verified_at := email_verified_at u;
     last_login_at := last_login_at u; created_at := created_at u |}.

Definition set_default_servings (v : Z) (u : t) : t :=
  {| id := id u; name := name u; email := email u;
     password_hash := password_hash u;
     preferred_language := preferred_language u; phone := phone u;
     bio := bio u; dietary_restrictions := dietary_restrictions u;
     favorite_cuisines := favorite_cuisines u; default_servings := v;
     skill_level := skill_level u;
     recipe_notifications := recipe_notifications u;
     meal_plan_notifications := meal_plan_notifications u;
     shopping_notifications := shopping_notifications u;
     tips_notifications := tips_notifications u;
     allow_sharing := allow_sharing u;
     analytics_enabled := analytics_enabled u; is_active := is_active u;
     is_verified := is_verified u; email_verified_at := email_verified_at u;
     last_login_at := last_login_at u; created_at := created_at u |}.

Definition set_skill_level (v : string) (u : t) : t :=
  {| id := id u; name := name u; email := email u;
     password_hash := password_hash u;
     preferred_language := preferred_language u; phone := phone u;
     bio := bio u; dietary_restrictions := dietary_restrictions u;
     favorite_cuisines := favorite_cuisines u;
     default_servings := default_servings u; skill_level := v;
     recipe_notifications := recipe_notifications u;
     meal_plan_notifications := meal_plan_notifications u;
     shopping_notifications := shopping_notifications u;
     tips_notifications := tips_notifications u;
     allow_sharing := allow_sharing u;
     analytics_enabled := analytics_enabled u; is_active := is_active u;
     is_verified := is_verified u; email_verified_at := email_verified_at u;
     last_login_at := last_login_at u; created_at := created_at u |}.

Definition set_recipe_notifications (v : bool) (u : t) : t :=
  {| id := id u; name := name u; email := email u;
     password_hash := password_hash u;
     preferred_language := preferred_language u; phone := phone u;
     bio := bio u; dietary_restrictions := dietary_restrictions u;
     favorite_cuisines := favorite_cuisines u;
     default_servings := default_servings u; skill_level := skill_level u;
     recipe_notifications := v;
     meal_plan_notifications := meal_plan_notifications u;
     shopping_notifications := shopping_notifications u;
     tips_notifications := tips_notifications u;
     allow_sharing := allow_sharing u;
     analytics_enabled := analytics_enabled u; is_active := is_active u;
     is_verified := is_verified u; email_verified_at := email_verified_at u;
     last_login_at := last_login_at u; created_at := created_at u |}.

Definition set_meal_plan_notifications (v : bool) (u : t) : t :=
  {| id := id u; name := name u; email := email u;
     password_hash := password_hash u;
     preferred_language := preferred_language u; phone := phone u;
     bio := bio u; dietary_restrictions := dietary_restrictions u;
     favorite_cuisines := favorite_cuisines u;
     default_servings := default_servings u; skill_level := skill_level u;
     recipe_notifications := recipe_notifications u;
     meal_plan_notifications := v;
     shopping_notifications := shopping_notifications u;
     tips_notifications := tips_notifications u;
     allow_sharing := allow_sharing u;
     analytics_enabled := analytics_enabled u; is_active := is_active u;
     is_verified := is_verified u; email_verified_at := email_verified_at u;
     last_login_at := last_login_at u; created_at := created_at u |}.

Definition set_shopping_notifications (v : bool) (u : t) : t :=
  {| id := id u; name := name u; email := email u;
     password_hash := password_hash u;
     preferred_language := preferred_language u; phone := phone u;
     bio := bio u; dietary_restrictions := dietary_restrictions u;
     favorite_cuisines := favorite_cuisines u;
     default_servings := default_servings u; skill_level := skill_level u;
     recipe_notifications := recipe_notifications u;
     meal_plan_notifications := meal_plan_notifications u;
     shopping_notifications := v; tips_notifications := tips_notifications u;
     allow_sharing := allow_sharing u;
     analytics_enabled := analytics_enabled u; is_active := is_active u;
     is_verified := is_verified u; email_verified_at := email_verified_at u;
     last_login_at := last_login_at u; created_at := created_at u |}.

Definition set_tips_notifications (v : bool) (u : t) : t :=
  {| id := id u; name := name u; email := email u;
     password_hash := password_hash u;
     preferred_language := preferred_language u; phone := phone u;
     bio := bio u; dietary_restrictions := dietary_restrictions u;
     favorite_cuisines := favorite_cuisines u;
     default_servings := default_servings u; skill_level := skill_level u;
     recipe_notifications := recipe_notifications u;
     meal_plan_notifications := meal_plan_notifications u;
     shopping_notifications := shopping_notifications u;
     tips_notifications := v; allow_sharing := allow_sharing u;
     analytics_enabled := analytics_enabled u; is_active := is_active u;
     is_verified := is_verified u; email_verified_at := email_verified_at u;
     last_login_at := last_login_at u; created_at := created_at u |}.

Definition set_allow_sharing (v : bool) (u : t) : t :=
  {| id := id u; name := name u; email := email u;
     password_hash := password_hash u;
     preferred_language := preferred_language u; phone := phone u;
     bio := bio u; dietary_restrictions := dietary_restrictions u;
     favorite_cuisines := favorite_cuisines u;
     default_servings := default_servings u; skill_level := skill_level u;
     recipe_notifications := recipe_notifications u;
     meal_plan_notifications := meal_plan_notifications u;
     shopping_notifications := shopping_notifications u;
     tips_notifications := tips_notifications u; allow_sharing := v;
     analytics_enabled := analytics_enabled u; is_active := is_active u;
     is_verified := is_verified u; email_verified_at := email_verified_at u;
     last_login_at := last_login_at u; created_at := created_at u |}.

Definition set_analytics_enabled (v : bool) (u : t) : t :=
  {| id := id u; name := name u; email := email u;
     password_hash := password_hash u;
     preferred_language := preferred_language u; phone := phone u;
     bio := bio u; dietary_restrictions := dietary_restrictions u;
     favorite_cuisines := favorite_cuisines u;
     default_servings := default_servings u; skill_level := skill_level u;
     recipe_notifications := recipe_notifications u;
     meal_plan_notifications := meal_plan_notifications u;
     shopping_notifications := shopping_notifications u;
     tips_notifications := tips_notifications u;
     allow_sharing := allow_sharing u; analytics_enabled := v;
     is_active := is_active u; is_verified := is_verified u;
     email_verified_at := email_verified_at u;
     last_login_at := last_login_at u; created_at := created_at u |}.

Definition set_is_active (v : bool) (u : t) : t :=
  {| id := id u; name := name u; email := email u;
     password_hash := password_hash u;
     preferred_language := preferred_language u; phone := phone u;
     bio := bio u; dietary_restrictions := dietary_restrictions u;
     favorite_cuisines := favorite_cuisines u;
     default_servings := default_servings u; skill_level := skill_level u;
     recipe_notifications := recipe_notifications u;
     meal_plan_notifications := meal_plan_notifications u;
     shopping_notifications := shopping_notifications u;
     tips_notifications := tips_notifications u;
     allow_sharing := allow_sharing u;
     analytics_enabled := analytics_enabled u; is_active := v;
     is_verified := is_verified u; email_verified_at := email_verified_at u;
     last_login_at := last_login_at u; created_at := created_at u |}.

Definition set_is_verified (v : bool) (u : t) : t :=
  {| id := id u; name := name u; email := email u;
     password_hash := password_hash u;
     preferred_language := preferred_language u; phone := phone u;
     bio := bio u; dietary_restrictions := dietary_restrictions u;
     favorite_cuisines := favorite_cuisines u;
     default_servings := default_servings u; skill_level := skill_level u;
     recipe_notifications := recipe_notifications u;
     meal_plan_notifications := meal_plan_notifications u;
     shopping_notifications := shopping_notifications u;
     tips_notifications := tips_notifications u;
     allow_sharing := allow_sharing u;
     analytics_enabled := analytics_enabled u; is_active := is_active u;
     is_verified := v; email_verified_at := email_verified_at u;
     last_login_at := last_login_at u; created_at := created_at u |}.

Definition set_email_verified_at (v : option Z) (u : t) : t :=
  {| id := id u; name := name u; email := email u;
     password_hash := password_hash u;
     preferred_language := preferred_language u; phone := phone u;
     bio := bio u; dietary_restrictions := dietary_restrictions u;
     favorite_cuisines := favorite_cuisines u;
     default_servings := default_servings u; skill_level := skill_level u;
     recipe_notifications := recipe_notifications u;
     meal_plan_notifications := meal_plan_notifications u;
     shopping_notifications := shopping_notifications u;
     tips_notifications := tips_notifications u;
     allow_sharing := allow_sharing u;
     analytics_enabled := analytics_enabled u; is_active := is_active u;
     is_verified := is_verified u; email_verified_at := v;
     last_login_at := last_login_at u; created_at := created_at u |}.

Definition set_last_login_at (v : option Z) (u : t) : t :=
  {| id := id u; name := name u; email := email u;
     password_hash := password_hash u;
     preferred_language := preferred_language u; phone := phone u;
     bio := bio u; dietary_restrictions := dietary_restrictions u;
     favorite_cuisines := favorite_cuisines u;
     default_servings := default_servings u; skill_level := skill_level u;
     recipe_notifications := recipe_notifications u;
     meal_plan_notifications := meal_plan_notifications u;
     shopping_notifications := shopping_notifications u;
     tips_notifications := tips_notifications u;
     allow_sharing := allow_sharing u;
     analytics_enabled := analytics_enabled u; is_active := is_active u;
     is_verified := is_verified u; email_verified_at := email_verified_at u;
     last_login_at := v; created_at := created_at u |}.

Definition set_created_at (v : Z) (u : t) : t :=
  {| id := id u; name := name u; email := email u;
     password_hash := password_hash u;
     preferred_language := preferred_language u; phone := phone u;
     bio := bio u; dietary_restrictions := dietary_restrictions u;
     favorite_cuisines := favorite_cuisines u;
     default_servings := default_servings u; skill_level := skill_level u;
     recipe_notifications := recipe_notifications u;
     meal_plan_notifications := meal_plan_notifications u;
     shopping_notifications := shopping_notifications u;
     tips_notifications := tips_notifications u;
     allow_sharing := allow_sharing u;
     analytics_enabled := analytics_enabled u; is_active := is_active u;
     is_verified := is_verified u; email_verified_at := email_verified_at u;
     last_login_at := last_login_at u; created_at := v |}.

(** [User.__init__], with the column defaults that the first flush fills
    in; [id] and [created_at] are assigned when the row is added. *)
Definition init (name email preferred_language : string) : t :=
  {| id := 0; name := name; email := strip (lower email);
     password_hash := None; preferred_language := preferred_language;
     phone := None; bio := None;
     dietary_restrictions := None; favorite_cuisines := None;
     default_servings := 4; skill_level := "intermediate";
     recipe_notifications := true; meal_plan_notifications := true;
     shopping_notifications := false; tips_notifications := true;
     allow_sharing := true; analytics_enabled := true;
     is_active := true; is_verified := false;
     email_verified_at := None; last_login_at := None; created_at := 0 |}.

(** [set_password]: raises [ValueError] on an empty password. *)
Definition set_password {core : Bcrypt.Core} (entropy : list N)
    (password : string) (u : t) : res t :=
  if negb (truthy password) then Raise (ValueError "Password cannot be empty")
  else
    let salt := Bcrypt.gensalt entropy in
    match Bcrypt.hashpw password salt with
    | Ret h => Ret (set_password_hash (Some h) u)
    | Raise e => Raise e
    end.

(** [not self.password_hash]: the column is unset or the empty string. *)
Definition hash_absent (h : option string) : bool :=
  match h with
  | None => true
  | Some s => negb (truthy s)
  end.

Definition check_password_hash {core : Bcrypt.Core}
    (password : string) (stored : option string) : res bool :=
  match stored with
  | None => Ret false
  | Some h =>
      if (negb (truthy password) || negb (truthy h))%bool then Ret false
      else Bcrypt.checkpw password h
  end.

(** [check_password] *)
Definition check_password {core : Bcrypt.Core} (u : t) (password : string)
  : res bool :=
  check_password_hash password (password_hash u).

(** [is_premium_user]: a placeholder in the source. *)
Definition is_premium_user (u : t) : bool := false.

(** [set_dietary_restrictions] / [set_favorite_cuisines]: an empty list
    clears the column. *)
Definition json_column (l : list string) : option (list string) :=
  match l with [] => None | _ => Some l end.

Definition get_json_column (c : option (list string)) : list string :=
  match c with Some l => l | None => [] end.

(** The profile projection of [to_dict()] (without the statistics, which
    count rows of tables outside the core). It has no password field. *)
Record dict : Type := mk_dict {
  d_id : Z;
  d_name : string;
  d_email : string;
  d_preferred_language : string;
  d_phone : option string;
  d_bio : option string;
  d_default_servings : Z;
  d_skill_level : string;
  d_dietary_restrictions : list string;
  d_favorite_cuisines : list string;
  d_is_verified : bool;
  d_created_at : Z
}.

Definition to_dict (u : t) : dict :=
  {| d_id := id u; d_name := name u; d_email := email u;
     d_preferred_language := preferred_language u;
     d_phone := phone u; d_bio := bio u;
     d_default_servings := default_servings u;
     d_skill_level := skill_level u;
     d_dietary_restrictions := get_json_column (dietary_restrictions u);
     d_favorite_cuisines := get_json_column (favorite_cuisines u);
     d_is_verified := is_verified u; d_created_at := created_at u |}.

End User.

Module UserSession.

Record t : Type := mk {
  id : Z;
  user_id : Z;
  session_token : string;
  ip_address : option string;
  user_agent : option string;
  is_active : bool;
  created_at : Z;
  last_activity : Z;
  expires_at : Z
}.

Definition set_id (v : Z) (s : t) : t :=
  {| id := v; user_id := user_id s; session_token := session_token s;
     ip_address := ip_address s; user_agent := user_agent s;
     is_active := is_active s; created_at := created_at s;
     last_activity := last_activity s; expires_at := expires_at s |}.

Definition set_is_active (v : bool) (s : t) : t :=
  {| id := id s; user_id := user_id s; session_token := session_token s;
     ip_address := ip_address s; user_agent := user_agent s; is_active := v;
     created_at := created_at s; last_activity := last_activity s;
     expires_at := expires_at s |}.

Definition set_created_at (v : Z) (s : t) : t :=
  {| id := id s; user_id := user_id s; session_token := session_token s;
     ip_address := ip_address s; user_agent := user_agent s;
     is_active := is_active s; created_at := v;
     last_activity := last_activity s; expires_at := expires_at s |}.

Definition set_last_activity (v : Z) (s : t) : t :=
  {| id := id s; user_id := user_id s; session_token := session_token s;
     ip_address := ip_address s; user_agent := user_agent s;
     is_active := is_active s; created_at := created_at s;
     last_activity := v; expires_at := expires_at s |}.

(** The constructor call of [create_user_session], with the column
    defaults; [id], [created_at] and [last_activity] are assigned when the
    row is added. *)
Definition new (user_id : Z) (session_token : string)
    (ip_address user_agent : option string) (expires_at : Z) : t :=
  {| id := 0; user_id := user_id; session_token := session_token;
     ip_address := ip_address; user_agent := user_agent;
     is_active := true; created_at := 0; last_activity := 0;
     expires_at := expires_at |}.

(** [is_expired]: [datetime.utcnow() > self.expires_at] *)
Definition is_expired (now : Z) (s : t) : bool := expires_at s <? now.

(** [update_activity] *)
Definition update_activity (now : Z) (s : t) : t := set_last_activity now s.

(** [revoke] *)
Definition revoke (s : t) : t := set_is_active false s.

(** [to_dict()]: the session without its token and its owner. *)
Record dict : Type := mk_dict {
  d_id : Z;
  d_ip_address : option string;
  d_user_agent : option string;
  d_created_at : Z;
  d_last_activity : Z;
  d_expires_at : Z;
  d_is_active : bool
}.

Definition to_dict (s : t) : dict :=
  {| d_id := id s; d_ip_address := ip_address s; d_user_agent := user_agent s;
     d_created_at := created_at s; d_last_activity := last_activity s;
     d_expires_at := expires_at s; d_is_active := is_active s |}.

End UserSession.

(* ===================================================================== *)
(** ** Tokens ([flask_jwt_extended]) *)
(* ===================================================================== *)

(** A token is kept as the claims it carries; signing and encoding belong
    to the package. [decode_token] of a token that was just issued gives
    these claims back. *)
Module Jwt.

Inductive kind : Type := Access | Refresh.

Record token : Type := mk {
  kind_of : kind;
  identity : Z;
  jti : string;
  iat : Z;
  exp : Z;
  claims : list (string * string)
}.

Definition hours (n : Z) : Z := n * 3600.
Definition days (n : Z) : Z := n * 86400.

Definition create_access_token (now : Z) (fresh_jti : string) (identity : Z)
    (expires_delta : Z) (additional_claims : list (string * string)) : token :=
  {| kind_of := Access; identity := identity; jti := fresh_jti; iat := now;
     exp := now + expires_delta; claims := additional_claims |}.

Definition create_refresh_token (now : Z) (fresh_jti : string) (identity : Z)
    (expires_delta : Z) : token :=
  {| kind_of := Refresh; identity := identity; jti := fresh_jti; iat := now;
     exp := now + expires_delta; claims := [] |}.

Definition get_jti (t : token) : string := jti t.

End Jwt.

(* ===================================================================== *)
(** ** The environment of one call and the store *)
(* ===================================================================== *)

(** What one call draws from its environment: the UTC clock, the offset of
    the server's local time ([datetime.fromtimestamp] answers in local
    time), the random draws of [gensalt] and the two fresh token ids. *)
Record Env : Type := mkEnv {
  now : Z;
  utc_offset : Z;
  entropy : list N;
  access_jti : string;
  refresh_jti : string
}.

Definition fromtimestamp (env : Env) (ts : Z) : Z := ts + utc_offset env.

(** The tables [users] and [user_sessions], in insertion order, and the next
    primary keys. *)
Record Store : Type := mkStore {
  users : list User.t;
  user_sessions : list UserSession.t;
  next_user_id : Z;
  next_session_id : Z
}.

Definition empty_store : Store :=
  {| users := []; user_sessions := []; next_user_id := 1; next_session_id := 1 |}.

(** [committed] is what the database holds, [working] what the open
    transaction of [db.session] sees, and [faults] tells for each of the
    next commits whether the database refuses it ([true]: the commit raises
    [OperationalError]); an empty list means that no commit is refused. *)
Record World : Type := mkWorld {
  committed : Store;
  working : Store;
  faults : list bool
}.

Definition quiet (st : Store) : World :=
  {| committed := st; working := st; faults := [] |}.

Fixpoint distinct (l : list string) : bool :=
  match l with
  | [] => true
  | x :: t => negb (existsb (String.eqb x) t) && distinct t
  end.

(** The UNIQUE constraints of [users.email] and
    [user_sessions.session_token]. *)
Definition constraints_ok (st : Store) : bool :=
  distinct (map User.email (users st))
  && distinct (map UserSession.session_token (user_sessions st)).

(** *** Computations over the world *)

Definition M (A : Type) : Type := World -> res A * World.

Definition ret {A : Type} (a : A) : M A := fun w => (Ret a, w).

Definition raise {A : Type} (e : exn) : M A := fun w => (Raise e, w).

Definition bind {A B : Type} (c : M A) (k : A -> M B) : M B :=
  fun w =>
    match c w with
    | (Ret a, w') => k a w'
    | (Raise e, w') => (Raise e, w')
    end.

(** [try: body except Exception as e: handler] *)
Definition try_except {A : Type} (body : M A) (handler : exn -> M A) : M A :=
  fun w =>
    match body w with
    | (Ret a, w') => (Ret a, w')
    | (Raise e, w') => handler e w'
    end.

Definition lift {A : Type} (r : res A) : M A := fun w => (r, w).

Declare Scope py_scope.
Delimit Scope py_scope with py.
Notation "x <- c ;; k" := (bind c (fun x => k))
  (at level 61, c at next level, right associativity) : py_scope.
Notation "c ;;; k" := (bind c (fun _ => k))
  (at level 61, right associativity) : py_scope.
Local Open Scope py_scope.

(** *** [db.session] *)

Module Db.

Definition with_working (f : Store -> Store) : M unit :=
  fun w => (Ret tt, {| committed := committed w; working := f (working w);
                       faults := faults w |}).

Definition read {A : Type} (f : Store -> A) : M A :=
  fun w => (Ret (f (working w)), w).

(** [db.session.rollback()] *)
Definition rollback : M unit :=
  fun w => (Ret tt, {| committed := committed w; working := committed w;
                       faults := faults w |}).

(** [db.session.commit()]: the flush fails when the database refuses it or
    when a UNIQUE constraint does not hold; the transaction is then rolled
    back and the exception raised. *)
Definition commit : M unit :=
  fun w =>
    let refused := match faults w with b :: _ => b | [] => false end in
    let rest := tl (faults w) in
    if refused then
      (Raise OperationalError,
       {| committed := committed w; working := committed w; faults := rest |})
    else if constraints_ok (working w) then
      (Ret tt,
       {| committed := working w; working := working w; faults := rest |})
    else
      (Raise IntegrityError,
       {| committed := committed w; working := committed w; faults := rest |}).

(** [db.session.add(row)]: the row takes the next key and the column
    defaults that read the clock, and is appended to its table. *)
Definition stamp_user (now : Z) (st : Store) (u : User.t) : User.t :=
  User.set_created_at now (User.set_id (next_user_id st) u).

Definition insert_user (u : User.t) (st : Store) : Store :=
  {| users := users st ++ [u];
     user_sessions := user_sessions st;
     next_user_id := next_user_id st + 1;
     next_session_id := next_session_id st |}.

Definition stamp_session (now : Z) (st : Store) (s : UserSession.t)
  : UserSession.t :=
  UserSession.set_last_activity now
    (UserSession.set_created_at now
       (UserSession.set_id (next_session_id st) s)).

Definition insert_session (s : UserSession.t) (st : Store) : Store :=
  {| users := users st;
     user_sessions := user_sessions st ++ [s];
     next_user_id := next_user_id st;
     next_session_id := next_session_id st + 1 |}.

Definition add_user (now : Z) (u : User.t) : M User.t :=
  fun w =>
    let u' := stamp_user now (working w) u in
    (Ret u',
     {| committed := committed w;
        working := insert_user u' (working w);
        faults := faults w |}).

Definition add_session (now : Z) (s : UserSession.t) : M UserSession.t :=
  fun w =>
    let s' := stamp_session now (working w) s in
    (Ret s',
     {| committed := committed w;
        working := insert_session s' (working w);
        faults := faults w |}).

(** The rows with the key [uid] after an attribute assignment [f]. *)
Definition modify_user (uid : Z) (f : User.t -> User.t) (st : Store) : Store :=
  {| users := map (fun u => if User.id u =? uid then f u else u) (users st);
     user_sessions := user_sessions st;
     next_user_id := next_user_id st;
     next_session_id := next_session_id st |}.

Definition modify_session (sid : Z) (f : UserSession.t -> UserSession.t)
    (st : Store) : Store :=
  {| users := users st;
     user_sessions :=
       map (fun s => if UserSession.id s =? sid then f s else s)
         (user_sessions st);
     next_user_id := next_user_id st;
     next_session_id := next_session_id st |}.

(** The store without the user [uid] and, by the cascade of the relationship
    [user_sessions], without the sessions of that user. *)
Definition remove_user (uid : Z) (st : Store) : Store :=
  {| users := filter (fun u => negb (User.id u =? uid)) (users st);
     user_sessions :=
       filter (fun s => negb (UserSession.user_id s =? uid))
         (user_sessions st);
     next_user_id := next_user_id st;
     next_session_id := next_session_id st |}.

(** An attribute assignment on a loaded [User] object. *)
Definition update_user (uid : Z) (f : User.t -> User.t) : M unit :=
  with_working (modify_user uid f).

(** An attribute assignment on a loaded [UserSession] object. *)
Definition update_session (sid : Z) (f : UserSession.t -> UserSession.t)
  : M unit :=
  with_working (modify_session sid f).

(** [db.session.delete(user)] *)
Definition delete_user (uid : Z) : M unit :=
  with_working (remove_user uid).

(** [User.query.get(user_id)] *)
Definition get_user (uid : Z) : M (option User.t) :=
  read (fun st => find (fun u => User.id u =? uid) (users st)).

(** [User.query.filter_by(email=email).first()] *)
Definition user_by_email (email : string) : M (option User.t) :=
  read (fun st => find (fun u => String.eqb (User.email u) email) (users st)).

(** [User.query.filter_by(email=email, is_active=True).first()] *)
Definition active_user_by_email (email : string) : M (option User.t) :=
  read (fun st =>
    find (fun u => String.eqb (User.email u) email && User.is_active u)
      (users st)).

(** [UserSession.query.filter_by(session_token=t).first()] *)
Definition session_by_token (t : string) : M (option UserSession.t) :=
  read (fun st =>
    find (fun s => String.eqb (UserSession.session_token s) t)
      (user_sessions st)).

(** [UserSession.query.filter_by(session_token=t, is_active=True).first()] *)
Definition active_session_by_token (t : string) : M (option UserSession.t) :=
  read (fun st =>
    find (fun s => String.eqb (UserSession.session_token s) t
                   && UserSession.is_active s)
      (user_sessions st)).

(** [UserSession.query.filter_by(user_id=uid, is_active=True).all()] *)
Definition active_sessions_of (uid : Z) : M (list UserSession.t) :=
  read (fun st =>
    filter (fun s => (UserSession.user_id s =? uid) && UserSession.is_active s)
      (user_sessions st)).

End Db.

(* ===================================================================== *)
(** ** Responses *)
(* ===================================================================== *)

(** The dictionaries returned by the service: a key that a response does not
    carry is [None]. *)
Record Response : Type := mkResponse {
  success : bool;
  message : option string;
  user : option User.dict;
  access_token : option Jwt.token;
  refresh_token : option Jwt.token;
  sessions : option (list UserSession.dict)
}.

Definition failure (msg : string) : Response :=
  {| success := false; message := Some msg; user := None;
     access_token := None; refresh_token := None; sessions := None |}.

Definition succeeded (msg : string) : Response :=
  {| success := true; message := Some msg; user := None;
     access_token := None; refresh_token := None; sessions := None |}.

(** Keyword arguments and request dictionaries: a key that is not passed is
    [None]. *)
Record RegisterKwargs : Type := mkRegisterKwargs {
  kw_phone : option (option string);
  kw_bio : option (option string)
}.

Record ProfileKwargs : Type := mkProfileKwargs {
  pk_name : option string;
  pk_phone : option (option string);
  pk_bio : option (option string);
  pk_preferred_language : option string;
  pk_default_servings : option Z;
  pk_skill_level : option string;
  pk_dietary_restrictions : option (list string);
  pk_favorite_cuisines : option (list string)
}.

Record NotificationPrefs : Type := mkNotificationPrefs {
  np_recipe_notifications : option bool;
  np_meal_plan_notifications : option bool;
  np_shopping_notifications : option bool;
  np_tips_notifications : option bool
}.

Record PrivacySettings : Type := mkPrivacySettings {
  ps_allow_sharing : option bool;
  ps_analytics_enabled : option bool
}.

(** [if key in d: obj.attr = d[key]] *)
Definition assign_if {A B : Type} (v : option A) (set : A -> B -> B) (x : B) : B :=
  match v with
  | Some a => set a x
  | None => x
  end.

(** [User.update_notification_preferences] *)
Definition update_notification_preferences_of (p : NotificationPrefs)
    (u : User.t) : User.t :=
  let u := assign_if (np_recipe_notifications p) User.set_recipe_notifications u in
  let u := assign_if (np_meal_plan_notifications p)
             User.set_meal_plan_notifications u in
  let u := assign_if (np_shopping_notifications p)
             User.set_shopping_notifications u in
  assign_if (np_tips_notifications p) User.set_tips_notifications u.

(** [User.update_privacy_settings] *)
Definition update_privacy_settings_of (p : PrivacySettings) (u : User.t)
  : User.t :=
  let u := assign_if (ps_allow_sharing p) User.set_allow_sharing u in
  assign_if (ps_analytics_enabled p) User.set_analytics_enabled u.

(** The loop over [updateable_fields] of [update_user_profile]. *)
Definition apply_profile (k : ProfileKwargs) (u : User.t) : User.t :=
  let u := assign_if (pk_name k) User.set_name u in
  let u := assign_if (pk_phone k) User.set_phone u in
  let u := assign_if (pk_bio k) User.set_bio u in
  let u := assign_if (pk_preferred_language k) User.set_preferred_language u in
  let u := assign_if (pk_default_servings k) User.set_default_servings u in
  let u := assign_if (pk_skill_level k) User.set_skill_level u in
  let u := assign_if (pk_dietary_restrictions k)
             (fun l => User.set_dietary_restrictions (User.json_column l)) u in
  assign_if (pk_favorite_cuisines k)
    (fun l => User.set_favorite_cuisines (User.json_column l)) u.

(** [for x in l: body(x)] *)
Fixpoint for_each {A : Type} (l : list A) (body : A -> M unit) : M unit :=
  match l with
  | [] => ret tt
  | x :: t => body x ;;; for_each t body
  end.

(** [order_by(UserSession.last_activity.desc())] *)
Fixpoint insert_desc (s : UserSession.t) (l : list UserSession.t)
  : list UserSession.t :=
  match l with
  | [] => [s]
  | x :: t =>
      if UserSession.last_activity x <? UserSession.last_activity s
      then s :: l
      else x :: insert_desc s t
  end.

Definition order_by_last_activity_desc (l : list UserSession.t)
  : list UserSession.t :=
  fold_right insert_desc [] l.

(* ===================================================================== *)
(** ** [AuthenticationService] *)
(* ===================================================================== *)

Module AuthenticationService.
Import PyStr.

Definition validate_email := Validator.validate_email.
Definition validate_password := Validator.validate_password.

Section Service.
Context {core : Bcrypt.Core}.
Variable env : Env.

Definition claims_of (u : User.t) : list (string * string) :=
  [("user_type", if User.is_premium_user u then "premium" else "regular");
   ("email", User.email u);
   ("preferred_language", User.preferred_language u)].

(** [create_user_session] *)
Definition create_user_session (user_id : Z) (token : Jwt.token)
    (ip_address user_agent : option string) : M (option UserSession.t) :=
  try_except
    (let expires_at := fromtimestamp env (Jwt.exp token) in
     let session :=
       UserSession.new user_id (Jwt.get_jti token) ip_address user_agent
         expires_at in
     session <- Db.add_session (now env) session ;;
     Db.commit ;;;
     ret (Some session))
    (fun _ => ret None).

(** [register_user] *)
Definition register_user (name email password preferred_language : string)
    (kwargs : RegisterKwargs) : M Response :=
  try_except
    (if (negb (truthy name) || negb (truthy (strip name)))%bool then
       ret (failure "Name is required")
     else if (negb (truthy email) || negb (validate_email email))%bool then
       ret (failure "Valid email is required")
     else
       let email := strip (lower email) in
       let '(is_valid_password, password_errors) := validate_password password in
       if negb is_valid_password then
         ret (failure (join "; " password_errors))
       else
         existing_user <- Db.user_by_email email ;;
         match existing_user with
         | Some _ => ret (failure "Email already registered")
         | None =>
             let user := User.init (strip name) email preferred_language in
             user <- lift (User.set_password (entropy env) password user) ;;
             let user := assign_if (kw_phone kwargs) User.set_phone user in
             let user := assign_if (kw_bio kwargs) User.set_bio user in
             user <- Db.add_user (now env) user ;;
             Db.commit ;;;
             let access_token :=
               Jwt.create_access_token (now env) (access_jti env)
                 (User.id user) (Jwt.hours 1)
                 [("user_type", "regular"); ("email", User.email user)] in
             let refresh_token :=
               Jwt.create_refresh_token (now env) (refresh_jti env)
                 (User.id user) (Jwt.days 30) in
             _ <- create_user_session (User.id user) access_token None None ;;
             ret {| success := true;
                    message := Some "User registered successfully";
                    user := Some (User.to_dict user);
                    access_token := Some access_token;
                    refresh_token := Some refresh_token;
                    sessions := None |}
         end)
    (fun _ => Db.rollback ;;; ret (failure "Registration failed")).

(** [User.update_last_login] *)
Definition update_last_login (u : User.t) : M User.t :=
  Db.update_user (User.id u) (User.set_last_login_at (Some (now env))) ;;;
  Db.commit ;;;
  ret (User.set_last_login_at (Some (now env)) u).

(** [authenticate_user] *)
Definition authenticate_user (email password : string)
    (ip_address user_agent : option string) : M Response :=
  try_except
    (if (negb (truthy email) || negb (truthy password))%bool then
       ret (failure "Email and password are required")
     else
       let email := strip (lower email) in
       found <- Db.active_user_by_email email ;;
       match found with
       | None => ret (failure "Invalid credentials")
       | Some user =>
           matches <- lift (User.check_password user password) ;;
           if negb matches then ret (failure "Invalid credentials")
           else
             user <- update_last_login user ;;
             let access_token :=
               Jwt.create_access_token (now env) (access_jti env)
                 (User.id user) (Jwt.hours 1) (claims_of user) in
             let refresh_token :=
               Jwt.create_refresh_token (now env) (refresh_jti env)
                 (User.id user) (Jwt.days 30) in
             _ <- create_user_session (User.id user) access_token
                    ip_address user_agent ;;
             ret {| success := true;
                    message := Some "Login successful";
                    user := Some (User.to_dict user);
                    access_token := Some access_token;
                    refresh_token := Some refresh_token;
                    sessions := None |}
       end)
    (fun _ => ret (failure "Authentication failed")).

(** [refresh_access_token] *)
Definition refresh_access_token (user_id : Z) : M Response :=
  try_except
    (found <- Db.get_user user_id ;;
     match found with
     | None => ret (failure "User not found or inactive")
     | Some user =>
         if negb (User.is_active user) then
           ret (failure "User not found or inactive")
         else
           let access_token :=
             Jwt.create_access_token (now env) (access_jti env)
               (User.id user) (Jwt.hours 1) (claims_of user) in
           ret {| success := true; message := None; user := None;
                  access_token := Some access_token;
                  refresh_token := None; sessions := None |}
     end)
    (fun _ => ret (failure "Token refresh failed")).

(** [revoke_user_session] *)
Definition revoke_user_session (session_token : string) : M bool :=
  try_except
    (found <- Db.session_by_token session_token ;;
     match found with
     | Some session =>
         Db.update_session (UserSession.id session) UserSession.revoke ;;;
         Db.commit ;;;
         ret true
     | None => ret false
     end)
    (fun _ => ret false).

(** [revoke_all_user_sessions] *)
Definition revoke_all_user_sessions (user_id : Z) : M Z :=
  try_except
    (found <- Db.active_sessions_of user_id ;;
     for_each found
       (fun session =>
          Db.update_session (UserSession.id session) UserSession.revoke) ;;;
     Db.commit ;;;
     ret (Z.of_nat (List.length found)))
    (fun _ => ret 0).

(** [update_user_profile] *)
Definition update_user_profile (user_id : Z) (kwargs : ProfileKwargs)
  : M Response :=
  try_except
    (found <- Db.get_user user_id ;;
     match found with
     | None => ret (failure "User not found")
     | Some user =>
         Db.update_user user_id (apply_profile kwargs) ;;;
         Db.commit ;;;
         ret {| success := true;
                message := Some "Profile updated successfully";
                user := Some (User.to_dict (apply_profile kwargs user));
                access_token := None; refresh_token := None;
                sessions := None |}
     end)
    (fun _ => Db.rollback ;;; ret (failure "Profile update failed")).

(** [change_user_password] *)
Definition change_user_password (user_id : Z)
    (current_password new_password : string) : M Response :=
  try_except
    (found <- Db.get_user user_id ;;
     match found with
     | None => ret (failure "User not found")
     | Some user =>
         matches <- lift (User.check_password user current_password) ;;
         if negb matches then ret (failure "Current password is incorrect")
         else
           let '(is_valid_password, password_errors) :=
             validate_password new_password in
           if negb is_valid_password then
             ret (failure (join "; " password_errors))
           else
             user <- lift (User.set_password (entropy env) new_password user) ;;
             Db.update_user user_id
               (User.set_password_hash (User.password_hash user)) ;;;
             Db.commit ;;;
             _ <- revoke_all_user_sessions user_id ;;
             ret (succeeded "Password changed successfully")
     end)
    (fun _ => Db.rollback ;;; ret (failure "Password change failed")).

(** [generate_password_reset_token]: the token it draws is neither stored
    nor returned, and both branches answer alike. *)
Definition generate_password_reset_token (email : string) : M Response :=
  try_except
    (found <- Db.user_by_email (strip (lower email)) ;;
     match found with
     | None =>
         ret (succeeded "If the email exists, a reset link has been sent")
     | Some _ =>
         ret (succeeded "If the email exists, a reset link has been sent")
     end)
    (fun _ => ret (failure "Password reset request failed")).

(** [reset_password_with_token]: only the policy check is implemented. *)
Definition reset_password_with_token (token new_password : string)
  : M Response :=
  try_except
    (let '(is_valid_password, password_errors) :=
       validate_password new_password in
     if negb is_valid_password then
       ret (failure (join "; " password_errors))
     else ret (succeeded "Password has been reset successfully"))
    (fun _ => ret (failure "Password reset failed")).

(** [verify_user_email] *)
Definition verify_user_email (user_id : Z) (verification_token : string)
  : M Response :=
  try_except
    (found <- Db.get_user user_id ;;
     match found with
     | None => ret (failure "User not found")
     | Some _ =>
         Db.update_user user_id
           (fun u => User.set_email_verified_at (Some (now env))
                       (User.set_is_verified true u)) ;;;
         Db.commit ;;;
         ret (succeeded "Email verified successfully")
     end)
    (fun _ => Db.rollback ;;; ret (failure "Email verification failed")).

(** [deactivate_user_account] *)
Definition deactivate_user_account (user_id : Z) (reason : option string)
  : M Response :=
  try_except
    (found <- Db.get_user user_id ;;
     match found with
     | None => ret (failure "User not found")
     | Some _ =>
         Db.update_user user_id (User.set_is_active false) ;;;
         Db.commit ;;;
         _ <- revoke_all_user_sessions user_id ;;
         ret (succeeded "Account deactivated successfully")
     end)
    (fun _ => Db.rollback ;;; ret (failure "Account deactivation failed")).

(** [delete_user_account] *)
Definition delete_user_account (user_id : Z) : M Response :=
  try_except
    (found <- Db.get_user user_id ;;
     match found with
     | None => ret (failure "User not found")
     | Some _ =>
         Db.delete_user user_id ;;;
         Db.commit ;;;
         ret (succeeded "Account deleted permanently")
     end)
    (fun _ => Db.rollback ;;; ret (failure "Account deletion failed")).

(** [get_user_sessions] *)
Definition get_user_sessions (user_id : Z) : M Response :=
  try_except
    (found <- Db.active_sessions_of user_id ;;
     ret {| success := true; message := None; user := None;
            access_token := None; refresh_token := None;
            sessions :=
              Some (map UserSession.to_dict
                      (order_by_last_activity_desc found)) |})
    (fun _ => ret (failure "Failed to retrieve sessions")).

(** [update_notification_preferences] *)
Definition update_notification_preferences (user_id : Z)
    (preferences : NotificationPrefs) : M Response :=
  try_except
    (found <- Db.get_user user_id ;;
     match found with
     | None => ret (failure "User not found")
     | Some _ =>
         Db.update_user user_id
           (update_notification_preferences_of preferences) ;;;
         Db.commit ;;;
         ret (succeeded "Notification preferences updated")
     end)
    (fun _ => Db.rollback ;;; ret (failure "Failed to update preferences")).

(** [update_privacy_settings] *)
Definition update_privacy_settings (user_id : Z) (settings : PrivacySettings)
  : M Response :=
  try_except
    (found <- Db.get_user user_id ;;
     match found with
     | None => ret (failure "User not found")
     | Some _ =>
         Db.update_user user_id (update_privacy_settings_of settings) ;;;
         Db.commit ;;;
         ret (succeeded "Privacy settings updated")
     end)
    (fun _ => Db.rollback ;;; ret (failure "Failed to update privacy settings")).

(** [is_session_valid] *)
Definition is_session_valid (session_token : string) : M bool :=
  try_except
    (found <- Db.active_session_by_token session_token ;;
     match found with
     | None => ret false
     | Some session =>
         if UserSession.is_expired (now env) session then
           Db.update_session (UserSession.id session) UserSession.revoke ;;;
           Db.commit ;;;
           ret false
         else
           Db.update_session (UserSession.id session)
             (UserSession.update_activity (now env)) ;;;
           Db.commit ;;;
           ret true
     end)
    (fun _ => ret false).

(** The [/logout] route of [routes/auth.py]: the answer of
    [revoke_user_session] is dropped. *)
Definition logout (session_token : string) : M Response :=
  try_except
    (_ <- revoke_user_session session_token ;;
     ret (succeeded "Logged out successfully"))
    (fun _ => ret (failure "Logout failed")).

End Service.

(** *** The operations as a transition system *)

Inductive op : Type :=
| Register (name email password preferred_language : string)
    (kwargs : RegisterKwargs)
| Authenticate (email password : string) (ip_address user_agent : option string)
| RefreshAccessToken (user_id : Z)
| CreateUserSession (user_id : Z) (token : Jwt.token)
    (ip_address user_agent : option string)
| RevokeUserSession (session_token : string)
| RevokeAllUserSessions (user_id : Z)
| UpdateUserProfile (user_id : Z) (kwargs : ProfileKwargs)
| ChangeUserPassword (user_id : Z) (current_password new_password : string)
| GeneratePasswordResetToken (email : string)
| ResetPasswordWithToken (token new_password : string)
| VerifyUserEmail (user_id : Z) (verification_token : string)
| DeactivateUserAccount (user_id : Z) (reason : option string)
| DeleteUserAccount (user_id : Z)
| GetUserSessions (user_id : Z)
| UpdateNotificationPreferences (user_id : Z) (preferences : NotificationPrefs)
| UpdatePrivacySettings (user_id : Z) (settings : PrivacySettings)
| IsSessionValid (session_token : string)
| Logout (session_token : string).

Definition forget {A : Type} (c : M A) : World -> World := fun w => snd (c w).

(** The world after one operation, whatever it answers. *)
Definition step {core : Bcrypt.Core} (env : Env) (o : op) : World -> World :=
  match o with
  | Register n e p l k => forget (register_user env n e p l k)
  | Authenticate e p ip ua => forget (authenticate_user env e p ip ua)
  | RefreshAccessToken uid => forget (refresh_access_token env uid)
  | CreateUserSession uid t ip ua => forget (create_user_session env uid t ip ua)
  | RevokeUserSession t => forget (revoke_user_session t)
  | RevokeAllUserSessions uid => forget (revoke_all_user_sessions uid)
  | UpdateUserProfile uid k => forget (update_user_profile uid k)
  | ChangeUserPassword uid c n => forget (change_user_password env uid c n)
  | GeneratePasswordResetToken e => forget (generate_password_reset_token e)
  | ResetPasswordWithToken t n => forget (reset_password_with_token t n)
  | VerifyUserEmail uid t => forget (verify_user_email env uid t)
  | DeactivateUserAccount uid r => forget (deactivate_user_account uid r)
  | DeleteUserAccount uid => forget (delete_user_account uid)
  | GetUserSessions uid => forget (get_user_sessions uid)
  | UpdateNotificationPreferences uid p =>
      forget (update_notification_preferences uid p)
  | UpdatePrivacySettings uid s => forget (update_privacy_settings uid s)
  | IsSessionValid t => forget (is_session_valid env t)
  | Logout t => forget (logout t)
  end.

(** A run: each operation with the environment of its call. *)
Fixpoint run {core : Bcrypt.Core} (trace : list (Env * op)) (w : World) : World :=
  match trace with
  | [] => w
  | (env, o) :: rest => run rest (step env o w)
  end.

End AuthenticationService.

(* ===================================================================== *)
(** ** The password policy as the specification words it *)
(* ===================================================================== *)

Module Policy.
Import PyStr.

(** The five rules, in the order of their declaration. *)
Inductive rule : Type := MinLength | Uppercase | Lowercase | Digit | Special.

Definition rules : list rule := [MinLength; Uppercase; Lowercase; Digit; Special].

Definition contains (cls : ascii -> bool) (password : string) : Prop :=
  exists c, In c (list_ascii_of_string password) /\ cls c = true.

Definition met (r : rule) (password : string) : Prop :=
  match r with
  | MinLength => 8 <= len password
  | Uppercase => contains is_upper password
  | Lowercase => contains is_lower password
  | Digit => contains is_digit password
  | Special => contains Validator.special_class password
  end.

Definition metb (r : rule) (password : string) : bool :=
  match r with
  | MinLength => 8 <=? len password
  | Uppercase => existsb is_upper (list_ascii_of_string password)
  | Lowercase => existsb is_lower (list_ascii_of_string password)
  | Digit => existsb is_digit (list_ascii_of_string password)
  | Special => existsb Validator.special_class (list_ascii_of_string password)
  end.

Definition reason (r : rule) : string :=
  match r with
  | MinLength => Validator.msg_length
  | Uppercase => Validator.msg_upper
  | Lowercase => Validator.msg_lower
  | Digit => Validator.msg_number
  | Special => Validator.msg_special
  end.

(** One reason for each rule that is not met, in the order of [rules]. *)
Definition unmet_reasons (password : string) : list string :=
  map reason (filter (fun r => negb (metb r password)) rules).

End Policy.

(** Consistency of a world between two calls: no transaction is open and
    the database holds its UNIQUE constraints. *)
Definition consistent (w : World) : Prop :=
  working w = committed w /\ constraints_ok (committed w) = true.



(** A computation keeps a property of the world, whether it returns or
    raises. *)
Definition preserves {A : Type} (P : World -> Prop) (c : M A) : Prop :=
  forall w, P w -> P (snd (c w)).

(** The store after the loop of [revoke_all_user_sessions] over the sessions
    with the keys [ids]. *)
Definition revoke_ids (ids : list Z) (st : Store) : Store :=
  fold_left (fun st k => Db.modify_session k UserSession.revoke st) ids st.

(** The hash that [set_password] stores for a password under the draws
    [entropy] of [gensalt]. *)
Definition new_hash {core : Bcrypt.Core} (entropy : list N) (password : string)
  : string :=
  Bcrypt.prefix (Bcrypt.gensalt entropy)
  ++ Bcrypt.raw 12 (string_of_list_ascii (Bcrypt.salt_chars 22 entropy))
       password.


(** A property of the world that every primitive of [db.session] used by
    the service keeps. *)
Record db_respects (P : World -> Prop) : Prop := {
  respects_commit : preserves P Db.commit;
  respects_rollback : preserves P Db.rollback;
  respects_add_user : forall t u, preserves P (Db.add_user t u);
  respects_add_session : forall t s, preserves P (Db.add_session t s);
  respects_update_user : forall k f, preserves P (Db.update_user k f);
  respects_delete_user : forall k, preserves P (Db.delete_user k);
  respects_revoke :
    forall k, preserves P (Db.update_session k UserSession.revoke);
  respects_touch :
    forall k t,
      preserves P (Db.update_session k (UserSession.update_activity t))
}.

(** No transaction is open. *)
Definition settled (w : World) : Prop := working w = committed w.

Definition anything (w : World) : Prop := True.

(** From a world in [P], the computation returns in a world in [Q] or
    raises in a world in [E]. *)
Definition hoare {A : Type} (P : World -> Prop) (c : M A)
    (Q E : World -> Prop) : Prop :=
  forall w, P w ->
    match c w with
    | (Ret _, w') => Q w'
    | (Raise _, w') => E w'
    end.

(** The worlds that the service reaches from the empty store. *)
Definition reachable {core : Bcrypt.Core} (w : World) : Prop :=
  exists trace, w = AuthenticationService.run trace (quiet empty_store).

(** The demonstration environment and store of the examples. *)
Module Demo.

Definition env (t : Z) (jti : string) : Env :=
  {| now := t; utc_offset := 0; entropy := [1; 2; 3]%N;
     access_jti := jti; refresh_jti := jti ++ "-r" |}.

Definition no_kwargs : RegisterKwargs := {| kw_phone := None; kw_bio := None |}.

(** The world after Ann has registered at time 1000. *)
Definition ann_registered : World :=
  snd (@AuthenticationService.register_user Bcrypt.stand_in (env 1000 "jti-1")
         "Ann" "A@B.com" "Str0ng!Pass" "en" no_kwargs (quiet empty_store)).


Definition ann_user : User.t :=
  match users (committed ann_registered) with
  | u :: _ => u
  | [] => User.init "" "" ""
  end.

Definition ann_session : UserSession.t :=
  {| UserSession.id := 1; UserSession.user_id := 1;
     UserSession.session_token := "jti-1";
     UserSession.ip_address := None; UserSession.user_agent := None;
     UserSession.is_active := true; UserSession.created_at := 1000;
     UserSession.last_activity := 1000; UserSession.expires_at := 4600 |}.

End Demo.

(* ===================================================================== *)
(** ** Further definitions: what the words of the properties mean *)
(* ===================================================================== *)

(** The strings that a pattern of [Re] denotes. *)
Inductive matches : Re.regex -> list ascii -> Prop :=
| matches_eps : matches Re.Eps []
| matches_class (p : ascii -> bool) (c : ascii) :
    p c = true -> matches (Re.Class p) [c]
| matches_cat (a b : Re.regex) (l1 l2 : list ascii) :
    matches a l1 -> matches b l2 -> matches (Re.Cat a b) (l1 ++ l2)
| matches_alt_l (a b : Re.regex) (l : list ascii) :
    matches a l -> matches (Re.Alt a b) l
| matches_alt_r (a b : Re.regex) (l : list ascii) :
    matches b l -> matches (Re.Alt a b) l
| matches_star_nil (a : Re.regex) : matches (Re.Star a) []
| matches_star_app (a : Re.regex) (l1 l2 : list ascii) :
    matches a l1 -> matches (Re.Star a) l2 -> matches (Re.Star a) (l1 ++ l2).

(** An address [local@domain.tld]: a non-empty local part over
    [[a-zA-Z0-9._%+-]], a non-empty domain over [[a-zA-Z0-9.-]], and at
    least two letters after the last dot of the pattern. *)
Definition address_shape (l : list ascii) : Prop :=
  exists local domain tld,
    l = (local ++ "@"%char :: domain ++ "."%char :: tld)%list
    /\ local <> [] /\ forallb Validator.local_class local = true
    /\ domain <> [] /\ forallb Validator.domain_class domain = true
    /\ (2 <= List.length tld)%nat
    /\ forallb Validator.alpha_class tld = true.

(** The dictionary that an operation answers with, for the operations of
    the service that answer with one (the others answer with a session, a
    boolean or a count), and the world it leaves. *)
Definition answer {core : Bcrypt.Core} (env : Env)
    (o : AuthenticationService.op) : M (option Response) :=
  let dict (c : M Response) : M (option Response) :=
    bind c (fun r => ret (Some r)) in
  let other {A : Type} (c : M A) : M (option Response) :=
    bind c (fun _ => ret None) in
  match o with
  | AuthenticationService.Register n e p l k =>
      dict (AuthenticationService.register_user env n e p l k)
  | AuthenticationService.Authenticate e p ip ua =>
      dict (AuthenticationService.authenticate_user env e p ip ua)
  | AuthenticationService.RefreshAccessToken uid =>
      dict (AuthenticationService.refresh_access_token env uid)
  | AuthenticationService.CreateUserSession uid t ip ua =>
      other (AuthenticationService.create_user_session env uid t ip ua)
  | AuthenticationService.RevokeUserSession t =>
      other (AuthenticationService.revoke_user_session t)
  | AuthenticationService.RevokeAllUserSessions uid =>
      other (AuthenticationService.revoke_all_user_sessions uid)
  | AuthenticationService.UpdateUserProfile uid k =>
      dict (AuthenticationService.update_user_profile uid k)
  | AuthenticationService.ChangeUserPassword uid c n =>
      dict (AuthenticationService.change_user_password env uid c n)
  | AuthenticationService.GeneratePasswordResetToken e =>
      dict (AuthenticationService.generate_password_reset_token e)
  | AuthenticationService.ResetPasswordWithToken t n =>
      dict (AuthenticationService.reset_password_with_token t n)
  | AuthenticationService.VerifyUserEmail uid t =>
      dict (AuthenticationService.verify_user_email env uid t)
  | AuthenticationService.DeactivateUserAccount uid r =>
      dict (AuthenticationService.deactivate_user_account uid r)
  | AuthenticationService.DeleteUserAccount uid =>
      dict (AuthenticationService.delete_user_account uid)
  | AuthenticationService.GetUserSessions uid =>
      dict (AuthenticationService.get_user_sessions uid)
  | AuthenticationService.UpdateNotificationPreferences uid p =>
      dict (AuthenticationService.update_notification_preferences uid p)
  | AuthenticationService.UpdatePrivacySettings uid s =>
      dict (AuthenticationService.update_privacy_settings uid s)
  | AuthenticationService.IsSessionValid t =>
      other (AuthenticationService.is_session_valid env t)
  | AuthenticationService.Logout t =>
      dict (AuthenticationService.logout t)
  end.

(** The computation returns from every world: whatever is raised inside is
    caught. *)
Definition never_raises {A : Type} (c : M A) : Prop :=
  forall w, exists a w', c w = (Ret a, w').


(** [d[key] if key in d else default] *)
Definition or_else {A : Type} (v : option A) (default : A) : A :=
  match v with
  | Some a => a
  | None => default
  end.



(** [a] comes no later than [b] in the order of
    [order_by(UserSession.last_activity.desc())]. *)
Definition not_before (a b : UserSession.t) : Prop :=
  UserSession.last_activity b <= UserSession.last_activity a.

(** The active sessions of a user, in the order of the table. *)
Definition active_of (uid : Z) (st : Store) : list UserSession.t :=
  filter (fun s => (UserSession.user_id s =? uid) && UserSession.is_active s)
    (user_sessions st).

(** No session of the store carries the token. *)
Definition fresh_token (t : string) (st : Store) : Prop :=
  forall x, In x (user_sessions st) -> UserSession.session_token x <> t.

(** An operation fails without a trace: between two calls and with no
    commit refused, when it answers with a failure the world is as
    before. *)
Definition traceless (c : M Response) : Prop :=
  forall w r, settled w -> faults w = [] ->
              fst (c w) = Ret r -> success r = false -> snd (c w) = w.

(** An operation writes nothing when the next commit is refused: the
    database is as before and no transaction is left open. *)
Definition rolled_back {A : Type} (c : M A) : Prop :=
  forall w fs, settled w -> faults w = true :: fs ->
               committed (snd (c w)) = committed w /\ settled (snd (c w)).

(** The operations that answer with success only after a commit of
    their own. *)
Definition commits_to_succeed (o : AuthenticationService.op) : bool :=
  match o with
  | AuthenticationService.Register _ _ _ _ _
  | AuthenticationService.Authenticate _ _ _ _
  | AuthenticationService.UpdateUserProfile _ _
  | AuthenticationService.ChangeUserPassword _ _ _
  | AuthenticationService.VerifyUserEmail _ _
  | AuthenticationService.DeactivateUserAccount _ _
  | AuthenticationService.DeleteUserAccount _
  | AuthenticationService.UpdateNotificationPreferences _ _
  | AuthenticationService.UpdatePrivacySettings _ _ => true
  | _ => false
  end.

(** An operation does not answer with success when the next commit is
    refused. *)
Definition fails_when_refused (c : M Response) : Prop :=
  forall w fs r, settled w -> faults w = true :: fs ->
                 fst (c w) = Ret r -> success r = false.

(** The email of a row is what [email.lower().strip()] gives. *)
Definition normal_email (u : User.t) : Prop :=
  PyStr.strip (PyStr.lower (User.email u)) = User.email u.

Definition emails_normal (st : Store) : Prop :=
  forall u, In u (users st) -> normal_email u.

(** In the database and in the open transaction. *)
Definition emails_normal_in (w : World) : Prop :=
  emails_normal (committed w) /\ emails_normal (working w).

(** A property of the world that the primitives of [db.session] keep when
    the row added has a normal email and the assignments leave the email
    alone. *)
Record db_keeps_emails (P : World -> Prop) : Prop := {
  emails_commit : preserves P Db.commit;
  emails_rollback : preserves P Db.rollback;
  emails_add_user :
    forall t u, normal_email u -> preserves P (Db.add_user t u);
  emails_add_session : forall t s, preserves P (Db.add_session t s);
  emails_update_user :
    forall k f, (forall u, User.email (f u) = User.email u) ->
                preserves P (Db.update_user k f);
  emails_delete_user : forall k, preserves P (Db.delete_user k);
  emails_update_session : forall k f, preserves P (Db.update_session k f)
}.

(* ===================================================================== *)
(** ** The routes of [routes/auth.py] and the start of [app.py] *)
(* ===================================================================== *)

(** The JSON object or the form of a request, read with [get]; its values
    are text, as the forms of the templates send them. *)
Definition Fields : Type := string -> option string.

(** [data.get(key, default)] *)
Definition get (data : Fields) (key default : string) : string :=
  or_else (data key) default.

Inductive Method : Type := GET | POST.

Record Request : Type := mkRequest {
  method : Method;
  is_json : bool;
  json : Fields;                  (* [request.get_json()] *)
  form : Fields;                  (* [request.form.to_dict()] *)
  args : Fields;                  (* [request.args] *)
  remote_addr : option string;    (* [request.environ.get('REMOTE_ADDR')] *)
  user_agent : option string      (* [request.headers.get('User-Agent')] *)
}.

(** Where a redirect goes: the URL of an endpoint, by [url_for], or a URL
    given as text. *)
Inductive Location : Type :=
| Endpoint (name : string)
| Url (target : string).

(** What a view returns: [jsonify(body), status], or a message flashed
    with its category and then a redirect or a rendered template. *)
Inductive Reply : Type :=
| Json (body : Response) (status : Z)
| Redirect (flashed : string * string) (location : Location)
| Template (name : string) (flashed : option (string * string)).

Module Routes.
Import PyStr.

Section Views.
Context {core : Bcrypt.Core}.
Variable env : Env.

(** [request.get_json() if request.is_json else request.form.to_dict()] *)
Definition data_of (req : Request) : Fields :=
  if is_json req then json req else form req.

(** The name that [signup] passes on: first and last name joined, or else
    the field [name]. *)
Definition signup_name (data : Fields) : string :=
  let name := strip (get data "firstName" "" ++ " " ++ get data "lastName" "") in
  if negb (truthy name) then strip (get data "name" "") else name.

(** [signup]; a missing [result['message']] raises into the handler, whose
    reply stands in its place. *)
Definition signup (req : Request) : M Reply :=
  match method req with
  | GET => ret (Template "auth/signup.html" None)
  | POST =>
      let failed :=
        if is_json req then Json (failure "Registration failed") 500
        else Template "auth/signup.html"
               (Some ("Registration failed. Please try again.", "error")) in
      try_except
        (let data := data_of req in
         let name := signup_name data in
         let email := strip (get data "email" "") in
         let password := get data "password" "" in
         let preferred_language := get data "preferredLanguage" "en" in
         let phone := data "phone" in
         let bio := data "bio" in
         result <- AuthenticationService.register_user env name email password
                     preferred_language
                     {| kw_phone := Some phone; kw_bio := Some bio |} ;;
         if is_json req then
           ret (Json result (if success result then 201 else 400))
         else if success result then
           ret (Redirect ("Account created successfully! Please log in.",
                          "success")
                  (Endpoint "auth.login"))
         else
           match message result with
           | Some m => ret (Template "auth/signup.html" (Some (m, "error")))
           | None => ret failed
           end)
        (fun _ => ret failed)
  end.

(** [login] *)
Definition login (req : Request) : M Reply :=
  match method req with
  | GET => ret (Template "auth/login.html" None)
  | POST =>
      let failed :=
        if is_json req then Json (failure "Login failed") 500
        else Template "auth/login.html"
               (Some ("Login failed. Please try again.", "error")) in
      try_except
        (let data := data_of req in
         let email := strip (get data "email" "") in
         let password := get data "password" "" in
         let ip_address := remote_addr req in
         let user_agent := user_agent req in
         result <- AuthenticationService.authenticate_user env email password
                     ip_address user_agent ;;
         if is_json req then
           ret (Json result (if success result then 200 else 401))
         else if success result then
           let redirect_url :=
             match args req "redirect" with
             | Some target => Url target
             | None => Endpoint "main.index"
             end in
           ret (Redirect ("Login successful!", "success") redirect_url)
         else
           match message result with
           | Some m => ret (Template "auth/login.html" (Some (m, "error")))
           | None => ret failed
           end)
        (fun _ => ret failed)
  end.

End Views.

End Routes.

(** The start of the application in [create_app]: the tables are dropped
    and created again, and the default administrator is added when no user
    has its email. *)
Definition drop_all_create_all : M unit :=
  fun w => (Ret tt, {| committed := empty_store; working := empty_store;
                       faults := faults w |}).

Definition create_app {core : Bcrypt.Core} (env : Env) : M unit :=
  drop_all_create_all ;;;
  admin_user <- Db.user_by_email "admin@airecipehub.com" ;;
  match admin_user with
  | Some _ => ret tt
  | None =>
      let admin_user := User.init "Admin User" "admin@airecipehub.com" "en" in
      admin_user <- lift (User.set_password (entropy env) "admin123"
                            admin_user) ;;
      _ <- Db.add_user (now env) admin_user ;;
      Db.commit
  end.

(* ===================================================================== *)
(** ** Tokens and preferences *)
(* ===================================================================== *)

(** [generate_secure_token]: [string.ascii_letters + string.digits], and
    one draw of [secrets.choice] for each character (a draw is reduced
    modulo the 62 characters). *)
Definition token_alphabet : string :=
  "abcdefghijklmnopqrstuvwxyzABCDEFGHIJKLMNOPQRSTUVWXYZ0123456789".

Definition choice (alphabet : string) (draw : N) : ascii :=
  nth (N.to_nat (draw mod N.of_nat (String.length alphabet)))
    (list_ascii_of_string alphabet) "a"%char.

Fixpoint choices (alphabet : string) (k : nat) (draws : list N) : list ascii :=
  match k with
  | O => []
  | S k' =>
      match draws with
      | [] => choice alphabet 0 :: choices alphabet k' []
      | n :: t => choice alphabet n :: choices alphabet k' t
      end
  end.

Definition generate_secure_token (length : Z) (draws : list N) : string :=
  string_of_list_ascii (choices token_alphabet (Z.to_nat length) draws).

(** [UserPreference] of [models/user.py]: a table of values kept as text,
    one row for a user and a key. *)
Module UserPreference.

(** The values of Python that the table is used with, and the [json]
    module of the standard library: [as_text] is [isinstance(v, str)] with
    the text of the string, and [loads] gives [None] where
    [JSONDecodeError] is raised. *)
Class Json : Type := {
  value : Type;
  none : value;
  text : string -> value;
  as_text : value -> option string;
  dumps : value -> string;
  loads : string -> option value
}.

Record t : Type := mk {
  id : Z;
  user_id : Z;
  preference_key : string;
  preference_value : option string;
  created_at : Z;
  updated_at : Z
}.

Record Table : Type := mkTable {
  rows : list t;
  next_id : Z
}.

Definition same_key (uid : Z) (key : string) (p : t) : bool :=
  (user_id p =? uid) && String.eqb (preference_key p) key.

(** [query.filter_by(user_id=uid, preference_key=key).first()] *)
Definition first_of (uid : Z) (key : string) (tb : Table) : option t :=
  find (same_key uid key) (rows tb).

(** The row that [first()] returned after an assignment, and without it. *)
Fixpoint update_first (p : t -> bool) (f : t -> t) (l : list t) : list t :=
  match l with
  | [] => []
  | x :: r => if p x then f x :: r else x :: update_first p f r
  end.

Fixpoint remove_first (p : t -> bool) (l : list t) : list t :=
  match l with
  | [] => []
  | x :: r => if p x then r else x :: remove_first p r
  end.

Section Preferences.
Context {J : Json}.

(** [json.dumps(value) if not isinstance(value, str) else value] *)
Definition encode (v : value) : string :=
  match as_text v with
  | Some s => s
  | None => dumps v
  end.

(** [set_preference] *)
Definition set_preference (now : Z) (uid : Z) (key : string) (v : value)
    (tb : Table) : Table :=
  match first_of uid key tb with
  | Some _ =>
      {| rows :=
           update_first (same_key uid key)
             (fun p => {| id := id p; user_id := user_id p;
                          preference_key := preference_key p;
                          preference_value := Some (encode v);
                          created_at := created_at p;
                          updated_at := now |})
             (rows tb);
         next_id := next_id tb |}
  | None =>
      {| rows :=
           rows tb
           ++ [{| id := next_id tb; user_id := uid; preference_key := key;
                  preference_value := Some (encode v);
                  created_at := now; updated_at := now |}];
         next_id := next_id tb + 1 |}
  end.

(** [json.loads(text)], or the text itself where that raises; the column
    is nullable, and [json.loads(None)] raises [TypeError]. *)
Definition decode (stored : option string) : value :=
  match stored with
  | Some s =>
      match loads s with
      | Some v => v
      | None => text s
      end
  | None => none
  end.

(** [get_preference] *)
Definition get_preference (uid : Z) (key : string) (default : value)
    (tb : Table) : value :=
  match first_of uid key tb with
  | Some p => decode (preference_value p)
  | None => default
  end.

(** [delete_preference] *)
Definition delete_preference (uid : Z) (key : string) (tb : Table) : Table :=
  match first_of uid key tb with
  | Some _ =>
      {| rows := remove_first (same_key uid key) (rows tb);
         next_id := next_id tb |}
  | None => tb
  end.

End Preferences.

(** The constraint [_user_preference_uc]: one row for a user and a key. *)
Definition key_of (p : t) : Z * string := (user_id p, preference_key p).

Definition unique_keys (tb : Table) : Prop :=
  NoDup (map key_of (rows tb)).

(** A small instance with which the examples are evaluated: text, [None]
    and the two booleans, written [true], [false] and [null]. *)
Inductive small : Type := SNone | SText (s : string) | SBool (b : bool).

Definition small_json : Json :=
  {| value := small;
     none := SNone;
     text := SText;
     as_text := fun v => match v with SText s => Some s | _ => None end;
     dumps := fun v =>
       match v with
       | SNone => "null"
       | SBool true => "true"
       | SBool false => "false"
       | SText s => String (ascii_of_N 34) (s ++ String (ascii_of_N 34) "")
       end;
     loads := fun s =>
       if String.eqb s "true" then Some (SBool true)
       else if String.eqb s "false" then Some (SBool false)
       else if String.eqb s "null" then Some SNone
       else None |}.

End UserPreference.

(* ===================================================================== *)
(** * Properties *)
(* ===================================================================== *)

Unset Implicit Arguments.

(** ** Lists, keys and strings *)

Lemma metb_met (r : Policy.rule) (p : string) :
  Policy.metb r p = true <-> Policy.met r p.
Proof.
  destruct r; simpl; unfold Policy.contains;
    try (rewrite existsb_exists; reflexivity).
  apply Z.leb_le.
Qed.

Lemma truthy_false (s : string) : PyStr.truthy s = false <-> s = "".
Proof. destruct s; simpl; split; congruence. Qed.

Lemma distinct_NoDup (l : list string) : distinct l = true <-> NoDup l.
Proof.
  induction l as [|x t IH]; simpl.
  - split; [constructor | reflexivity].
  - rewrite andb_true_iff, negb_true_iff, IH. split.
    + intros [Hx Ht]. constructor; [|exact Ht].
      intro Hin. assert (existsb (String.eqb x) t = true); [|congruence].
      apply existsb_exists. exists x. split; [exact Hin | apply String.eqb_refl].
    + intro H. inversion H as [|? ? Hx Ht]; subst. split; [|exact Ht].
      destruct (existsb (String.eqb x) t) eqn:E; [|reflexivity].
      apply existsb_exists in E. destruct E as [y [Hy Exy]].
      apply String.eqb_eq in Exy. subst y. contradiction.
Qed.

(** Two rows of a table with a UNIQUE column that agree on it are one row. *)
Lemma unique_key {A : Type} (key : A -> string) (l : list A) (a b : A) :
  NoDup (map key l) -> In a l -> In b l -> key a = key b -> a = b.
Proof.
  induction l as [|x t IH]; simpl; [contradiction|].
  intros Hnd Ha Hb Hk. inversion Hnd as [|? ? Hx Ht]; subst.
  destruct Ha as [Ha|Ha], Hb as [Hb|Hb]; subst.
  - reflexivity.
  - exfalso. apply Hx. rewrite Hk. apply in_map. exact Hb.
  - exfalso. apply Hx. rewrite <- Hk. apply in_map. exact Ha.
  - apply IH; assumption.
Qed.

(** [.first()] on a filter that only the row [a] can pass. *)
Lemma find_the_one {A : Type} (p : A -> bool) (l : list A) (a : A) :
  In a l -> p a = true -> (forall b, In b l -> p b = true -> b = a) ->
  find p l = Some a.
Proof.
  intros Ha Hp Hu. destruct (find p l) as [b|] eqn:E.
  - apply find_some in E. destruct E as [Hb Hpb]. f_equal. apply Hu; assumption.
  - exfalso. pose proof (find_none p l E a Ha). congruence.
Qed.

(** ** The credential validator *)

Lemma validate_password_reasons (p : string) :
  snd (Validator.validate_password p) = Policy.unmet_reasons p.
Proof.
  unfold Validator.validate_password, Policy.unmet_reasons, Validator.append_if,
    Re.search_class.
  simpl. rewrite Z.ltb_antisym.
  destruct (8 <=? PyStr.len p);
    destruct (existsb PyStr.is_upper (list_ascii_of_string p));
    destruct (existsb PyStr.is_lower (list_ascii_of_string p));
    destruct (existsb PyStr.is_digit (list_ascii_of_string p));
    destruct (existsb Validator.special_class (list_ascii_of_string p));
    reflexivity.
Qed.

Lemma validate_password_flag (p : string) :
  fst (Validator.validate_password p) = true
  <-> snd (Validator.validate_password p) = [].
Proof.
  unfold Validator.validate_password. simpl.
  match goal with |- Nat.eqb (List.length ?l) 0 = true <-> ?l = [] =>
    destruct l; simpl; split; congruence end.
Qed.

Lemma unmet_reasons_nil (p : string) :
  Policy.unmet_reasons p = [] <-> forall r, Policy.metb r p = true.
Proof.
  unfold Policy.unmet_reasons, Policy.rules. split.
  - intros H r.
    destruct (Policy.metb r p) eqn:E; [reflexivity|]. exfalso.
    assert (Hin : In r (filter (fun r => negb (Policy.metb r p))
                          [Policy.MinLength; Policy.Uppercase; Policy.Lowercase;
                           Policy.Digit; Policy.Special])).
    { apply filter_In. split; [destruct r; simpl; tauto | rewrite E; reflexivity]. }
    apply (in_map Policy.reason) in Hin. rewrite H in Hin. exact Hin.
  - intro H. cbn [filter]. rewrite !H. reflexivity.
Qed.

Lemma unmet_reasons_count (p : string) (r : Policy.rule) :
  count_occ string_dec (Policy.unmet_reasons p) (Policy.reason r)
  = if Policy.metb r p then 0%nat else 1%nat.
Proof.
  unfold Policy.unmet_reasons, Policy.rules. cbn [filter].
  destruct (Policy.metb Policy.MinLength p) eqn:E1;
    destruct (Policy.metb Policy.Uppercase p) eqn:E2;
    destruct (Policy.metb Policy.Lowercase p) eqn:E3;
    destruct (Policy.metb Policy.Digit p) eqn:E4;
    destruct (Policy.metb Policy.Special p) eqn:E5;
    destruct r; rewrite ?E1, ?E2, ?E3, ?E4, ?E5; reflexivity.
Qed.

(** C7. [validate_password] returns no reason exactly when the password has
    at least 8 characters, an uppercase letter, a lowercase letter, a digit
    and a special character; its flag is true exactly then; and its reason
    list is made of one reason for each rule that is not met, in the order
    length, uppercase, lowercase, digit, special, each such reason occurring
    once and the reason of a rule that is met not at all. *)
Theorem validate_password_policy (p : string) :
  (snd (Validator.validate_password p) = [] <-> forall r, Policy.met r p)
  /\ (fst (Validator.validate_password p) = true
      <-> snd (Validator.validate_password p) = [])
  /\ snd (Validator.validate_password p)
     = map Policy.reason
         (filter (fun r => negb (Policy.metb r p))
            [Policy.MinLength; Policy.Uppercase; Policy.Lowercase;
             Policy.Digit; Policy.Special])
  /\ forall r,
       count_occ string_dec (snd (Validator.validate_password p))
         (Policy.reason r)
       = if Policy.metb r p then 0%nat else 1%nat.
Proof.
  repeat split.
  - rewrite validate_password_reasons, unmet_reasons_nil.
    intros H r. apply metb_met, H.
  - rewrite validate_password_reasons, unmet_reasons_nil.
    intros H r. apply metb_met, H.
  - apply validate_password_flag.
  - apply validate_password_flag.
  - apply validate_password_reasons.
  - intro r. rewrite validate_password_reasons. apply unmet_reasons_count.
Qed.

(** ** The password hasher *)

Section Hasher.
Context {core : Bcrypt.Core}.




End Hasher.



(** ** Primitive steps of [db.session] *)

Lemma commit_clean (w : World) :
  faults w = [] -> constraints_ok (working w) = true ->
  Db.commit w
  = (Ret tt, {| committed := working w; working := working w; faults := [] |}).
Proof. intros Hf Hc. unfold Db.commit. rewrite Hf, Hc. reflexivity. Qed.

Lemma emails_unique (st : Store) (a b : User.t) :
  constraints_ok st = true ->
  In a (users st) -> In b (users st) -> User.email a = User.email b -> a = b.
Proof.
  unfold constraints_ok. rewrite andb_true_iff. intros [H _].
  apply unique_key. apply distinct_NoDup. exact H.
Qed.

Lemma tokens_unique (st : Store) (a b : UserSession.t) :
  constraints_ok st = true ->
  In a (user_sessions st) -> In b (user_sessions st) ->
  UserSession.session_token a = UserSession.session_token b -> a = b.
Proof.
  unfold constraints_ok. rewrite andb_true_iff. intros [_ H].
  apply unique_key. apply distinct_NoDup. exact H.
Qed.

(** ** Token refresh *)

Section Refresh.
Import AuthenticationService.

(** C9. [refresh_access_token] leaves the world as it found it: no session
    row is created and no user or session row changes. It fails when no
    user has the id or the user is inactive, and otherwise answers with a
    new access token of one hour for that user and with no refresh token. *)
Theorem refresh_access_token_frame (env : Env) (user_id : Z) (w : World) :
  snd (refresh_access_token env user_id w) = w
  /\ ((forall u, In u (users (working w)) -> User.id u = user_id ->
                 User.is_active u = false) ->
      fst (refresh_access_token env user_id w)
      = Ret (failure "User not found or inactive"))
  /\ (forall u,
        fst (Db.get_user user_id w) = Ret (Some u) -> User.is_active u = true ->
        fst (refresh_access_token env user_id w)
        = Ret {| success := true; message := None; user := None;
                 access_token :=
                   Some (Jwt.create_access_token (now env) (access_jti env)
                           (User.id u) 3600 (claims_of u));
                 refresh_token := None; sessions := None |}).
Proof.
  unfold refresh_access_token, try_except, bind, Db.get_user, Db.read, ret.
  simpl. repeat split.
  - destruct (find _ (users (working w))) as [u|]; [|reflexivity].
    destruct (User.is_active u); reflexivity.
  - intro H. destruct (find _ (users (working w))) as [u|] eqn:E; [|reflexivity].
    apply find_some in E. destruct E as [Hin Hid]. apply Z.eqb_eq in Hid.
    rewrite (H u Hin Hid). reflexivity.
  - intros u Hu Ha. injection Hu as Hu. rewrite Hu, Ha. reflexivity.
Qed.

End Refresh.

Lemma refresh_access_token_frame_witness :
  let env := Demo.env 2000 "jti-2" in
  snd (AuthenticationService.refresh_access_token env 7
         Demo.ann_registered) = Demo.ann_registered
  /\ fst (AuthenticationService.refresh_access_token env 7
            Demo.ann_registered)
     = Ret (failure "User not found or inactive").
Proof.
  split.
  - apply refresh_access_token_frame.
  - apply (proj1 (proj2 (refresh_access_token_frame
                           (Demo.env 2000 "jti-2") 7 Demo.ann_registered))).
    intros u Hin Hid. vm_compute in Hin. destruct Hin as [Hu | []].
    subst u. vm_compute in Hid. discriminate.
Defined.

(** ** Login failures *)

Section Login.
Context {core : Bcrypt.Core}.
Import AuthenticationService.

Lemma no_active_user (email : string) (st : Store) :
  (forall u, In u (users st) -> User.email u = email -> User.is_active u = false) ->
  find (fun u => String.eqb (User.email u) email && User.is_active u) (users st)
  = None.
Proof.
  intro H. destruct (find _ (users st)) as [u|] eqn:E; [|reflexivity].
  apply find_some in E. destruct E as [Hin Hp].
  apply andb_true_iff in Hp. destruct Hp as [He Ha]. apply String.eqb_eq in He.
  rewrite (H u Hin He) in Ha. discriminate.
Qed.

Lemma the_active_user (email : string) (st : Store) (u : User.t) :
  constraints_ok st = true -> In u (users st) ->
  User.email u = email -> User.is_active u = true ->
  find (fun u => String.eqb (User.email u) email && User.is_active u) (users st)
  = Some u.
Proof.
  intros Hc Hin He Ha. apply find_the_one.
  - exact Hin.
  - rewrite He, String.eqb_refl, Ha. reflexivity.
  - intros b Hb Hp. apply andb_true_iff in Hp. destruct Hp as [Hbe _].
    apply String.eqb_eq in Hbe. apply (emails_unique st); congruence.
Qed.


End Login.


(** ** Session validity *)

Lemma tokens_modify_session (sid : Z) (f : UserSession.t -> UserSession.t)
    (l : list UserSession.t) :
  (forall s, UserSession.session_token (f s) = UserSession.session_token s) ->
  map UserSession.session_token
    (map (fun s => if UserSession.id s =? sid then f s else s) l)
  = map UserSession.session_token l.
Proof.
  intro Hf. rewrite map_map. apply map_ext. intro s.
  destruct (UserSession.id s =? sid); [apply Hf | reflexivity].
Qed.

Lemma constraints_modify_session (sid : Z) (f : UserSession.t -> UserSession.t)
    (st : Store) :
  (forall s, UserSession.session_token (f s) = UserSession.session_token s) ->
  constraints_ok (Db.modify_session sid f st) = constraints_ok st.
Proof.
  intro Hf. unfold constraints_ok, Db.modify_session. simpl.
  rewrite tokens_modify_session by exact Hf. reflexivity.
Qed.

Lemma in_modify_session (sid : Z) (f : UserSession.t -> UserSession.t)
    (st : Store) (s : UserSession.t) :
  In s (user_sessions st) -> UserSession.id s = sid ->
  In (f s) (user_sessions (Db.modify_session sid f st)).
Proof.
  intros Hin Hid. unfold Db.modify_session. simpl.
  apply in_map_iff. exists s. split; [|exact Hin].
  rewrite Hid, Z.eqb_refl. reflexivity.
Qed.

(** The one active session of a token, as the query of [is_session_valid]
    finds it. *)
Lemma the_active_session (st : Store) (s : UserSession.t) :
  constraints_ok st = true -> In s (user_sessions st) ->
  UserSession.is_active s = true ->
  find (fun x => String.eqb (UserSession.session_token x)
                   (UserSession.session_token s)
                 && UserSession.is_active x) (user_sessions st)
  = Some s.
Proof.
  intros Hc Hin Ha. apply find_the_one.
  - exact Hin.
  - rewrite String.eqb_refl, Ha. reflexivity.
  - intros b Hb Hp. apply andb_true_iff in Hp. destruct Hp as [Ht _].
    apply String.eqb_eq in Ht. apply (tokens_unique st); assumption.
Qed.

Section Validity.
Import AuthenticationService.
Variable env : Env.

(** What [is_session_valid] does when no commit is refused: it answers
    [False] on a token without active session and leaves the world alone;
    it revokes and commits an active session that has expired; it refreshes
    and commits the activity of any other active session. *)
Lemma is_session_valid_run (t : string) (w : World) :
  consistent w -> faults w = [] ->
  is_session_valid env t w
  = match find (fun x => String.eqb (UserSession.session_token x) t
                         && UserSession.is_active x)
            (user_sessions (committed w)) with
    | None => (Ret false, w)
    | Some s =>
        if UserSession.is_expired (now env) s then
          (Ret false,
           quiet (Db.modify_session (UserSession.id s) UserSession.revoke
                    (committed w)))
        else
          (Ret true,
           quiet (Db.modify_session (UserSession.id s)
                    (UserSession.update_activity (now env)) (committed w)))
    end.
Proof.
  intros [Hq Hc] Hf.
  unfold is_session_valid, try_except, bind, Db.active_session_by_token, Db.read.
  simpl. rewrite Hq.
  destruct (find _ (user_sessions (committed w))) as [s|]; [|reflexivity].
  destruct (UserSession.is_expired (now env) s).
  - unfold Db.update_session, Db.with_working. simpl.
    rewrite commit_clean; simpl.
    + rewrite Hq. reflexivity.
    + exact Hf.
    + rewrite Hq, constraints_modify_session; [exact Hc | reflexivity].
  - unfold Db.update_session, Db.with_working. simpl.
    rewrite commit_clean; simpl.
    + rewrite Hq. reflexivity.
    + exact Hf.
    + rewrite Hq, constraints_modify_session; [exact Hc | reflexivity].
Qed.

(** C5, as the code has it. With no commit refused, [is_session_valid]
    answers [True] exactly when a session with the token exists, is active
    and satisfies [now <= expires_at] (a session is expired only when
    [now > expires_at]); it never raises; and when it answers [True] the
    session is committed with [last_activity] set to the time of the call. *)
Theorem is_session_valid_iff (t : string) (w : World) :
  consistent w -> faults w = [] ->
  (fst (is_session_valid env t w) = Ret true
   <-> exists s, In s (user_sessions (committed w))
                 /\ UserSession.session_token s = t
                 /\ UserSession.is_active s = true
                 /\ now env <= UserSession.expires_at s)
  /\ (fst (is_session_valid env t w) = Ret true
      \/ fst (is_session_valid env t w) = Ret false)
  /\ (fst (is_session_valid env t w) = Ret true ->
      forall s, In s (user_sessions (committed w)) ->
                UserSession.session_token s = t ->
                UserSession.is_active s = true ->
                In (UserSession.update_activity (now env) s)
                  (user_sessions (committed (snd (is_session_valid env t w))))).
Proof.
  intros Hw Hf. rewrite (is_session_valid_run t w Hw Hf).
  destruct Hw as [Hq Hc].
  destruct (find _ (user_sessions (committed w))) as [s0|] eqn:E.
  - pose proof (find_some _ _ E) as [Hin0 Hp0].
    apply andb_true_iff in Hp0. destruct Hp0 as [Ht0 Ha0].
    apply String.eqb_eq in Ht0.
    assert (Hsame : forall s, In s (user_sessions (committed w)) ->
                              UserSession.session_token s = t -> s = s0).
    { intros s Hin Ht. apply (tokens_unique (committed w)); congruence. }
    unfold UserSession.is_expired.
    destruct (UserSession.expires_at s0 <? now env) eqn:Ex; simpl.
    + apply Z.ltb_lt in Ex. repeat split; try discriminate.
      * intros [s [Hin [Ht [_ Hle]]]]. rewrite (Hsame s Hin Ht) in Hle. lia.
      * right. reflexivity.
    + apply Z.ltb_ge in Ex. repeat split.
      * intros _. exists s0. repeat split; assumption.
      * left. reflexivity.
      * intros _ s Hin Ht _. rewrite (Hsame s Hin Ht).
        apply in_modify_session; [exact Hin0 | reflexivity].
  - simpl. repeat split; try discriminate.
    + intros [s [Hin [Ht [Ha _]]]].
      pose proof (find_none _ _ E s Hin) as Hn. simpl in Hn.
      rewrite Ht, String.eqb_refl, Ha in Hn. discriminate.
    + right. reflexivity.
Qed.

(** C10. With no commit refused, [is_session_valid] on the token of an
    active session whose [expires_at] lies in the past answers [False] and
    commits the revocation: the session is in the database with [is_active]
    false, and no session with that token is active any more. *)
Theorem is_session_valid_revokes_expired (s : UserSession.t) (w : World) :
  consistent w -> faults w = [] ->
  In s (user_sessions (committed w)) ->
  UserSession.is_active s = true ->
  UserSession.expires_at s < now env ->
  let out := is_session_valid env (UserSession.session_token s) w in
  fst out = Ret false
  /\ In (UserSession.revoke s) (user_sessions (committed (snd out)))
  /\ UserSession.is_active (UserSession.revoke s) = false
  /\ (forall x, In x (user_sessions (committed (snd out))) ->
                UserSession.session_token x = UserSession.session_token s ->
                UserSession.is_active x = false)
  /\ working (snd out) = committed (snd out).
Proof.
  intros Hw Hf Hin Ha Hex. cbv zeta.
  rewrite (is_session_valid_run _ w Hw Hf). destruct Hw as [Hq Hc].
  rewrite (the_active_session _ s Hc Hin Ha).
  unfold UserSession.is_expired. rewrite (proj2 (Z.ltb_lt _ _) Hex). simpl.
  repeat split.
  - apply in_map_iff. exists s. split; [|exact Hin].
    rewrite Z.eqb_refl. reflexivity.
  - intros x Hx Ht. apply in_map_iff in Hx. destruct Hx as [y [Hy Hiny]].
    assert (y = s).
    { apply (tokens_unique (committed w)); try assumption.
      rewrite <- Ht, <- Hy.
      destruct (UserSession.id y =? UserSession.id s); reflexivity. }
    subst y. rewrite Z.eqb_refl in Hy. subst x. reflexivity.
Qed.

End Validity.

Lemma is_session_valid_at_expiry_instant :
  let env := Demo.env 4600 "jti-2" in
  ~ (fst (AuthenticationService.is_session_valid env "jti-1" Demo.ann_registered)
     = Ret true
     <-> exists s, In s (user_sessions (committed Demo.ann_registered))
                   /\ UserSession.session_token s = "jti-1"
                   /\ UserSession.is_active s = true
                   /\ now env < UserSession.expires_at s).
Proof.
  intros env [H _].
  destruct (H eq_refl) as [s [Hin [_ [_ Hlt]]]].
  vm_compute in Hin. destruct Hin as [Hs | []]. subst s.
  vm_compute in Hlt. discriminate.
Qed.

Lemma demo_consistent : consistent Demo.ann_registered.
Proof. split; reflexivity. Qed.

Lemma is_session_valid_iff_witness :
  fst (AuthenticationService.is_session_valid (Demo.env 4600 "jti-2") "jti-1"
         Demo.ann_registered) = Ret true.
Proof.
  apply (proj1 (is_session_valid_iff (Demo.env 4600 "jti-2") "jti-1"
                  Demo.ann_registered demo_consistent eq_refl)).
  exists Demo.ann_session. repeat split.
  - left. reflexivity.
  - simpl. lia.
Defined.

Lemma is_session_valid_revokes_expired_witness :
  let out := AuthenticationService.is_session_valid (Demo.env 5000 "jti-2")
               "jti-1" Demo.ann_registered in
  fst out = Ret false
  /\ In (UserSession.revoke Demo.ann_session)
       (user_sessions (committed (snd out))).
Proof.
  pose proof (is_session_valid_revokes_expired (Demo.env 5000 "jti-2")
                Demo.ann_session Demo.ann_registered demo_consistent eq_refl)
    as H.
  assert (Hin : In Demo.ann_session
                  (user_sessions (committed Demo.ann_registered))).
  { left. reflexivity. }
  assert (Hex : UserSession.expires_at Demo.ann_session
                < now (Demo.env 5000 "jti-2")).
  { simpl. lia. }
  destruct (H Hin eq_refl Hex) as [H1 [H2 _]]. split; assumption.
Defined.

(** ** Revocation *)



Section Revocation.
Import AuthenticationService.







End Revocation.

(** ** Properties kept by every operation *)

Section Preservation.
Variable P : World -> Prop.

Lemma preserves_ret {A : Type} (a : A) : preserves P (ret a).
Proof. intros w H. exact H. Qed.

Lemma preserves_lift {A : Type} (r : res A) : preserves P (lift r).
Proof. intros w H. exact H. Qed.

Lemma preserves_read {A : Type} (f : Store -> A) : preserves P (Db.read f).
Proof. intros w H. exact H. Qed.

Lemma preserves_bind {A B : Type} (c : M A) (k : A -> M B) :
  preserves P c -> (forall a, preserves P (k a)) -> preserves P (bind c k).
Proof.
  intros Hc Hk w H. unfold bind. specialize (Hc w H).
  destruct (c w) as [[a|e] w']; simpl in *.
  - apply Hk. exact Hc.
  - exact Hc.
Qed.

Lemma preserves_try_except {A : Type} (body : M A) (handler : exn -> M A) :
  preserves P body -> (forall e, preserves P (handler e)) ->
  preserves P (try_except body handler).
Proof.
  intros Hb Hh w H. unfold try_except. specialize (Hb w H).
  destruct (body w) as [[a|e] w']; simpl in *.
  - exact Hb.
  - apply Hh. exact Hb.
Qed.

Lemma preserves_for_each {A : Type} (l : list A) (body : A -> M unit) :
  (forall x, preserves P (body x)) -> preserves P (for_each l body).
Proof.
  intro Hb. induction l as [|x l IH]; simpl.
  - apply preserves_ret.
  - apply preserves_bind; [apply Hb | intros _; exact IH].
Qed.

End Preservation.

(** Revocation is kept by each primitive of [db.session]. *)
Section RevokedKept.
Variable sid : Z.









End RevokedKept.

(** Every operation keeps what the primitives keep. *)
Section Respect.
Context {core : Bcrypt.Core}.
Import AuthenticationService.
Variable P : World -> Prop.
Hypothesis HP : db_respects P.

Ltac keep_step :=
  match goal with
  | |- preserves _ (ret _) => apply preserves_ret
  | |- preserves _ (lift _) => apply preserves_lift
  | |- preserves _ (Db.read _) => apply preserves_read
  | |- preserves _ Db.commit => apply (respects_commit HP)
  | |- preserves _ Db.rollback => apply (respects_rollback HP)
  | |- preserves _ (Db.add_user _ _) => apply (respects_add_user HP)
  | |- preserves _ (Db.add_session _ _) => apply (respects_add_session HP)
  | |- preserves _ (Db.update_user _ _) => apply (respects_update_user HP)
  | |- preserves _ (Db.delete_user _) => apply (respects_delete_user HP)
  | |- preserves _ (Db.update_session _ UserSession.revoke) =>
      apply (respects_revoke HP)
  | |- preserves _ (Db.update_session _ (UserSession.update_activity _)) =>
      apply (respects_touch HP)
  | |- preserves _ (for_each _ _) => apply preserves_for_each; intro
  | |- preserves _ (bind _ _) => apply preserves_bind; [|intro]
  | |- preserves _ (try_except _ _) => apply preserves_try_except; [|intro]
  | |- preserves _ (match ?x with _ => _ end) => destruct x
  end.

Ltac keep := repeat keep_step.

Lemma create_user_session_respects env uid tok ip ua :
  preserves P (create_user_session env uid tok ip ua).
Proof. unfold create_user_session. keep. Qed.

Lemma revoke_user_session_respects t : preserves P (revoke_user_session t).
Proof. unfold revoke_user_session, Db.session_by_token. keep. Qed.

Lemma revoke_all_user_sessions_respects uid :
  preserves P (revoke_all_user_sessions uid).
Proof. unfold revoke_all_user_sessions, Db.active_sessions_of. keep. Qed.

Lemma step_respects (env : Env) (o : op) (w : World) :
  P w -> P (step env o w).
Proof.
  assert (Hs := create_user_session_respects).
  assert (Hr := revoke_user_session_respects).
  assert (Ha := revoke_all_user_sessions_respects).
  revert w.
  destruct o; unfold step, forget;
    match goal with
    | |- forall w, _ -> P (snd (?c w)) => change (preserves P c)
    end.
  - unfold register_user, Db.user_by_email. keep; try apply Hs; keep.
  - unfold authenticate_user, update_last_login, Db.active_user_by_email.
    keep; try apply Hs; keep.
  - unfold refresh_access_token, Db.get_user. keep.
  - apply Hs.
  - apply Hr.
  - apply Ha.
  - unfold update_user_profile, Db.get_user. keep.
  - unfold change_user_password, Db.get_user. keep; try apply Ha; keep.
  - unfold generate_password_reset_token, Db.user_by_email. keep.
  - unfold reset_password_with_token. keep.
  - unfold verify_user_email, Db.get_user. keep.
  - unfold deactivate_user_account, Db.get_user. keep; try apply Ha; keep.
  - unfold delete_user_account, Db.get_user. keep.
  - unfold get_user_sessions, Db.active_sessions_of. keep.
  - unfold update_notification_preferences, Db.get_user. keep.
  - unfold update_privacy_settings, Db.get_user. keep.
  - unfold is_session_valid, Db.active_session_by_token. keep.
  - unfold logout. keep; try apply Hr; keep.
Qed.

Lemma run_respects (trace : list (Env * op)) (w : World) :
  P w -> P (run trace w).
Proof.
  revert w. induction trace as [|[env o] rest IH]; intros w H; simpl.
  - exact H.
  - apply IH. apply step_respects. exact H.
Qed.

End Respect.






(** ** Hashing under a generated salt *)

Lemma is_b64_salt_char (n : N) : Bcrypt.is_b64 (Bcrypt.salt_char n) = true.
Proof.
  unfold Bcrypt.salt_char.
  assert (Hlt : (N.to_nat (n mod 64) < 64)%nat).
  { assert (n mod 64 < 64)%N by (apply N.mod_lt; discriminate). lia. }
  assert (Hall : forallb
                   (fun i => Bcrypt.is_b64
                               (nth i (list_ascii_of_string Bcrypt.alphabet)
                                  "."%char))
                   (seq 0 64) = true) by (vm_compute; reflexivity).
  rewrite forallb_forall in Hall. apply Hall. apply in_seq.
  split; [apply Nat.le_0_l | exact Hlt].
Qed.

Lemma salt_chars_length (k : nat) (entropy : list N) :
  List.length (Bcrypt.salt_chars k entropy) = k.
Proof.
  revert entropy. induction k as [|k IH]; intro entropy; [reflexivity|].
  destruct entropy; simpl; rewrite IH; reflexivity.
Qed.

Lemma salt_chars_b64 (k : nat) (entropy : list N) :
  forallb Bcrypt.is_b64 (Bcrypt.salt_chars k entropy) = true.
Proof.
  revert entropy. induction k as [|k IH]; intro entropy; [reflexivity|].
  destruct entropy; cbn [Bcrypt.salt_chars forallb];
    rewrite is_b64_salt_char, IH; reflexivity.
Qed.

(** [gensalt()] always yields a well-formed prefix, of cost 12. *)
Lemma parse_gensalt (entropy : list N) :
  Bcrypt.parse_salt (Bcrypt.gensalt entropy)
  = Some (12%N, string_of_list_ascii (Bcrypt.salt_chars 22 entropy)).
Proof.
  unfold Bcrypt.gensalt, Bcrypt.parse_salt.
  pose proof (salt_chars_length 22 entropy) as Hlen.
  pose proof (salt_chars_b64 22 entropy) as Hb64.
  remember (Bcrypt.salt_chars 22 entropy) as l eqn:El. clear El.
  cbn [append list_ascii_of_string].
  rewrite list_ascii_of_string_of_list_ascii.
  rewrite firstn_all2 by lia. rewrite Hb64, Hlen. reflexivity.
Qed.

Lemma set_password_returns {core : Bcrypt.Core} (entropy : list N)
    (password : string) (u : User.t) :
  password <> "" ->
  User.set_password entropy password u
  = Ret (User.set_password_hash (Some (new_hash entropy password)) u).
Proof.
  intro Hp. unfold User.set_password, Bcrypt.hashpw, new_hash.
  destruct password; [congruence|]. cbn [PyStr.truthy negb].
  rewrite parse_gensalt. reflexivity.
Qed.

Lemma valid_password_nonempty (p : string) :
  fst (Validator.validate_password p) = true -> p <> "".
Proof. intros H E. subst p. vm_compute in H. discriminate. Qed.

(** ** Revoking all the sessions of a user *)

Lemma revoke_ids_users (ids : list Z) (st : Store) :
  users (revoke_ids ids st) = users st.
Proof.
  revert st. induction ids as [|k ids IH]; intro st; [reflexivity|].
  unfold revoke_ids in *. simpl. rewrite IH. reflexivity.
Qed.

Lemma revoke_ids_sessions (ids : list Z) (st : Store) :
  user_sessions (revoke_ids ids st)
  = map (fun s => if existsb (fun k => UserSession.id s =? k) ids
                  then UserSession.revoke s else s)
      (user_sessions st).
Proof.
  revert st. induction ids as [|k ids IH]; intro st.
  - simpl. rewrite map_id. reflexivity.
  - unfold revoke_ids in *. cbn [fold_left]. rewrite IH.
    unfold Db.modify_session. cbn [user_sessions]. rewrite map_map.
    apply map_ext. intro s. cbn [existsb].
    destruct (UserSession.id s =? k) eqn:E; simpl.
    + destruct (existsb _ ids); reflexivity.
    + reflexivity.
Qed.

Lemma constraints_revoke_ids (ids : list Z) (st : Store) :
  constraints_ok (revoke_ids ids st) = constraints_ok st.
Proof.
  revert st. induction ids as [|k ids IH]; intro st; [reflexivity|].
  unfold revoke_ids in *. cbn [fold_left]. rewrite IH.
  apply constraints_modify_session. reflexivity.
Qed.

Lemma for_each_revoke (l : list UserSession.t) (w : World) :
  for_each l
    (fun s => Db.update_session (UserSession.id s) UserSession.revoke) w
  = (Ret tt,
     {| committed := committed w;
        working := revoke_ids (map UserSession.id l) (working w);
        faults := faults w |}).
Proof.
  revert w. induction l as [|s l IH]; intro w.
  - destruct w; reflexivity.
  - cbn [for_each]. unfold bind at 1.
    unfold Db.update_session at 1, Db.with_working at 1. rewrite IH.
    reflexivity.
Qed.

Section RevokeAll.
Import AuthenticationService.

Lemma revoke_all_user_sessions_run (uid : Z) (w : World) :
  consistent w -> faults w = [] ->
  revoke_all_user_sessions uid w
  = let found :=
      filter (fun s => (UserSession.user_id s =? uid) && UserSession.is_active s)
        (user_sessions (committed w)) in
    (Ret (Z.of_nat (List.length found)),
     quiet (revoke_ids (map UserSession.id found) (committed w))).
Proof.
  intros [Hq Hc] Hf.
  unfold revoke_all_user_sessions, try_except, Db.active_sessions_of, Db.read.
  unfold bind at 1. rewrite Hq. unfold bind at 1. rewrite for_each_revoke.
  unfold bind at 1. rewrite commit_clean; cbn [working faults].
  - rewrite Hq. reflexivity.
  - exact Hf.
  - rewrite Hq, constraints_revoke_ids. exact Hc.
Qed.

(** After [revoke_all_user_sessions] every session of the user is inactive,
    whatever it was before. *)
Lemma revoke_ids_of_user (uid : Z) (st : Store) (x : UserSession.t) :
  In x (user_sessions
          (revoke_ids
             (map UserSession.id
                (filter (fun s => (UserSession.user_id s =? uid)
                                  && UserSession.is_active s)
                   (user_sessions st)))
             st)) ->
  UserSession.user_id x = uid -> UserSession.is_active x = false.
Proof.
  rewrite revoke_ids_sessions. intros Hx Hu.
  apply in_map_iff in Hx. destruct Hx as [y [Hy Hin]].
  destruct (existsb _ _) eqn:E; subst x; [reflexivity|].
  destruct (UserSession.is_active y) eqn:Ha; [|reflexivity]. exfalso.
  assert (Hex : existsb (fun k => UserSession.id y =? k)
                  (map UserSession.id
                     (filter (fun s => (UserSession.user_id s =? uid)
                                       && UserSession.is_active s)
                        (user_sessions st))) = true).
  { apply existsb_exists. exists (UserSession.id y). split.
    - apply in_map. apply filter_In. split; [exact Hin|].
      rewrite Hu, Z.eqb_refl, Ha. reflexivity.
    - apply Z.eqb_refl. }
  congruence.
Qed.

Lemma revoke_ids_keeps (ids : list Z) (st : Store) (x : UserSession.t) :
  In x (user_sessions (revoke_ids ids st)) ->
  exists y, In y (user_sessions st)
            /\ UserSession.session_token y = UserSession.session_token x
            /\ UserSession.user_id y = UserSession.user_id x.
Proof.
  rewrite revoke_ids_sessions. intro Hx.
  apply in_map_iff in Hx. destruct Hx as [y [Hy Hin]].
  exists y. split; [exact Hin|].
  destruct (existsb _ ids); subst x; split; reflexivity.
Qed.

End RevokeAll.

(** ** Changing the password *)

Lemma constraints_modify_user (uid : Z) (f : User.t -> User.t) (st : Store) :
  (forall u, User.email (f u) = User.email u) ->
  constraints_ok (Db.modify_user uid f st) = constraints_ok st.
Proof.
  intro Hf. unfold constraints_ok, Db.modify_user. cbn [users user_sessions].
  rewrite map_map. f_equal. f_equal. apply map_ext. intro u.
  destruct (User.id u =? uid); [apply Hf | reflexivity].
Qed.

Lemma policy_valid (p : string) :
  (forall r, Policy.met r p) -> Validator.validate_password p = (true, []).
Proof.
  intro H.
  assert (Hs : snd (Validator.validate_password p) = []).
  { rewrite validate_password_reasons. apply unmet_reasons_nil.
    intro r. apply metb_met, H. }
  assert (Hb : fst (Validator.validate_password p) = true).
  { apply validate_password_flag, Hs. }
  destruct (Validator.validate_password p) as [b l]. simpl in *.
  subst. reflexivity.
Qed.

Section ChangePassword.
Context {core : Bcrypt.Core}.
Import AuthenticationService.
Variable env : Env.

Lemma change_user_password_run (uid : Z) (current new : string) (w : World)
    (u : User.t) :
  consistent w -> faults w = [] ->
  fst (Db.get_user uid w) = Ret (Some u) ->
  User.check_password u current = Ret true ->
  (forall r, Policy.met r new) ->
  change_user_password env uid current new w
  = (Ret (succeeded "Password changed successfully"),
     let st := Db.modify_user uid
                 (User.set_password_hash (Some (new_hash (entropy env) new)))
                 (committed w) in
     quiet (revoke_ids
              (map UserSession.id
                 (filter (fun s => (UserSession.user_id s =? uid)
                                   && UserSession.is_active s)
                    (user_sessions st)))
              st)).
Proof.
  intros [Hq Hc] Hf Hu Hchk Hpol.
  unfold Db.get_user, Db.read in Hu. cbn [fst] in Hu. injection Hu as Hu.
  unfold change_user_password, try_except, Db.get_user, Db.read.
  unfold bind at 1. rewrite Hu. unfold bind at 1, lift at 1. rewrite Hchk.
  cbn [negb]. unfold validate_password. rewrite (policy_valid new Hpol).
  cbn [negb]. unfold bind at 1, lift at 1.
  rewrite (set_password_returns (entropy env) new u)
    by (apply valid_password_nonempty; rewrite (policy_valid new Hpol);
        reflexivity).
  unfold bind at 1, Db.update_session, Db.update_user, Db.with_working.
  unfold bind at 1. rewrite commit_clean; cbn [working faults committed].
  - unfold bind at 1.
    rewrite revoke_all_user_sessions_run.
    + cbv zeta. rewrite Hq. reflexivity.
    + split; [reflexivity|]. cbn [committed].
      rewrite constraints_modify_user; [rewrite Hq; exact Hc | reflexivity].
    + reflexivity.
  - exact Hf.
  - rewrite constraints_modify_user; [rewrite Hq; exact Hc | reflexivity].
Qed.

End ChangePassword.

Lemma revoke_inactive (s : UserSession.t) :
  UserSession.is_active s = false -> UserSession.revoke s = s.
Proof. destruct s. simpl. intro H. subst. reflexivity. Qed.

Lemma no_active_session (t : string) (st : Store) :
  (forall x, In x (user_sessions st) -> UserSession.session_token x = t ->
             UserSession.is_active x = false) ->
  find (fun x => String.eqb (UserSession.session_token x) t
                 && UserSession.is_active x) (user_sessions st)
  = None.
Proof.
  intro H. destruct (find _ (user_sessions st)) as [x|] eqn:E; [|reflexivity].
  apply find_some in E. destruct E as [Hin Hp].
  apply andb_true_iff in Hp. destruct Hp as [Ht Ha]. apply String.eqb_eq in Ht.
  rewrite (H x Hin Ht) in Ha. discriminate.
Qed.

Section ChangePasswordClaim.
Context {core : Bcrypt.Core}.
Import AuthenticationService.

(** C2. When no commit is refused, [change_user_password] for a user whose
    current password verifies and with a new password that meets the five
    rules succeeds; the stored hash of the user becomes the bcrypt hash of
    the new password; every session of the user is inactive afterwards, each
    session that existed before being still there, revoked; and
    [is_session_valid] answers [False] on the token of each of them, at any
    later time. *)
Theorem change_user_password_revokes_sessions
    (env : Env) (uid : Z) (current new : string) (w : World) (u : User.t) :
  consistent w -> faults w = [] ->
  fst (Db.get_user uid w) = Ret (Some u) ->
  User.check_password u current = Ret true ->
  (forall r, Policy.met r new) ->
  let out := change_user_password env uid current new w in
  fst out = Ret (succeeded "Password changed successfully")
  /\ Bcrypt.hashpw new (Bcrypt.gensalt (entropy env))
     = Ret (new_hash (entropy env) new)
  /\ (forall x, In x (users (committed (snd out))) -> User.id x = uid ->
                User.password_hash x = Some (new_hash (entropy env) new))
  /\ (forall x, In x (user_sessions (committed (snd out))) ->
                UserSession.user_id x = uid -> UserSession.is_active x = false)
  /\ (forall s, In s (user_sessions (committed w)) ->
                UserSession.user_id s = uid ->
                In (UserSession.revoke s) (user_sessions (committed (snd out)))
                /\ (forall x, In x (user_sessions (committed (snd out))) ->
                              UserSession.session_token x
                              = UserSession.session_token s ->
                              UserSession.is_active x = false)
                /\ forall later,
                     is_session_valid later (UserSession.session_token s)
                       (snd out)
                     = (Ret false, snd out)).
Proof.
  intros Hw Hf Hu Hchk Hpol. cbv zeta.
  rewrite (change_user_password_run env uid current new w u Hw Hf Hu Hchk Hpol).
  cbv zeta. cbn [fst snd quiet committed].
  destruct Hw as [Hq Hc].
  set (st := Db.modify_user uid
               (User.set_password_hash (Some (new_hash (entropy env) new)))
               (committed w)).
  set (ids := map UserSession.id
                (filter (fun s => (UserSession.user_id s =? uid)
                                  && UserSession.is_active s)
                   (user_sessions st))).
  assert (Hall : forall x, In x (user_sessions (revoke_ids ids st)) ->
                           UserSession.user_id x = uid ->
                           UserSession.is_active x = false).
  { intros x Hx. apply (revoke_ids_of_user uid st x). exact Hx. }
  assert (Htok : forall s, In s (user_sessions (committed w)) ->
                   UserSession.user_id s = uid ->
                   forall x, In x (user_sessions (revoke_ids ids st)) ->
                     UserSession.session_token x = UserSession.session_token s ->
                     UserSession.is_active x = false).
  { intros s Hs Hsu x Hx Ht.
    destruct (revoke_ids_keeps ids st x Hx) as [y [Hy [Hyt Hyu]]].
    assert (y = s).
    { apply (tokens_unique (committed w)); try assumption. congruence. }
    subst y. apply Hall; [exact Hx | congruence]. }
  split; [reflexivity|]. split.
  { unfold Bcrypt.hashpw, new_hash. rewrite parse_gensalt. reflexivity. }
  split.
  { intros x Hx Hid. rewrite revoke_ids_users in Hx. unfold st in Hx.
    cbn [Db.modify_user users] in Hx. apply in_map_iff in Hx.
    destruct Hx as [y [Hy Hin]].
    destruct (User.id y =? uid) eqn:E; subst x; [reflexivity|].
    apply Z.eqb_neq in E. contradiction. }
  split; [exact Hall|].
  intros s Hs Hsu. split; [|split].
  - rewrite revoke_ids_sessions. apply in_map_iff. exists s.
    split; [|exact Hs].
    destruct (existsb _ ids) eqn:E; [reflexivity|].
    destruct (UserSession.is_active s) eqn:Ha.
    + exfalso.
      assert (Hex : existsb (fun k => UserSession.id s =? k) ids = true).
      { apply existsb_exists. exists (UserSession.id s). split.
        - apply in_map. apply filter_In. split; [exact Hs|].
          rewrite Hsu, Z.eqb_refl, Ha. reflexivity.
        - apply Z.eqb_refl. }
      congruence.
    + symmetry. apply revoke_inactive. exact Ha.
  - apply Htok; assumption.
  - intro later.
    rewrite is_session_valid_run.
    + cbn [quiet committed]. rewrite no_active_session; [reflexivity|].
      apply Htok; assumption.
    + split; [reflexivity|]. cbn [quiet committed].
      rewrite constraints_revoke_ids. unfold st.
      rewrite constraints_modify_user; [exact Hc | reflexivity].
    + reflexivity.
Qed.

End ChangePasswordClaim.

Lemma change_user_password_revokes_sessions_witness :
  let out :=
    @AuthenticationService.change_user_password Bcrypt.stand_in
      (Demo.env 2000 "jti-2") 1 "Str0ng!Pass" "N3w&Better" Demo.ann_registered in
  fst out = Ret (succeeded "Password changed successfully")
  /\ forall later,
       AuthenticationService.is_session_valid later "jti-1" (snd out)
       = (Ret false, snd out).
Proof.
  assert (Hpol : forall r, Policy.met r "N3w&Better").
  { intro r. apply metb_met. destruct r; reflexivity. }
  assert (Hin : In Demo.ann_session
                  (user_sessions (committed Demo.ann_registered))).
  { left. reflexivity. }
  pose proof (@change_user_password_revokes_sessions Bcrypt.stand_in
                (Demo.env 2000 "jti-2") 1 "Str0ng!Pass" "N3w&Better"
                Demo.ann_registered Demo.ann_user demo_consistent eq_refl
                eq_refl eq_refl Hpol) as H.
  cbv zeta in H. destruct H as [H1 [_ [_ [_ H5]]]].
  split; [exact H1|].
  destruct (H5 Demo.ann_session Hin eq_refl) as [_ [_ H6]]. exact H6.
Defined.

(** ** Session creation, registration and login, step by step *)

Lemma quiet_committed (w : World) :
  working w = committed w -> faults w = [] -> quiet (committed w) = w.
Proof. destruct w. simpl. intros; subst. reflexivity. Qed.

Section Runs.
Context {core : Bcrypt.Core}.
Import AuthenticationService.
Variable env : Env.

(** [create_user_session], when no commit is refused: the row is committed
    unless its token is already in the table, in which case the answer is
    [None] and nothing is stored. *)
Lemma create_user_session_run (uid : Z) (tok : Jwt.token)
    (ip ua : option string) (w : World) :
  working w = committed w -> faults w = [] ->
  create_user_session env uid tok ip ua w
  = let s := Db.stamp_session (now env) (committed w)
               (UserSession.new uid (Jwt.get_jti tok) ip ua
                  (fromtimestamp env (Jwt.exp tok))) in
    if constraints_ok (Db.insert_session s (committed w))
    then (Ret (Some s), quiet (Db.insert_session s (committed w)))
    else (Ret None, quiet (committed w)).
Proof.
  intros Hq Hf. unfold create_user_session, try_except.
  unfold bind at 1, Db.add_session at 1. unfold bind at 1.
  unfold Db.commit. cbn [faults working committed]. rewrite Hf, Hq.
  cbv zeta. cbn [tl].
  destruct (constraints_ok _); reflexivity.
Qed.

Lemma register_user_run (name email password lang : string)
    (kw : RegisterKwargs) (w : World) :
  working w = committed w -> faults w = [] ->
  register_user env name email password lang kw w
  = if (negb (PyStr.truthy name) || negb (PyStr.truthy (PyStr.strip name)))%bool
    then (Ret (failure "Name is required"), w)
    else if (negb (PyStr.truthy email) || negb (Validator.validate_email email))%bool
    then (Ret (failure "Valid email is required"), w)
    else if negb (fst (Validator.validate_password password))
    then (Ret (failure (PyStr.join "; "
                          (snd (Validator.validate_password password)))), w)
    else
      match find (fun u => String.eqb (User.email u)
                             (PyStr.strip (PyStr.lower email)))
              (users (committed w)) with
      | Some _ => (Ret (failure "Email already registered"), w)
      | None =>
          let user :=
            Db.stamp_user (now env) (committed w)
              (assign_if (kw_bio kw) User.set_bio
                 (assign_if (kw_phone kw) User.set_phone
                    (User.set_password_hash
                       (Some (new_hash (entropy env) password))
                       (User.init (PyStr.strip name)
                          (PyStr.strip (PyStr.lower email)) lang)))) in
          let st1 := Db.insert_user user (committed w) in
          if constraints_ok st1 then
            let tok :=
              Jwt.create_access_token (now env) (access_jti env)
                (User.id user) (Jwt.hours 1)
                [("user_type", "regular"); ("email", User.email user)] in
            let s := Db.stamp_session (now env) st1
                       (UserSession.new (User.id user) (access_jti env)
                          None None (fromtimestamp env (Jwt.exp tok))) in
            (Ret {| success := true;
                    message := Some "User registered successfully";
                    user := Some (User.to_dict user);
                    access_token := Some tok;
                    refresh_token :=
                      Some (Jwt.create_refresh_token (now env)
                              (refresh_jti env) (User.id user) (Jwt.days 30));
                    sessions := None |},
             quiet (if constraints_ok (Db.insert_session s st1)
                    then Db.insert_session s st1 else st1))
          else (Ret (failure "Registration failed"), quiet (committed w))
      end.
Proof.
  intros Hq Hf. unfold register_user, try_except.
  destruct (negb (PyStr.truthy name) || negb (PyStr.truthy (PyStr.strip name)))%bool;
    [reflexivity|].
  unfold validate_email.
  destruct (negb (PyStr.truthy email) || negb (Validator.validate_email email))%bool;
    [reflexivity|].
  unfold validate_password.
  destruct (Validator.validate_password password) as [ok errs] eqn:Ev.
  cbn [fst snd]. destruct ok; cbn [negb]; [|reflexivity].
  assert (Hne : password <> "").
  { apply valid_password_nonempty. rewrite Ev. reflexivity. }
  unfold bind at 1, Db.user_by_email, Db.read. rewrite Hq.
  destruct (find _ (users (committed w))); [reflexivity|].
  unfold bind at 1, lift at 1.
  rewrite (set_password_returns (entropy env) password _ Hne).
  unfold bind at 1, Db.add_user at 1. unfold bind at 1.
  unfold Db.commit at 1. cbn [faults working committed]. rewrite Hf, Hq.
  cbv zeta. cbn [tl].
  destruct (constraints_ok (Db.insert_user _ (committed w))) eqn:Ec.
  - unfold bind at 1. rewrite create_user_session_run by reflexivity.
    cbv zeta. cbn [committed].
    destruct (constraints_ok (Db.insert_session _ _)); reflexivity.
  - reflexivity.
Qed.

End Runs.

Section LoginRun.
Context {core : Bcrypt.Core}.
Import AuthenticationService.
Variable env : Env.

Lemma authenticate_user_run (email password : string) (ip ua : option string)
    (w : World) :
  working w = committed w -> faults w = [] ->
  authenticate_user env email password ip ua w
  = if (negb (PyStr.truthy email) || negb (PyStr.truthy password))%bool
    then (Ret (failure "Email and password are required"), w)
    else
      match find (fun u => String.eqb (User.email u)
                             (PyStr.strip (PyStr.lower email))
                           && User.is_active u)
              (users (committed w)) with
      | None => (Ret (failure "Invalid credentials"), w)
      | Some u =>
          match User.check_password u password with
          | Raise _ => (Ret (failure "Authentication failed"), w)
          | Ret false => (Ret (failure "Invalid credentials"), w)
          | Ret true =>
              let st1 := Db.modify_user (User.id u)
                           (User.set_last_login_at (Some (now env)))
                           (committed w) in
              if constraints_ok st1 then
                let user := User.set_last_login_at (Some (now env)) u in
                let tok :=
                  Jwt.create_access_token (now env) (access_jti env)
                    (User.id user) (Jwt.hours 1) (claims_of user) in
                let s := Db.stamp_session (now env) st1
                           (UserSession.new (User.id user) (access_jti env)
                              ip ua (fromtimestamp env (Jwt.exp tok))) in
                (Ret {| success := true;
                        message := Some "Login successful";
                        user := Some (User.to_dict user);
                        access_token := Some tok;
                        refresh_token :=
                          Some (Jwt.create_refresh_token (now env)
                                  (refresh_jti env) (User.id user)
                                  (Jwt.days 30));
                        sessions := None |},
                 quiet (if constraints_ok (Db.insert_session s st1)
                        then Db.insert_session s st1 else st1))
              else (Ret (failure "Authentication failed"), quiet (committed w))
          end
      end.
Proof.
  intros Hq Hf. unfold authenticate_user, try_except.
  destruct (negb (PyStr.truthy email) || negb (PyStr.truthy password))%bool;
    [reflexivity|].
  unfold bind at 1, Db.active_user_by_email, Db.read. rewrite Hq.
  destruct (find _ (users (committed w))) as [u|]; [|reflexivity].
  unfold bind at 1, lift at 1.
  destruct (User.check_password u password) as [[|]|e]; try reflexivity.
  cbn [negb]. unfold bind at 1, update_last_login.
  unfold bind at 1, Db.update_user, Db.with_working. unfold bind at 1.
  unfold Db.commit at 1. cbn [faults working committed]. rewrite Hf, Hq.
  cbn [tl].
  destruct (constraints_ok (Db.modify_user _ _ (committed w))) eqn:Ec.
  - unfold bind at 1, ret at 1. rewrite create_user_session_run by reflexivity.
    cbv zeta. cbn [committed].
    destruct (constraints_ok (Db.insert_session _ _)); reflexivity.
  - reflexivity.
Qed.

End LoginRun.

Lemma distinct_snoc (l : list string) (x : string) :
  distinct l = true -> (forall y, In y l -> y <> x) ->
  distinct (l ++ [x]) = true.
Proof.
  induction l as [|a l IH]; intros Hd Hx; [reflexivity|].
  simpl in *. apply andb_true_iff in Hd. destruct Hd as [Ha Hl].
  apply andb_true_iff. split.
  - rewrite existsb_app, negb_true_iff, orb_false_iff. split.
    + apply negb_true_iff. exact Ha.
    + simpl. rewrite orb_false_r. apply String.eqb_neq. apply Hx. left.
      reflexivity.
  - apply IH; [exact Hl|]. intros y Hy. apply Hx. right. exact Hy.
Qed.

Lemma constraints_insert_session (s : UserSession.t) (st : Store) :
  constraints_ok st = true ->
  (forall x, In x (user_sessions st) ->
             UserSession.session_token x <> UserSession.session_token s) ->
  constraints_ok (Db.insert_session s st) = true.
Proof.
  unfold constraints_ok, Db.insert_session. cbn [users user_sessions].
  intros Hc Hfresh. apply andb_true_iff in Hc. destruct Hc as [He Ht].
  rewrite He, map_app. cbn [map andb]. apply distinct_snoc; [exact Ht|].
  intros y Hy. apply in_map_iff in Hy. destruct Hy as [x [Hx Hin]].
  subst y. apply Hfresh. exact Hin.
Qed.


(** ** One session for each issued token *)

Section IssuedTokens.
Context {core : Bcrypt.Core}.
Import AuthenticationService.



End IssuedTokens.


(** The same happens without any refusal when the token id is already in
    the table: the UNIQUE constraint rejects the row and the login still
    succeeds; the only row with that [jti] is the older one. *)
Lemma authenticate_user_success_with_reused_jti :
  let out :=
    @AuthenticationService.authenticate_user Bcrypt.stand_in
      (Demo.env 2000 "jti-1") "a@b.com" "Str0ng!Pass" None None
      Demo.ann_registered in
  exists r, fst out = Ret r /\ success r = true
            /\ user_sessions (committed (snd out)) = [Demo.ann_session].
Proof.
  eexists. vm_compute. repeat split.
Qed.


(** ** Normalising an email: [email.lower().strip()] *)

Lemma isspace_lower_char (c : ascii) :
  PyStr.isspace (PyStr.lower_char c) = PyStr.isspace c.
Proof.
  destruct c as [b0 b1 b2 b3 b4 b5 b6 b7].
  destruct b0, b1, b2, b3, b4, b5, b6, b7; reflexivity.
Qed.

Lemma lower_char_idempotent (c : ascii) :
  PyStr.lower_char (PyStr.lower_char c) = PyStr.lower_char c.
Proof.
  destruct c as [b0 b1 b2 b3 b4 b5 b6 b7].
  destruct b0, b1, b2, b3, b4, b5, b6, b7; reflexivity.
Qed.

Lemma dropwhile_map (p : ascii -> bool) (f : ascii -> ascii) (l : list ascii) :
  (forall c, p (f c) = p c) ->
  PyStr.dropwhile p (map f l) = map f (PyStr.dropwhile p l).
Proof.
  intro H. induction l as [|c l IH]; [reflexivity|].
  simpl. rewrite H. destruct (p c); [exact IH | reflexivity].
Qed.

Lemma dropwhile_idempotent (p : ascii -> bool) (l : list ascii) :
  PyStr.dropwhile p (PyStr.dropwhile p l) = PyStr.dropwhile p l.
Proof.
  induction l as [|c l IH]; [reflexivity|].
  simpl. destruct (p c) eqn:E; [exact IH|]. simpl. rewrite E. reflexivity.
Qed.

Lemma dropwhile_snoc (p : ascii -> bool) (l : list ascii) (x : ascii) :
  p x = false ->
  PyStr.dropwhile p (l ++ [x]) = (PyStr.dropwhile p l ++ [x])%list.
Proof.
  intro H. induction l as [|c l IH]; simpl.
  - rewrite H. reflexivity.
  - destruct (p c); [exact IH | reflexivity].
Qed.

Lemma rstrip_cons (x : ascii) (l : list ascii) :
  PyStr.isspace x = false ->
  PyStr.rstrip_l (x :: l) = x :: PyStr.rstrip_l l.
Proof.
  intro H. unfold PyStr.rstrip_l. simpl.
  rewrite dropwhile_snoc by exact H. rewrite rev_app_distr. reflexivity.
Qed.

Lemma rstrip_idempotent (l : list ascii) :
  PyStr.rstrip_l (PyStr.rstrip_l l) = PyStr.rstrip_l l.
Proof.
  unfold PyStr.rstrip_l. rewrite rev_involutive, dropwhile_idempotent.
  reflexivity.
Qed.

Lemma strip_l_idempotent (l : list ascii) :
  PyStr.strip_l (PyStr.strip_l l) = PyStr.strip_l l.
Proof.
  unfold PyStr.strip_l, PyStr.lstrip_l.
  destruct (PyStr.dropwhile PyStr.isspace l) as [|x m] eqn:E; [reflexivity|].
  assert (Hx : PyStr.isspace x = false).
  { clear -E. induction l as [|c l IH]; simpl in E; [discriminate|].
    destruct (PyStr.isspace c) eqn:Ec; [apply IH; exact E|].
    injection E as E1 E2. subst. exact Ec. }
  rewrite (rstrip_cons x m Hx). simpl. rewrite Hx.
  rewrite (rstrip_cons x _ Hx), rstrip_idempotent. reflexivity.
Qed.

Lemma strip_l_map_lower (l : list ascii) :
  PyStr.strip_l (map PyStr.lower_char l)
  = map PyStr.lower_char (PyStr.strip_l l).
Proof.
  unfold PyStr.strip_l, PyStr.rstrip_l, PyStr.lstrip_l.
  rewrite (dropwhile_map _ _ l isspace_lower_char).
  rewrite <- map_rev, (dropwhile_map _ _ _ isspace_lower_char), map_rev.
  reflexivity.
Qed.

(** Normalising twice is normalising once: the email that [User.__init__]
    stores is the email that [register_user] looked up. *)
Lemma normalize_idempotent (s : string) :
  PyStr.strip (PyStr.lower (PyStr.strip (PyStr.lower s)))
  = PyStr.strip (PyStr.lower s).
Proof.
  unfold PyStr.strip, PyStr.lower.
  rewrite !list_ascii_of_string_of_list_ascii.
  rewrite <- strip_l_map_lower, strip_l_idempotent.
  rewrite map_map.
  rewrite (map_ext _ PyStr.lower_char lower_char_idempotent).
  reflexivity.
Qed.

(** ** Registering an email twice *)

Lemma constraints_insert_user (u : User.t) (st : Store) :
  constraints_ok st = true ->
  (forall x, In x (users st) -> User.email x <> User.email u) ->
  constraints_ok (Db.insert_user u st) = true.
Proof.
  unfold constraints_ok, Db.insert_user. cbn [users user_sessions].
  intros Hc Hfresh. apply andb_true_iff in Hc. destruct Hc as [He Ht].
  rewrite Ht, andb_true_r, map_app. cbn [map]. apply distinct_snoc; [exact He|].
  intros y Hy. apply in_map_iff in Hy. destruct Hy as [x [Hx Hin]].
  subst y. apply Hfresh. exact Hin.
Qed.

Lemma valid_email_truthy (e : string) :
  Validator.validate_email e = true -> PyStr.truthy e = true.
Proof. destruct e; [vm_compute; discriminate | reflexivity]. Qed.

Lemma stripped_name_truthy (name : string) :
  PyStr.strip name <> "" ->
  (negb (PyStr.truthy name) || negb (PyStr.truthy (PyStr.strip name)))%bool
  = false.
Proof.
  intro H. destruct name; [exfalso; apply H; reflexivity|].
  destruct (PyStr.strip (String a name)); [congruence | reflexivity].
Qed.

Section Duplicates.
Context {core : Bcrypt.Core}.
Import AuthenticationService.


End Duplicates.



(** ** The scenario of the specification *)

(** Ann registers: one session. A login with a wrong password is refused
    with the generic message. A login with the right password succeeds and
    leaves two active sessions for Ann. *)
Example ann_scenario :
  let service_login := @AuthenticationService.authenticate_user Bcrypt.stand_in in
  let w1 := Demo.ann_registered in
  let wrong := service_login (Demo.env 2000 "jti-2") "a@b.com" "Wr0ng!Pass"
                 None None w1 in
  let right := service_login (Demo.env 3000 "jti-3") "A@B.com" "Str0ng!Pass"
                 None None (snd wrong) in
  user_sessions (committed w1) = [Demo.ann_session]
  /\ fst wrong = Ret (failure "Invalid credentials")
  /\ (exists r, fst right = Ret r /\ success r = true)
  /\ List.length
       (filter (fun s => (UserSession.user_id s =? 1) && UserSession.is_active s)
          (user_sessions (committed (snd right)))) = 2%nat.
Proof.
  split; [reflexivity|]. split; [reflexivity|].
  split; [eexists; split; reflexivity | reflexivity].
Qed.

Example validate_email_examples :
  Validator.validate_email "A@B.com" = true
  /\ Validator.validate_email " a@b.com " = false
  /\ Validator.validate_email "ann@example" = false
  /\ Validator.validate_email "ann@example.c" = false.
Proof. repeat split. Qed.

Example validate_password_examples :
  Validator.validate_password "Str0ng!Pass" = (true, [])
  /\ Validator.validate_password "abc"
     = (false, [Validator.msg_length; Validator.msg_upper;
                Validator.msg_number; Validator.msg_special]).
Proof. split; reflexivity. Qed.

(** ** Consistency and absence of faults along every run *)

Lemma no_fault_respected : db_respects (fun w => faults w = []).
Proof.
  constructor; try (intros; intros w H; exact H).
  intros w H. unfold Db.commit. rewrite H. simpl.
  destruct (constraints_ok (working w)); reflexivity.
Qed.

Lemma committed_constraints_respected :
  db_respects (fun w => constraints_ok (committed w) = true).
Proof.
  constructor; try (intros; intros w H; exact H).
  intros w H. unfold Db.commit.
  destruct (match faults w with b :: _ => b | [] => false end);
    [exact H|].
  destruct (constraints_ok (working w)) eqn:E; [exact E | exact H].
Qed.

Section HoareRules.
Variables P Q E : World -> Prop.

Lemma hoare_ret {A : Type} (a : A) : hoare P (ret a) P E.
Proof. intros w H. exact H. Qed.

Lemma hoare_lift {A : Type} (r : res A) : hoare P (lift r) P P.
Proof. intros w H. unfold lift. destruct r; exact H. Qed.

Lemma hoare_read {A : Type} (f : Store -> A) : hoare P (Db.read f) P E.
Proof. intros w H. exact H. Qed.

Lemma hoare_write (f : Store -> Store) :
  hoare P (Db.with_working f) anything E.
Proof. intros w H. exact I. Qed.

Lemma hoare_add_user (t : Z) (u : User.t) :
  hoare P (Db.add_user t u) anything E.
Proof. intros w H. exact I. Qed.

Lemma hoare_add_session (t : Z) (s : UserSession.t) :
  hoare P (Db.add_session t s) anything E.
Proof. intros w H. exact I. Qed.

Lemma hoare_commit : hoare P Db.commit settled settled.
Proof.
  intros w H. unfold Db.commit.
  destruct (match faults w with b :: _ => b | [] => false end);
    [reflexivity|].
  destruct (constraints_ok (working w)); reflexivity.
Qed.

Lemma hoare_rollback : hoare P Db.rollback settled E.
Proof. intros w H. reflexivity. Qed.

Lemma hoare_bind {A B : Type} (c : M A) (k : A -> M B) (R : World -> Prop) :
  hoare P c R E -> (forall a, hoare R (k a) Q E) -> hoare P (bind c k) Q E.
Proof.
  intros Hc Hk w H. unfold bind. specialize (Hc w H).
  destruct (c w) as [[a|e] w'].
  - apply Hk. exact Hc.
  - exact Hc.
Qed.

Lemma hoare_try_except {A : Type} (body : M A) (handler : exn -> M A)
    (E' : World -> Prop) :
  hoare P body Q E' -> (forall e, hoare E' (handler e) Q E) ->
  hoare P (try_except body handler) Q E.
Proof.
  intros Hb Hh w H. unfold try_except. specialize (Hb w H).
  destruct (body w) as [[a|e] w'].
  - exact Hb.
  - apply Hh. exact Hb.
Qed.

Lemma hoare_for_each_write {A : Type} (l : list A) (f : A -> Store -> Store) :
  hoare P (for_each l (fun x => Db.with_working (f x))) anything E.
Proof.
  intros w _. revert w. induction l as [|x l IH]; intro w; simpl.
  - exact I.
  - unfold bind, Db.with_working at 1. apply IH.
Qed.

End HoareRules.

Ltac settle_step :=
  match goal with
  | |- hoare _ (ret _) _ _ => apply hoare_ret
  | |- hoare _ (lift _) _ _ => apply hoare_lift
  | |- hoare _ (Db.read _) _ _ => apply hoare_read
  | |- hoare _ Db.commit _ _ => apply hoare_commit
  | |- hoare _ Db.rollback _ _ => apply hoare_rollback
  | |- hoare _ (Db.with_working _) _ _ => apply hoare_write
  | |- hoare _ (Db.add_user _ _) _ _ => apply hoare_add_user
  | |- hoare _ (Db.add_session _ _) _ _ => apply hoare_add_session
  | |- hoare _ (for_each _ _) _ _ => apply hoare_for_each_write
  | |- hoare _ (bind _ _) _ _ => eapply hoare_bind; [|intro]
  | |- hoare _ (try_except _ _) _ _ => eapply hoare_try_except; [|intro]
  | |- hoare _ (match ?x with _ => _ end) _ _ => destruct x
  end.

Ltac settle := repeat settle_step.

Section Settling.
Context {core : Bcrypt.Core}.
Import AuthenticationService.

Lemma create_user_session_settles P E env uid tok ip ua :
  hoare P (create_user_session env uid tok ip ua) settled E.
Proof. unfold create_user_session. settle. Qed.

Lemma revoke_all_user_sessions_settles P E uid :
  hoare P (revoke_all_user_sessions uid) settled E.
Proof.
  unfold revoke_all_user_sessions, Db.active_sessions_of, Db.update_session.
  settle.
Qed.

Lemma revoke_user_session_settles E t :
  hoare settled (revoke_user_session t) settled E.
Proof.
  unfold revoke_user_session, Db.session_by_token, Db.update_session. settle.
Qed.

Lemma step_settles (env : Env) (o : op) (w : World) :
  settled w -> settled (step env o w).
Proof.
  assert (Hs := create_user_session_settles).
  assert (Ha := revoke_all_user_sessions_settles).
  assert (Hr := revoke_user_session_settles).
  assert (Hoare : forall (A : Type) (c : M A),
            hoare settled c settled settled ->
            forall w, settled w -> settled (forget c w)).
  { intros A c Hc w0 H0. unfold forget. specialize (Hc w0 H0).
    destruct (c w0) as [[a|e] w']; exact Hc. }
  revert w. destruct o; unfold step; apply Hoare.
  - unfold register_user, Db.user_by_email. settle; try apply Hs; settle.
  - unfold authenticate_user, update_last_login, Db.active_user_by_email,
      Db.update_user.
    settle; try apply Hs; settle.
  - unfold refresh_access_token, Db.get_user. settle.
  - apply Hs.
  - apply Hr.
  - apply Ha.
  - unfold update_user_profile, Db.get_user, Db.update_user. settle.
  - unfold change_user_password, Db.get_user, Db.update_user.
    settle; try apply Ha; settle.
  - unfold generate_password_reset_token, Db.user_by_email. settle.
  - unfold reset_password_with_token. settle.
  - unfold verify_user_email, Db.get_user, Db.update_user. settle.
  - unfold deactivate_user_account, Db.get_user, Db.update_user.
    settle; try apply Ha; settle.
  - unfold delete_user_account, Db.get_user, Db.delete_user. settle.
  - unfold get_user_sessions, Db.active_sessions_of. settle.
  - unfold update_notification_preferences, Db.get_user, Db.update_user. settle.
  - unfold update_privacy_settings, Db.get_user, Db.update_user. settle.
  - unfold is_session_valid, Db.active_session_by_token, Db.update_session.
    settle.
  - unfold logout. settle; try apply Hr; settle.
Qed.

(** Between two calls the world is consistent, whatever the calls, their
    environments and the refusals of the store were; in particular every
    world reached from the empty store is. *)
Lemma consistent_run (trace : list (Env * op)) (w : World) :
  consistent w -> consistent (run trace w).
Proof.
  revert w. induction trace as [|[env o] rest IH]; intros w H; simpl.
  - exact H.
  - apply IH. destruct H as [Hq Hc]. split.
    + apply step_settles. exact Hq.
    + apply (step_respects _ committed_constraints_respected env o w Hc).
Qed.

Lemma no_fault_run (trace : list (Env * op)) (w : World) :
  faults w = [] -> faults (run trace w) = [].
Proof. apply (run_respects _ no_fault_respected). Qed.

(** The hypotheses of the properties above hold of every reachable world. *)
Lemma reachable_consistent (w : World) :
  reachable w -> consistent w /\ faults w = [].
Proof.
  intros [trace Hw]. subst w. split.
  - apply consistent_run. split; reflexivity.
  - apply no_fault_run. reflexivity.
Qed.

End Settling.

(* ===================================================================== *)
(** * Further properties of the code *)
(* ===================================================================== *)

(** ** The matcher of [Re] decides the language of its pattern *)

Lemma matches_cat_inv (a b : Re.regex) (l : list ascii) :
  matches (Re.Cat a b) l ->
  exists l1 l2, l = (l1 ++ l2)%list /\ matches a l1 /\ matches b l2.
Proof.
  intro H. remember (Re.Cat a b) as r eqn:Er.
  destruct H; try discriminate. injection Er as Ea Eb. subst.
  eexists. eexists. repeat split; eassumption.
Qed.

Lemma matches_alt_inv (a b : Re.regex) (l : list ascii) :
  matches (Re.Alt a b) l -> matches a l \/ matches b l.
Proof.
  intro H. remember (Re.Alt a b) as r eqn:Er.
  destruct H; try discriminate; injection Er as Ea Eb; subst;
    [left | right]; assumption.
Qed.

Lemma matches_class_inv (p : ascii -> bool) (l : list ascii) :
  matches (Re.Class p) l -> exists c, l = [c] /\ p c = true.
Proof.
  intro H. remember (Re.Class p) as r eqn:Er.
  destruct H; try discriminate. injection Er as Ep. subst.
  eexists. split; [reflexivity | assumption].
Qed.

Lemma matches_eps_inv (l : list ascii) : matches Re.Eps l -> l = [].
Proof.
  intro H. remember Re.Eps as r eqn:Er. destruct H; try discriminate.
  reflexivity.
Qed.

Lemma matches_void_inv (l : list ascii) : ~ matches Re.Void l.
Proof.
  intro H. remember Re.Void as r eqn:Er. destruct H; discriminate.
Qed.

Lemma nullable_matches (r : Re.regex) :
  Re.nullable r = true <-> matches r [].
Proof.
  induction r as [| |p|a IHa b IHb|a IHa b IHb|a IHa]; simpl.
  - split; [discriminate | intro H; destruct (matches_void_inv _ H)].
  - split; [constructor | reflexivity].
  - split; [discriminate|]. intro H. apply matches_class_inv in H.
    destruct H as [c [H _]]. discriminate.
  - rewrite andb_true_iff, IHa, IHb. split.
    + intros [Ha Hb]. apply (matches_cat Ha Hb).
    + intro H. apply matches_cat_inv in H. destruct H as [l1 [l2 [El [H1 H2]]]].
      symmetry in El. apply app_eq_nil in El. destruct El; subst.
      split; assumption.
  - rewrite orb_true_iff, IHa, IHb. split.
    + intros [H|H]; [apply matches_alt_l | apply matches_alt_r]; exact H.
    + apply matches_alt_inv.
  - split; [constructor | reflexivity].
Qed.

Lemma matches_star_cons (a : Re.regex) (c : ascii) (l : list ascii) :
  matches (Re.Star a) (c :: l) ->
  exists l1 l2, l = (l1 ++ l2)%list /\ matches a (c :: l1)
                /\ matches (Re.Star a) l2.
Proof.
  intro H. remember (Re.Star a) as r eqn:Er. remember (c :: l) as s eqn:Es.
  revert c l Es.
  induction H as [| | | | | |a' l1 l2 H1 IH1 H2 IH2]; intros c0 l0 Es;
    try discriminate.
  injection Er as Er. subst a'.
  destruct l1 as [|x l1].
  - simpl in Es. apply IH2; [reflexivity | exact Es].
  - simpl in Es. injection Es as Ex El. subst x l0.
    exists l1, l2. repeat split; assumption.
Qed.

Lemma deriv_matches (r : Re.regex) (c : ascii) (l : list ascii) :
  matches (Re.deriv c r) l <-> matches r (c :: l).
Proof.
  revert l. induction r as [| |p|a IHa b IHb|a IHa b IHb|a IHa]; intro l; simpl.
  - split; intro H; destruct (matches_void_inv _ H).
  - split; intro H; [destruct (matches_void_inv _ H)|].
    apply matches_eps_inv in H. discriminate.
  - destruct (p c) eqn:E.
    + split; intro H.
      * apply matches_eps_inv in H. subst l. constructor. exact E.
      * apply matches_class_inv in H. destruct H as [x [Hx _]].
        injection Hx as _ Hl. subst l. constructor.
    + split; intro H; [destruct (matches_void_inv _ H)|].
      apply matches_class_inv in H. destruct H as [x [Hx Hp]].
      injection Hx as Hc _. subst x. congruence.
  - assert (Hcat : matches (Re.Cat (Re.deriv c a) b) l
                   <-> exists l1 l2, l = (l1 ++ l2)%list
                                     /\ matches a (c :: l1) /\ matches b l2).
    { split.
      - intro H. apply matches_cat_inv in H.
        destruct H as [l1 [l2 [El [H1 H2]]]].
        exists l1, l2. split; [exact El|]. split; [apply IHa|]; assumption.
      - intros [l1 [l2 [El [H1 H2]]]]. subst l.
        apply matches_cat; [apply IHa|]; assumption. }
    assert (Hgoal : matches (Re.Cat a b) (c :: l)
                    <-> (exists l1 l2, l = (l1 ++ l2)%list
                                       /\ matches a (c :: l1) /\ matches b l2)
                        \/ (matches a [] /\ matches b (c :: l))).
    { split.
      - intro H. apply matches_cat_inv in H.
        destruct H as [l1 [l2 [El [H1 H2]]]].
        destruct l1 as [|x l1]; simpl in El.
        + right. subst l2. split; assumption.
        + injection El as Hx Hl'. subst x l. left. exists l1, l2.
          repeat split; assumption.
      - intros [[l1 [l2 [El [H1 H2]]]] | [H1 H2]].
        + subst l. apply (matches_cat H1 H2).
        + apply (matches_cat H1 H2). }
    rewrite Hgoal. destruct (Re.nullable a) eqn:En.
    + split.
      * intro H. apply matches_alt_inv in H. destruct H as [H|H].
        -- left. apply Hcat. exact H.
        -- right. split; [apply nullable_matches; exact En | apply IHb; exact H].
      * intros [H | [_ H]].
        -- apply matches_alt_l. apply Hcat. exact H.
        -- apply matches_alt_r. apply IHb. exact H.
    + rewrite Hcat. split; [intro H; left; exact H|].
      intros [H | [H _]]; [exact H|].
      apply nullable_matches in H. congruence.
  - split; intro H.
    + apply matches_alt_inv in H.
      destruct H as [H|H]; [apply matches_alt_l, IHa | apply matches_alt_r, IHb];
        exact H.
    + apply matches_alt_inv in H.
      destruct H as [H|H]; [apply matches_alt_l, IHa | apply matches_alt_r, IHb];
        exact H.
  - split; intro H.
    + apply matches_cat_inv in H. destruct H as [l1 [l2 [El [H1 H2]]]].
      subst l. apply IHa in H1. apply (matches_star_app H1 H2).
    + apply matches_star_cons in H. destruct H as [l1 [l2 [El [H1 H2]]]].
      subst l. apply matches_cat; [apply IHa|]; assumption.
Qed.

Lemma fullmatch_matches (r : Re.regex) (l : list ascii) :
  Re.fullmatch_l r l = true <-> matches r l.
Proof.
  revert r. induction l as [|c l IH]; intro r; simpl.
  - apply nullable_matches.
  - rewrite IH. apply deriv_matches.
Qed.

Lemma matches_star_class (p : ascii -> bool) (l : list ascii) :
  matches (Re.Star (Re.Class p)) l <-> forallb p l = true.
Proof.
  split.
  - intro H. remember (Re.Star (Re.Class p)) as r eqn:Er.
    induction H as [| | | | | |a l1 l2 H1 IH1 H2 IH2]; try discriminate.
    + reflexivity.
    + injection Er as Ea. subst a. apply matches_class_inv in H1.
      destruct H1 as [c [Hc Hp]]. subst l1. simpl. rewrite Hp.
      apply IH2. reflexivity.
  - induction l as [|c l IH]; simpl; intro H; [constructor|].
    apply andb_true_iff in H. destruct H as [Hc Hl].
    apply (matches_star_app (l1 := [c]) (matches_class p c Hc) (IH Hl)).
Qed.

Lemma matches_plus_class (p : ascii -> bool) (l : list ascii) :
  matches (Re.Plus (Re.Class p)) l <-> l <> [] /\ forallb p l = true.
Proof.
  unfold Re.Plus. split.
  - intro H. apply matches_cat_inv in H. destruct H as [l1 [l2 [El [H1 H2]]]].
    apply matches_class_inv in H1. destruct H1 as [c [Hc Hp]]. subst l1 l.
    apply matches_star_class in H2. simpl. rewrite Hp, H2.
    split; [discriminate | reflexivity].
  - intros [Hne H]. destruct l as [|c l]; [congruence|]. simpl in H.
    apply andb_true_iff in H. destruct H as [Hc Hl].
    apply (matches_cat (l1 := [c]) (matches_class p c Hc)).
    apply matches_star_class. exact Hl.
Qed.

Lemma matches_at_least2_class (p : ascii -> bool) (l : list ascii) :
  matches (Re.AtLeast2 (Re.Class p)) l
  <-> (2 <= List.length l)%nat /\ forallb p l = true.
Proof.
  unfold Re.AtLeast2. split.
  - intro H. apply matches_cat_inv in H. destruct H as [l1 [l2 [El [H1 H2]]]].
    apply matches_class_inv in H1. destruct H1 as [c [Hc Hp]]. subst l1 l.
    fold (Re.Plus (Re.Class p)) in H2. apply matches_plus_class in H2.
    destruct H2 as [Hne H2]. simpl. rewrite Hp, H2.
    split; [|reflexivity]. destruct l2; [congruence | simpl; lia].
  - intros [Hlen H]. destruct l as [|c l]; [simpl in Hlen; lia|]. simpl in H.
    apply andb_true_iff in H. destruct H as [Hc Hl].
    apply (matches_cat (l1 := [c]) (matches_class p c Hc)).
    fold (Re.Plus (Re.Class p)). apply matches_plus_class.
    split; [|exact Hl]. destruct l; [simpl in Hlen; lia | discriminate].
Qed.

Lemma matches_lit (c : ascii) (l : list ascii) :
  matches (Re.Lit c) l <-> l = [c].
Proof.
  unfold Re.Lit. split.
  - intro H. apply matches_class_inv in H. destruct H as [x [Hx Hp]].
    apply Ascii.eqb_eq in Hp. subst. reflexivity.
  - intro H. subst l. constructor. apply Ascii.eqb_refl.
Qed.

Lemma email_pattern_shape (l : list ascii) :
  matches Validator.email_pattern l <-> address_shape l.
Proof.
  unfold Validator.email_pattern, address_shape. split.
  - intro H.
    apply matches_cat_inv in H. destruct H as [local [r1 [E1 [Hlocal H]]]].
    apply matches_cat_inv in H. destruct H as [at_ [r2 [E2 [Hat H]]]].
    apply matches_cat_inv in H. destruct H as [domain [r3 [E3 [Hdomain H]]]].
    apply matches_cat_inv in H. destruct H as [dot [tld [E4 [Hdot Htld]]]].
    apply matches_lit in Hat, Hdot. subst.
    apply matches_plus_class in Hlocal, Hdomain.
    apply matches_at_least2_class in Htld.
    exists local, domain, tld. simpl. tauto.
  - intros [local [domain [tld [El [Hl1 [Hl2 [Hd1 [Hd2 [Ht1 Ht2]]]]]]]]].
    subst l.
    apply matches_cat; [apply matches_plus_class; tauto|].
    apply (matches_cat (l1 := ["@"%char])); [apply matches_lit; reflexivity|].
    apply matches_cat; [apply matches_plus_class; tauto|].
    apply (matches_cat (l1 := ["."%char])); [apply matches_lit; reflexivity|].
    apply matches_at_least2_class. tauto.
Qed.

Lemma validate_email_accepts_aux (email : string) :
  Validator.validate_email email = true
  <-> address_shape (list_ascii_of_string email)
      \/ exists l, list_ascii_of_string email = (l ++ [Re.newline])%list
                   /\ address_shape l.
Proof.
  unfold Validator.validate_email, Re.match_anchored. cbv zeta.
  rewrite orb_true_iff, fullmatch_matches, email_pattern_shape.
  split; (intros [H|H]; [left; exact H | right]).
  - destruct (rev (list_ascii_of_string email)) as [|c t] eqn:E;
      [discriminate|].
    apply andb_true_iff in H. destruct H as [Hc Ht].
    apply Ascii.eqb_eq in Hc. subst c.
    apply fullmatch_matches, email_pattern_shape in Ht.
    exists (rev t). split; [|exact Ht].
    rewrite <- (rev_involutive (list_ascii_of_string email)), E. reflexivity.
  - destruct H as [l [El Hl]]. rewrite El, rev_app_distr. simpl.
    rewrite rev_involutive.
    apply fullmatch_matches, email_pattern_shape. exact Hl.
Qed.

(** X1. [validate_email] accepts exactly the addresses [local@domain.tld]
    of the pattern, and the same addresses followed by one newline (the [$]
    of the pattern also holds before a final newline). *)
Theorem validate_email_accepts (email : string) :
  Validator.validate_email email = true
  <-> address_shape (list_ascii_of_string email)
      \/ exists l, list_ascii_of_string email = (l ++ [Re.newline])%list
                   /\ address_shape l.
Proof. apply validate_email_accepts_aux. Qed.

(** ** Whitespace in an accepted email *)

Lemma class_not_space (c : ascii) :
  (Validator.local_class c || Validator.domain_class c
   || Ascii.eqb c "@" || Ascii.eqb c ".")%bool = true ->
  PyStr.isspace c = false.
Proof.
  destruct c as [b0 b1 b2 b3 b4 b5 b6 b7].
  destruct b0, b1, b2, b3, b4, b5, b6, b7; intro H;
    first [reflexivity | discriminate H].
Qed.

Lemma alpha_is_local (c : ascii) :
  Validator.alpha_class c = true -> Validator.local_class c = true.
Proof.
  unfold Validator.alpha_class, Validator.local_class, Validator.alnum.
  intro H. apply orb_true_iff in H.
  destruct H as [H|H]; rewrite H; rewrite ?orb_true_r; reflexivity.
Qed.

Lemma address_no_space (l : list ascii) :
  address_shape l -> forall c, In c l -> PyStr.isspace c = false.
Proof.
  intros [local [domain [tld [El [_ [Hl [_ [Hd [_ Ht]]]]]]]]] c Hc. subst l.
  apply class_not_space.
  rewrite forallb_forall in Hl, Hd, Ht.
  apply in_app_iff in Hc. destruct Hc as [Hc | [Hc | Hc]].
  - rewrite (Hl c Hc). reflexivity.
  - subst c. reflexivity.
  - apply in_app_iff in Hc. destruct Hc as [Hc | [Hc | Hc]].
    + rewrite (Hd c Hc). rewrite orb_true_r. reflexivity.
    + subst c. reflexivity.
    + rewrite (alpha_is_local c (Ht c Hc)). reflexivity.
Qed.

Lemma dropwhile_no_space (l : list ascii) :
  (forall c, In c l -> PyStr.isspace c = false) ->
  PyStr.dropwhile PyStr.isspace l = l.
Proof.
  intro H. destruct l as [|x t]; [reflexivity|]. simpl.
  rewrite (H x (or_introl eq_refl)). reflexivity.
Qed.

Lemma strip_no_space (l : list ascii) :
  (forall c, In c l -> PyStr.isspace c = false) -> PyStr.strip_l l = l.
Proof.
  intro H. unfold PyStr.strip_l, PyStr.lstrip_l, PyStr.rstrip_l.
  rewrite (dropwhile_no_space l H). rewrite dropwhile_no_space.
  - apply rev_involutive.
  - intros c Hc. apply H. apply in_rev. exact Hc.
Qed.

Lemma strip_final_newline (l : list ascii) :
  (forall c, In c l -> PyStr.isspace c = false) ->
  PyStr.strip_l (l ++ [Re.newline]) = l.
Proof.
  intro H. unfold PyStr.strip_l, PyStr.lstrip_l, PyStr.rstrip_l.
  destruct l as [|x t]; [reflexivity|].
  assert (Hx : PyStr.isspace x = false) by (apply H; left; reflexivity).
  cbn [app PyStr.dropwhile]. rewrite Hx.
  change (x :: (t ++ [Re.newline])%list) with ((x :: t) ++ [Re.newline])%list.
  rewrite rev_app_distr. cbn [rev app PyStr.dropwhile].
  change (PyStr.isspace Re.newline) with true. cbv iota.
  rewrite dropwhile_no_space.
  - apply (rev_involutive (x :: t)).
  - intros c Hc. apply H. apply in_rev. exact Hc.
Qed.

(** X2. The only whitespace that an email accepted by [validate_email] can
    carry is one final newline: [.strip()] gives back the address itself,
    and the normalised email [email.lower().strip()] is the address in lower
    case. *)
Theorem validated_email_normal_form (email : string) :
  Validator.validate_email email = true ->
  exists l,
    address_shape l
    /\ (list_ascii_of_string email = l
        \/ list_ascii_of_string email = (l ++ [Re.newline])%list)
    /\ list_ascii_of_string (PyStr.strip email) = l
    /\ list_ascii_of_string (PyStr.strip (PyStr.lower email))
       = map PyStr.lower_char l.
Proof.
  intro H. apply validate_email_accepts_aux in H.
  destruct H as [H | [l [El H]]].
  - exists (list_ascii_of_string email).
    pose proof (address_no_space _ H) as Hn.
    split; [exact H|]. split; [left; reflexivity|].
    unfold PyStr.strip, PyStr.lower.
    rewrite !list_ascii_of_string_of_list_ascii.
    rewrite strip_l_map_lower, (strip_no_space _ Hn). split; reflexivity.
  - exists l. pose proof (address_no_space _ H) as Hn.
    split; [exact H|]. split; [right; exact El|].
    unfold PyStr.strip, PyStr.lower.
    rewrite !list_ascii_of_string_of_list_ascii.
    rewrite strip_l_map_lower, El, (strip_final_newline _ Hn).
    split; reflexivity.
Qed.

Lemma validated_email_normal_form_witness :
  exists l,
    address_shape l
    /\ list_ascii_of_string
         (PyStr.strip (PyStr.lower ("A@B.com" ++ String Re.newline "")))
       = map PyStr.lower_char l.
Proof.
  destruct (validated_email_normal_form
              ("A@B.com" ++ String Re.newline "") eq_refl)
    as [l [H1 [_ [_ H4]]]].
  exists l. split; [exact H1 | exact H4].
Defined.

(** ** Hashing and verifying a password *)

Lemma list_ascii_of_string_app (a b : string) :
  list_ascii_of_string (a ++ b)
  = (list_ascii_of_string a ++ list_ascii_of_string b)%list.
Proof.
  induction a as [|c a IH]; simpl; [reflexivity|]. rewrite IH. reflexivity.
Qed.

Lemma string_of_list_ascii_app (a b : list ascii) :
  string_of_list_ascii (a ++ b)
  = string_of_list_ascii a ++ string_of_list_ascii b.
Proof.
  induction a as [|c a IH]; simpl; [reflexivity|]. rewrite IH. reflexivity.
Qed.

Lemma prefix_gensalt (entropy : list N) :
  Bcrypt.prefix (Bcrypt.gensalt entropy) = Bcrypt.gensalt entropy.
Proof.
  unfold Bcrypt.prefix, Bcrypt.gensalt.
  pose proof (salt_chars_length 22 entropy) as Hlen.
  remember (Bcrypt.salt_chars 22 entropy) as l eqn:El. clear El.
  cbn [append list_ascii_of_string].
  rewrite list_ascii_of_string_of_list_ascii.
  do 7 rewrite firstn_cons. rewrite firstn_all2 by lia. reflexivity.
Qed.

Section HashRoundTrip.
Context {core : Bcrypt.Core}.

(** A hash written by [set_password] is well formed, and hashing the same
    password under it gives the hash back. *)
Lemma hashpw_under_own_hash (entropy : list N) (password : string) :
  Bcrypt.hashpw password (new_hash entropy password)
  = Ret (new_hash entropy password).
Proof.
  unfold Bcrypt.hashpw, new_hash. rewrite prefix_gensalt.
  pose proof (salt_chars_length 22 entropy) as Hlen.
  pose proof (salt_chars_b64 22 entropy) as Hb64.
  set (digest := Bcrypt.raw 12 _ password).
  assert (Hparse : forall d,
            Bcrypt.parse_salt (Bcrypt.gensalt entropy ++ d)
            = Some (12%N, string_of_list_ascii
                            (Bcrypt.salt_chars 22 entropy))).
  { intro d. unfold Bcrypt.parse_salt, Bcrypt.gensalt.
    remember (Bcrypt.salt_chars 22 entropy) as l eqn:El. clear El digest.
    rewrite list_ascii_of_string_app.
    cbn [append list_ascii_of_string app].
    rewrite list_ascii_of_string_of_list_ascii.
    rewrite firstn_app, Hlen, Nat.sub_diag, firstn_O.
    rewrite app_nil_r, firstn_all2 by lia.
    rewrite Hb64, length_app, Hlen. reflexivity. }
  rewrite Hparse. f_equal. f_equal.
  unfold Bcrypt.prefix, Bcrypt.gensalt.
  rewrite !list_ascii_of_string_app.
  cbn [append list_ascii_of_string app].
  rewrite list_ascii_of_string_of_list_ascii.
  do 7 rewrite firstn_cons.
  rewrite firstn_app, Hlen, Nat.sub_diag, firstn_O.
  rewrite app_nil_r, firstn_all2 by lia. reflexivity.
Qed.

Lemma check_password_new_hash (entropy : list N) (password : string)
    (u : User.t) :
  password <> "" ->
  User.check_password
    (User.set_password_hash (Some (new_hash entropy password)) u) password
  = Ret true.
Proof.
  intro Hp. unfold User.check_password, User.check_password_hash.
  cbn [User.password_hash User.set_password_hash].
  destruct password as [|c p]; [congruence|].
  assert (Hh : PyStr.truthy (new_hash entropy (String c p)) = true).
  { unfold new_hash. rewrite prefix_gensalt. reflexivity. }
  rewrite Hh. cbn [PyStr.truthy negb orb].
  unfold Bcrypt.checkpw. rewrite hashpw_under_own_hash.
  rewrite String.eqb_refl. reflexivity.
Qed.

(** X3. [set_password] refuses the empty password with [ValueError] and
    accepts every other one; the password then verifies against the hash
    that was stored, whatever the draws of [gensalt] were, and the empty
    password never verifies. *)
Theorem set_password_then_check_password (entropy : list N)
    (password : string) (u : User.t) :
  User.set_password entropy "" u
  = Raise (ValueError "Password cannot be empty")
  /\ (password <> "" ->
      exists u',
        User.set_password entropy password u = Ret u'
        /\ User.check_password u' password = Ret true
        /\ User.check_password u' "" = Ret false
        /\ User.email u' = User.email u /\ User.id u' = User.id u).
Proof.
  split; [reflexivity|]. intro Hp.
  eexists. split; [apply set_password_returns; exact Hp|].
  split; [apply check_password_new_hash; exact Hp|].
  repeat split.
Qed.

End HashRoundTrip.

Lemma set_password_then_check_password_witness :
  exists u',
    @User.set_password Bcrypt.stand_in [5; 6; 7]%N "Str0ng!Pass"
      (User.init "Ann" "ann@example.com" "en") = Ret u'
    /\ @User.check_password Bcrypt.stand_in u' "Str0ng!Pass" = Ret true.
Proof.
  destruct (proj2 (@set_password_then_check_password Bcrypt.stand_in
                     [5; 6; 7]%N "Str0ng!Pass"
                     (User.init "Ann" "ann@example.com" "en")))
    as [u' [H1 [H2 _]]]; [discriminate|].
  exists u'. split; [exact H1 | exact H2].
Defined.

(** ** No exception leaves the service *)

Lemma try_except_never_raises {A : Type} (body : M A) (handler : exn -> M A) :
  (forall e, never_raises (handler e)) -> never_raises (try_except body handler).
Proof.
  intros Hh w. unfold try_except. destruct (body w) as [[a|e] w'].
  - exists a, w'. reflexivity.
  - apply Hh.
Qed.

Lemma ret_never_raises {A : Type} (a : A) : never_raises (ret a).
Proof. intro w. exists a, w. reflexivity. Qed.

Lemma rollback_then_ret_never_raises {A : Type} (a : A) :
  never_raises (Db.rollback ;;; ret a)%py.
Proof. intro w. eexists. eexists. reflexivity. Qed.


Section NeverRaises.
Context {core : Bcrypt.Core}.
Import AuthenticationService.

Ltac caught :=
  apply try_except_never_raises; intro;
  first [apply ret_never_raises | apply rollback_then_ret_never_raises].

Lemma create_user_session_never_raises env uid tok ip ua :
  never_raises (create_user_session env uid tok ip ua).
Proof. unfold create_user_session. caught. Qed.

Lemma revoke_user_session_never_raises t :
  never_raises (revoke_user_session t).
Proof. unfold revoke_user_session. caught. Qed.

Lemma revoke_all_user_sessions_never_raises uid :
  never_raises (revoke_all_user_sessions uid).
Proof. unfold revoke_all_user_sessions. caught. Qed.



End NeverRaises.

(** ** A failed operation has changed nothing *)

(** The tactics run an operation symbolically, case by case; the calls of
    the session operations, whose outcome the caller drops, are replaced by
    what they return. *)
Ltac run_session_calls :=
  repeat match goal with
    | |- context [AuthenticationService.create_user_session ?e ?u ?t ?i ?a ?w] =>
        let H := fresh "H" in
        destruct (create_user_session_never_raises e u t i a w)
          as [? [? H]]; rewrite H; clear H
    | |- context [AuthenticationService.revoke_all_user_sessions ?u ?w] =>
        let H := fresh "H" in
        destruct (revoke_all_user_sessions_never_raises u w)
          as [? [? H]]; rewrite H; clear H
    | |- context [AuthenticationService.revoke_user_session ?t ?w] =>
        let H := fresh "H" in
        destruct (revoke_user_session_never_raises t w)
          as [? [? H]]; rewrite H; clear H
    end.

Ltac split_cases :=
  repeat (cbn [fst snd committed working faults tl];
          first
            [ progress run_session_calls
            | match goal with
              | |- context [match ?x with _ => _ end] =>
                  lazymatch x with
                  | context [match _ with _ => _ end] => fail
                  | _ => destruct x
                  end
              end ]).

Ltac primitives :=
  unfold try_except, bind, ret, lift, Db.get_user, Db.user_by_email,
    Db.active_user_by_email, Db.session_by_token, Db.active_session_by_token,
    Db.active_sessions_of, Db.read, Db.update_user, Db.update_session,
    Db.delete_user, Db.add_user, Db.add_session, Db.with_working,
    Db.rollback, Db.commit.

Section Atomicity.
Context {core : Bcrypt.Core}.
Import AuthenticationService.

Ltac unchanged :=
  intros [st_c st_w st_f] resp Hq Hf; unfold settled in Hq;
  cbn [working committed] in Hq; cbn [faults] in Hf; subst st_w st_f;
  primitives; split_cases; cbn [fst snd];
  intros Hr Hs;
  first [ reflexivity
        | injection Hr as Hr; subst resp; discriminate Hs
        | discriminate Hr ].

Lemma register_user_traceless env n e p l k :
  traceless (register_user env n e p l k).
Proof. unfold register_user, User.set_password. unchanged. Qed.

Lemma authenticate_user_traceless env e p ip ua :
  traceless (authenticate_user env e p ip ua).
Proof. unfold authenticate_user, update_last_login. unchanged. Qed.

Lemma refresh_access_token_traceless env uid :
  traceless (refresh_access_token env uid).
Proof. unfold refresh_access_token. unchanged. Qed.

Lemma update_user_profile_traceless uid k :
  traceless (update_user_profile uid k).
Proof. unfold update_user_profile. unchanged. Qed.

Lemma change_user_password_traceless env uid c n :
  traceless (change_user_password env uid c n).
Proof. unfold change_user_password, User.set_password. unchanged. Qed.

Lemma generate_password_reset_token_traceless e :
  traceless (generate_password_reset_token e).
Proof. unfold generate_password_reset_token. unchanged. Qed.

Lemma reset_password_with_token_traceless t n :
  traceless (reset_password_with_token t n).
Proof. unfold reset_password_with_token. unchanged. Qed.

Lemma verify_user_email_traceless env uid t :
  traceless (verify_user_email env uid t).
Proof. unfold verify_user_email. unchanged. Qed.

Lemma deactivate_user_account_traceless uid reason :
  traceless (deactivate_user_account uid reason).
Proof. unfold deactivate_user_account. unchanged. Qed.

Lemma delete_user_account_traceless uid :
  traceless (delete_user_account uid).
Proof. unfold delete_user_account. unchanged. Qed.

Lemma get_user_sessions_traceless uid : traceless (get_user_sessions uid).
Proof. unfold get_user_sessions. unchanged. Qed.

Lemma update_notification_preferences_traceless uid p :
  traceless (update_notification_preferences uid p).
Proof. unfold update_notification_preferences. unchanged. Qed.

Lemma update_privacy_settings_traceless uid p :
  traceless (update_privacy_settings uid p).
Proof. unfold update_privacy_settings. unchanged. Qed.

Lemma logout_traceless t : traceless (logout t).
Proof. unfold logout. unchanged. Qed.

Lemma answer_of_dict (c : M Response) (w : World) (r : Response) :
  traceless c -> settled w -> faults w = [] ->
  fst (bind c (fun r => ret (Some r)) w) = Ret (Some r) ->
  success r = false ->
  snd (bind c (fun r => ret (Some r)) w) = w.
Proof.
  intros Hc Hq Hf. unfold bind, ret. specialize (Hc w).
  destruct (c w) as [[a|e] w']; cbn [fst snd] in *; [|discriminate].
  intros H Hs. injection H as H. subst a. apply (Hc r Hq Hf eq_refl Hs).
Qed.

Lemma answer_of_other {A : Type} (c : M A) (w : World) (r : Response) :
  fst (bind c (fun _ => ret (@None Response)) w) <> Ret (Some r).
Proof.
  unfold bind, ret. destruct (c w) as [[a|e] w']; cbn [fst]; discriminate.
Qed.

(** X5. An operation that answers with [success = False] has changed
    nothing. Between two calls, with no commit refused and a token id for
    the call that no session carries, the world after a failure answer is
    the world before the call: the checks of an operation come before its
    first write. (When the insert of the session row fails after the user
    row is committed, the caller goes on with a transaction that was not
    rolled back; the statement leaves that case out.) *)
Theorem failed_operation_changes_nothing (env : Env) (o : op) (w : World)
    (r : Response) :
  consistent w -> faults w = [] ->
  fresh_token (access_jti env) (committed w) ->
  fst (answer env o w) = Ret (Some r) -> success r = false ->
  snd (answer env o w) = w.
Proof.
  intros [Hq _] Hf _. revert Hq Hf.
  destruct o; unfold answer; intros Hq Hf;
    try (intro H; destruct (answer_of_other _ _ _ H));
    apply answer_of_dict; try assumption.
  - apply register_user_traceless.
  - apply authenticate_user_traceless.
  - apply refresh_access_token_traceless.
  - apply update_user_profile_traceless.
  - apply change_user_password_traceless.
  - apply generate_password_reset_token_traceless.
  - apply reset_password_with_token_traceless.
  - apply verify_user_email_traceless.
  - apply deactivate_user_account_traceless.
  - apply delete_user_account_traceless.
  - apply get_user_sessions_traceless.
  - apply update_notification_preferences_traceless.
  - apply update_privacy_settings_traceless.
  - apply logout_traceless.
Qed.

Ltac refused :=
  intros [st_c st_w st_f] st_fs Hq Hf; unfold settled in Hq |- *;
  cbn [working committed] in Hq; cbn [faults] in Hf; subst st_w st_f;
  primitives; split_cases; cbn [fst snd committed working];
  split; reflexivity.

Lemma register_user_rolled_back env n e p l k :
  rolled_back (register_user env n e p l k).
Proof. unfold register_user, User.set_password. refused. Qed.

Lemma authenticate_user_rolled_back env e p ip ua :
  rolled_back (authenticate_user env e p ip ua).
Proof. unfold authenticate_user, update_last_login. refused. Qed.

Lemma create_user_session_rolled_back env uid tok ip ua :
  rolled_back (create_user_session env uid tok ip ua).
Proof. unfold create_user_session. refused. Qed.

Lemma revoke_user_session_rolled_back t : rolled_back (revoke_user_session t).
Proof. unfold revoke_user_session. refused. Qed.

Lemma revoke_all_user_sessions_rolled_back uid :
  rolled_back (revoke_all_user_sessions uid).
Proof.
  intros w fs Hq Hf. unfold revoke_all_user_sessions, try_except,
    Db.active_sessions_of, Db.read, bind. cbv beta.
  rewrite for_each_revoke. unfold Db.commit, ret.
  cbn [faults committed working]. rewrite Hf. split; reflexivity.
Qed.

Lemma change_user_password_rolled_back env uid c n :
  rolled_back (change_user_password env uid c n).
Proof. unfold change_user_password, User.set_password. refused. Qed.

Lemma deactivate_user_account_rolled_back uid reason :
  rolled_back (deactivate_user_account uid reason).
Proof. unfold deactivate_user_account. refused. Qed.

Lemma is_session_valid_rolled_back env t :
  rolled_back (is_session_valid env t).
Proof. unfold is_session_valid. refused. Qed.

Lemma logout_rolled_back t : rolled_back (logout t).
Proof. unfold logout, revoke_user_session. refused. Qed.

Lemma rolled_back_answer {A B : Type} (c : M A) (f : A -> B) :
  rolled_back c -> rolled_back (bind c (fun a => ret (f a))).
Proof.
  intros H w fs Hq Hf. specialize (H w fs Hq Hf). unfold bind, ret.
  destruct (c w) as [[a|e] w']; exact H.
Qed.

Lemma answer_rolled_back (env : Env) (o : op) : rolled_back (answer env o).
Proof.
  destruct o; unfold answer; apply rolled_back_answer.
  - apply register_user_rolled_back.
  - apply authenticate_user_rolled_back.
  - unfold refresh_access_token. refused.
  - apply create_user_session_rolled_back.
  - apply revoke_user_session_rolled_back.
  - apply revoke_all_user_sessions_rolled_back.
  - unfold update_user_profile. refused.
  - apply change_user_password_rolled_back.
  - unfold generate_password_reset_token. refused.
  - unfold reset_password_with_token. refused.
  - unfold verify_user_email. refused.
  - apply deactivate_user_account_rolled_back.
  - unfold delete_user_account. refused.
  - unfold get_user_sessions. refused.
  - unfold update_notification_preferences. refused.
  - unfold update_privacy_settings. refused.
  - apply is_session_valid_rolled_back.
  - apply logout_rolled_back.
Qed.

Ltac no_success :=
  intros [st_c st_w st_f] st_fs resp Hq Hf; unfold settled in Hq;
  cbn [working committed] in Hq; cbn [faults] in Hf; subst st_w st_f;
  primitives; split_cases; cbn [fst snd];
  intros Hr;
  first [ injection Hr as Hr; subst resp; reflexivity
        | discriminate Hr ].

Lemma answer_fails_when_refused (c : M Response) (w : World)
    (fs : list bool) (r : Response) :
  fails_when_refused c -> settled w -> faults w = true :: fs ->
  fst (bind c (fun r => ret (Some r)) w) = Ret (Some r) ->
  success r = false.
Proof.
  intros Hc Hq Hf. unfold bind, ret. specialize (Hc w fs).
  destruct (c w) as [[a|e] w']; cbn [fst] in *; [|discriminate].
  intros H. injection H as H. subst a. apply (Hc r Hq Hf eq_refl).
Qed.

(** X19. A refused commit is rolled back. Between two calls, when the
    database refuses the next commit, no operation writes anything: the
    database is as before the call and no transaction is left open. The
    operations that have to write then answer with a failure; [logout],
    which drops the outcome of the revocation, does not. *)
Theorem refused_commit_writes_nothing (env : Env) (o : op) (w : World)
    (fs : list bool) :
  consistent w -> faults w = true :: fs ->
  committed (snd (answer env o w)) = committed w
  /\ settled (snd (answer env o w))
  /\ (commits_to_succeed o = true ->
      forall r, fst (answer env o w) = Ret (Some r) -> success r = false).
Proof.
  intros [Hq _] Hf.
  destruct (answer_rolled_back env o w fs Hq Hf) as [H1 H2].
  split; [exact H1|]. split; [exact H2|].
  destruct o; cbn [commits_to_succeed]; intros Ho; try discriminate Ho;
    intros r; unfold answer; apply (answer_fails_when_refused _ w fs r);
    try assumption; clear.
  - unfold register_user, User.set_password. no_success.
  - unfold authenticate_user, update_last_login. no_success.
  - unfold update_user_profile. no_success.
  - unfold change_user_password, User.set_password. no_success.
  - unfold verify_user_email. no_success.
  - unfold deactivate_user_account. no_success.
  - unfold delete_user_account. no_success.
  - unfold update_notification_preferences. no_success.
  - unfold update_privacy_settings. no_success.
Qed.

End Atomicity.

Lemma failed_operation_changes_nothing_witness :
  let o := AuthenticationService.Register "Bob" "a@b.com" "Str0ng!Pass" "en"
             Demo.no_kwargs in
  snd (@answer Bcrypt.stand_in (Demo.env 2000 "jti-2") o Demo.ann_registered)
  = Demo.ann_registered.
Proof.
  assert (Hfresh : fresh_token "jti-2" (committed Demo.ann_registered)).
  { intros x Hx. vm_compute in Hx. destruct Hx as [Hx | []]. subst x.
    discriminate. }
  apply (@failed_operation_changes_nothing Bcrypt.stand_in
           (Demo.env 2000 "jti-2")
           (AuthenticationService.Register "Bob" "a@b.com" "Str0ng!Pass" "en"
              Demo.no_kwargs)
           Demo.ann_registered (failure "Email already registered")
           demo_consistent eq_refl Hfresh);
    reflexivity.
Defined.

Lemma refused_commit_writes_nothing_witness :
  let w := {| committed := empty_store; working := empty_store;
              faults := [true] |} in
  let o := AuthenticationService.Register "Ann" "a@b.com" "Str0ng!Pass" "en"
             Demo.no_kwargs in
  committed (snd (@answer Bcrypt.stand_in (Demo.env 1000 "jti-1") o w))
  = empty_store
  /\ fst (@answer Bcrypt.stand_in (Demo.env 1000 "jti-1") o w)
     = Ret (Some (failure "Registration failed")).
Proof.
  intros w o.
  assert (Hw : consistent w) by (split; reflexivity).
  pose proof (@refused_commit_writes_nothing Bcrypt.stand_in
                (Demo.env 1000 "jti-1") o w [] Hw eq_refl) as [H1 _].
  split; [exact H1 | reflexivity].
Defined.

(** ** What a successful registration leaves *)

Section AfterRegistration.
Context {core : Bcrypt.Core}.
Import AuthenticationService.

Lemma register_user_success_world (env : Env)
    (name email password lang : string) (kw : RegisterKwargs) (w : World)
    (r : Response) :
  consistent w -> faults w = [] ->
  fst (register_user env name email password lang kw w) = Ret r ->
  success r = true ->
  exists u,
    let w1 := snd (register_user env name email password lang kw w) in
    consistent w1 /\ faults w1 = []
    /\ users (committed w1) = (users (committed w) ++ [u])%list
    /\ User.email u = PyStr.strip (PyStr.lower email)
    /\ User.is_active u = true
    /\ User.password_hash u = Some (new_hash (entropy env) password)
    /\ User.id u = next_user_id (committed w)
    /\ User.name u = PyStr.strip name
    /\ password <> ""
    /\ Validator.validate_email email = true
    /\ user r = Some (User.to_dict u)
    /\ (forall x, In x (user_sessions (committed w)) ->
                  In x (user_sessions (committed w1))).
Proof.
  intros [Hq Hc] Hf. cbv zeta.
  rewrite (register_user_run env name email password lang kw w Hq Hf).
  destruct (negb (PyStr.truthy name) || negb (PyStr.truthy (PyStr.strip name)))%bool;
    [intros H Hs; cbn [fst] in H; injection H as H; subst; discriminate|].
  destruct (Validator.validate_email email) eqn:Ev;
    [|rewrite orb_true_r;
      intros H Hs; cbn [fst] in H; injection H as H; subst; discriminate].
  destruct (negb (PyStr.truthy email) || negb true)%bool;
    [intros H Hs; cbn [fst] in H; injection H as H; subst; discriminate|].
  destruct (fst (Validator.validate_password password)) eqn:Evp; cbn [negb];
    [|intros H Hs; cbn [fst] in H; injection H as H; subst; discriminate].
  destruct (find _ (users (committed w)));
    [intros H Hs; cbn [fst] in H; injection H as H; subst; discriminate|].
  cbv zeta.
  set (u := Db.stamp_user (now env) (committed w) _).
  destruct (constraints_ok (Db.insert_user u (committed w))) eqn:Ec;
    [|intros H Hs; cbn [fst] in H; injection H as H; subst; discriminate].
  intros H _. cbn [fst] in H. injection H as H.
  exists u. cbn [snd].
  assert (Hemail : User.email u = PyStr.strip (PyStr.lower email)).
  { unfold u. destruct (kw_bio kw), (kw_phone kw);
      cbn; apply normalize_idempotent. }
  split.
  { split; [reflexivity|]. cbn [quiet committed].
    destruct (constraints_ok (Db.insert_session _ _)) eqn:Es;
      [exact Es | exact Ec]. }
  split; [reflexivity|].
  split.
  { cbn [quiet committed].
    destruct (constraints_ok (Db.insert_session _ _)); reflexivity. }
  split; [exact Hemail|].
  split; [unfold u; destruct (kw_bio kw), (kw_phone kw); reflexivity|].
  split; [unfold u; destruct (kw_bio kw), (kw_phone kw); reflexivity|].
  split; [unfold u; destruct (kw_bio kw), (kw_phone kw); reflexivity|].
  split; [unfold u; destruct (kw_bio kw), (kw_phone kw); reflexivity|].
  split; [apply valid_password_nonempty; exact Evp|].
  split; [reflexivity|].
  split; [subst r; reflexivity|].
  intros x Hx. cbn [quiet committed].
  destruct (constraints_ok (Db.insert_session _ _));
    cbn [Db.insert_session Db.insert_user user_sessions];
    [apply in_or_app; left|]; exact Hx.
Qed.

End AfterRegistration.

(** ** What a login needs to succeed *)

Section LoginSucceeds.
Context {core : Bcrypt.Core}.
Import AuthenticationService.

Lemma authenticate_user_succeeds (env : Env) (email password : string)
    (ip ua : option string) (w : World) (u : User.t) :
  consistent w -> faults w = [] ->
  email <> "" -> password <> "" ->
  In u (users (committed w)) ->
  User.email u = PyStr.strip (PyStr.lower email) ->
  User.is_active u = true ->
  User.check_password u password = Ret true ->
  let out := authenticate_user env email password ip ua w in
  let u' := User.set_last_login_at (Some (now env)) u in
  exists r,
    fst out = Ret r /\ success r = true
    /\ message r = Some "Login successful"
    /\ user r = Some (User.to_dict u')
    /\ (exists tok, access_token r = Some tok
                    /\ Jwt.identity tok = User.id u
                    /\ Jwt.jti tok = access_jti env
                    /\ Jwt.exp tok = now env + 3600)
    /\ (exists tok, refresh_token r = Some tok
                    /\ Jwt.identity tok = User.id u
                    /\ Jwt.exp tok = now env + 2592000
                    /\ Jwt.claims tok = [])
    /\ consistent (snd out) /\ faults (snd out) = []
    /\ users (committed (snd out))
       = users (Db.modify_user (User.id u)
                  (User.set_last_login_at (Some (now env))) (committed w)).
Proof.
  intros [Hq Hc] Hf He Hp Hin Hemail Hact Hchk. cbv zeta.
  rewrite (authenticate_user_run env email password ip ua w Hq Hf).
  destruct email as [|c0 e0]; [congruence|].
  destruct password as [|c1 p1]; [congruence|]. cbn [PyStr.truthy negb orb].
  rewrite (the_active_user _ _ _ Hc Hin Hemail Hact). rewrite Hchk. cbv zeta.
  assert (Hc1 : constraints_ok
                  (Db.modify_user (User.id u)
                     (User.set_last_login_at (Some (now env))) (committed w))
                = true).
  { rewrite constraints_modify_user; [exact Hc | reflexivity]. }
  rewrite Hc1. cbn [fst snd].
  eexists. split; [reflexivity|]. split; [reflexivity|].
  split; [reflexivity|]. split; [reflexivity|].
  split; [eexists; repeat split|].
  split; [eexists; repeat split|].
  split.
  { split; [reflexivity|]. cbn [quiet committed].
    destruct (constraints_ok (Db.insert_session _ _)) eqn:Es;
      [exact Es | exact Hc1]. }
  split; [reflexivity|].
  cbn [quiet committed].
  destruct (constraints_ok (Db.insert_session _ _)); reflexivity.
Qed.

(** The session row that a login stores when no session carries the token
    id of the call. *)
Lemma authenticate_user_session (env : Env) (email password : string)
    (ip ua : option string) (w : World) (u : User.t) :
  consistent w -> faults w = [] ->
  email <> "" -> password <> "" ->
  In u (users (committed w)) ->
  User.email u = PyStr.strip (PyStr.lower email) ->
  User.is_active u = true ->
  User.check_password u password = Ret true ->
  fresh_token (access_jti env) (committed w) ->
  user_sessions (committed (snd (authenticate_user env email password ip ua w)))
  = (user_sessions (committed w)
     ++ [{| UserSession.id := next_session_id (committed w);
            UserSession.user_id := User.id u;
            UserSession.session_token := access_jti env;
            UserSession.ip_address := ip;
            UserSession.user_agent := ua;
            UserSession.is_active := true;
            UserSession.created_at := now env;
            UserSession.last_activity := now env;
            UserSession.expires_at := now env + 3600 + utc_offset env |}])%list.
Proof.
  intros [Hq Hc] Hf He Hp Hin Hemail Hact Hchk Hfresh.
  rewrite (authenticate_user_run env email password ip ua w Hq Hf).
  destruct email as [|c0 e0]; [congruence|].
  destruct password as [|c1 p1]; [congruence|]. cbn [PyStr.truthy negb orb].
  rewrite (the_active_user _ _ _ Hc Hin Hemail Hact). rewrite Hchk. cbv zeta.
  assert (Hc1 : constraints_ok
                  (Db.modify_user (User.id u)
                     (User.set_last_login_at (Some (now env))) (committed w))
                = true).
  { rewrite constraints_modify_user; [exact Hc | reflexivity]. }
  rewrite Hc1. cbn [snd quiet committed].
  match goal with
  | |- context [constraints_ok (Db.insert_session ?x ?st)] =>
      assert (Hc2 : constraints_ok (Db.insert_session x st) = true)
  end.
  { apply constraints_insert_session; [exact Hc1|].
    intros x Hx. apply Hfresh. exact Hx. }
  rewrite Hc2. reflexivity.
Qed.

(** X6. A registration that succeeded can be followed by a login: with the
    password that was registered and any non-empty spelling of the email
    that lower-cases and trims to the same address, and with a token id
    that no session carries, [authenticate_user] answers
    [Login successful] with the profile of the user that was created,
    stamped with the time of the login, and with an access token of one
    hour for that user, for which it has stored an active session. *)
Theorem register_then_authenticate
    (env1 env2 : Env) (name email password lang : string)
    (kw : RegisterKwargs) (email' : string) (ip ua : option string)
    (w : World) (r : Response) :
  consistent w -> faults w = [] ->
  fst (register_user env1 name email password lang kw w) = Ret r ->
  success r = true ->
  email' <> "" ->
  PyStr.strip (PyStr.lower email') = PyStr.strip (PyStr.lower email) ->
  let w1 := snd (register_user env1 name email password lang kw w) in
  fresh_token (access_jti env2) (committed w1) ->
  exists r' d d',
    fst (authenticate_user env2 email' password ip ua w1) = Ret r'
    /\ success r' = true /\ message r' = Some "Login successful"
    /\ user r = Some d /\ user r' = Some d'
    /\ User.d_id d' = User.d_id d /\ User.d_email d' = User.d_email d
    /\ User.d_email d' = PyStr.strip (PyStr.lower email)
    /\ (exists tok, access_token r' = Some tok
                    /\ Jwt.identity tok = User.d_id d
                    /\ Jwt.exp tok = now env2 + 3600)
    /\ (exists s,
          In s (user_sessions
                  (committed (snd (authenticate_user env2 email' password
                                     ip ua w1))))
          /\ UserSession.session_token s = access_jti env2
          /\ UserSession.user_id s = User.d_id d
          /\ UserSession.is_active s = true).
Proof.
  intros Hw Hf Hr Hs He Hnorm. cbv zeta. intros Hfresh.
  destruct (register_user_success_world env1 name email password lang kw w r
              Hw Hf Hr Hs)
    as [u [Hw1 [Hf1 [Hu [Hemail [Hact [Hhash [Hid [_ [Hp [_ [Hd _]]]]]]]]]]]].
  assert (Hin : In u (users (committed
                  (snd (register_user env1 name email password lang kw w))))).
  { rewrite Hu. apply in_or_app. right. left. reflexivity. }
  assert (Hchk : User.check_password u password = Ret true).
  { unfold User.check_password. rewrite Hhash.
    apply (check_password_new_hash (entropy env1) password u Hp). }
  destruct (authenticate_user_succeeds env2 email' password ip ua _ u
              Hw1 Hf1 He Hp Hin (eq_trans Hemail (eq_sym Hnorm)) Hact Hchk)
    as [r' [H1 [H2 [H3 [H4 [[tok [Ht1 [Ht2 [_ Ht4]]]] _]]]]]].
  exists r', (User.to_dict u),
    (User.to_dict (User.set_last_login_at (Some (now env2)) u)).
  split; [exact H1|]. split; [exact H2|]. split; [exact H3|].
  split; [exact Hd|]. split; [exact H4|].
  split; [reflexivity|]. split; [reflexivity|]. split; [exact Hemail|].
  split; [exists tok; repeat split; assumption|].
  rewrite (authenticate_user_session env2 email' password ip ua _ u
             Hw1 Hf1 He Hp Hin (eq_trans Hemail (eq_sym Hnorm)) Hact Hchk
             Hfresh).
  eexists. split; [apply in_or_app; right; left; reflexivity|].
  repeat split.
Qed.

End LoginSucceeds.

Lemma register_then_authenticate_witness :
  exists r',
    fst (@AuthenticationService.authenticate_user Bcrypt.stand_in
           (Demo.env 2000 "jti-2") "  a@B.com " "Str0ng!Pass" None None
           Demo.ann_registered) = Ret r'
    /\ success r' = true.
Proof.
  assert (Hw : consistent (quiet empty_store)) by (split; reflexivity).
  assert (Hfresh : fresh_token "jti-2" (committed Demo.ann_registered)).
  { intros x Hx. vm_compute in Hx. destruct Hx as [Hx | []]. subst x.
    discriminate. }
  destruct (@register_then_authenticate Bcrypt.stand_in
              (Demo.env 1000 "jti-1") (Demo.env 2000 "jti-2")
              "Ann" "A@B.com" "Str0ng!Pass" "en" Demo.no_kwargs
              "  a@B.com " None None (quiet empty_store) _
              Hw eq_refl eq_refl eq_refl)
    as [r' [d [d' [H1 [H2 _]]]]];
    [discriminate | reflexivity | exact Hfresh |].
  exists r'. split; [exact H1 | exact H2].
Defined.

(** ** Deactivating an account *)


Lemma refresh_access_token_frame_aux (env : Env) (user_id : Z) (w : World) :
  snd (AuthenticationService.refresh_access_token env user_id w) = w
  /\ ((forall u, In u (users (working w)) -> User.id u = user_id ->
                 User.is_active u = false) ->
      fst (AuthenticationService.refresh_access_token env user_id w)
      = Ret (failure "User not found or inactive")).
Proof.
  unfold AuthenticationService.refresh_access_token, try_except, bind,
    Db.get_user, Db.read, ret.
  simpl. split.
  - destruct (find _ (users (working w))) as [u|]; [|reflexivity].
    destruct (User.is_active u); reflexivity.
  - intro H. destruct (find _ (users (working w))) as [u|] eqn:E; [|reflexivity].
    apply find_some in E. destruct E as [Hin Hid]. apply Z.eqb_eq in Hid.
    rewrite (H u Hin Hid). reflexivity.
Qed.

Section Deactivation.
Context {core : Bcrypt.Core}.
Import AuthenticationService.

Lemma deactivate_user_account_run (uid : Z) (reason : option string)
    (w : World) (u : User.t) :
  consistent w -> faults w = [] ->
  fst (Db.get_user uid w) = Ret (Some u) ->
  deactivate_user_account uid reason w
  = (Ret (succeeded "Account deactivated successfully"),
     let st := Db.modify_user uid (User.set_is_active false) (committed w) in
     quiet (revoke_ids
              (map UserSession.id
                 (filter (fun s => (UserSession.user_id s =? uid)
                                   && UserSession.is_active s)
                    (user_sessions st)))
              st)).
Proof.
  intros [Hq Hc] Hf Hu.
  unfold Db.get_user, Db.read in Hu. cbn [fst] in Hu. injection Hu as Hu.
  unfold deactivate_user_account, try_except, Db.get_user, Db.read.
  unfold bind at 1. rewrite Hu.
  unfold bind at 1, Db.update_user, Db.with_working.
  unfold bind at 1. rewrite commit_clean; cbn [working faults committed].
  - unfold bind at 1. rewrite revoke_all_user_sessions_run.
    + cbv zeta. rewrite Hq. reflexivity.
    + split; [reflexivity|]. cbn [committed].
      rewrite constraints_modify_user; [rewrite Hq; exact Hc | reflexivity].
    + reflexivity.
  - exact Hf.
  - rewrite constraints_modify_user; [rewrite Hq; exact Hc | reflexivity].
Qed.

(** X7. With no commit refused, [deactivate_user_account] of an existing
    user succeeds and locks the account out: every session of the user is
    inactive, [refresh_access_token] answers [User not found or inactive],
    and [authenticate_user] with the email of the user answers
    [Invalid credentials] whatever the password, leaving the world alone. *)
Theorem deactivated_account_is_locked_out (uid : Z) (reason : option string)
    (w : World) (u : User.t) :
  consistent w -> faults w = [] ->
  fst (Db.get_user uid w) = Ret (Some u) ->
  let out := deactivate_user_account uid reason w in
  fst out = Ret (succeeded "Account deactivated successfully")
  /\ (forall x, In x (users (committed (snd out))) -> User.id x = uid ->
                User.is_active x = false)
  /\ (forall x, In x (user_sessions (committed (snd out))) ->
                UserSession.user_id x = uid -> UserSession.is_active x = false)
  /\ (forall env,
        fst (refresh_access_token env uid (snd out))
        = Ret (failure "User not found or inactive"))
  /\ (forall env email password ip ua,
        email <> "" -> password <> "" ->
        PyStr.strip (PyStr.lower email) = User.email u ->
        authenticate_user env email password ip ua (snd out)
        = (Ret (failure "Invalid credentials"), snd out)).
Proof.
  intros Hw Hf Hu. cbv zeta.
  rewrite (deactivate_user_account_run uid reason w u Hw Hf Hu).
  cbv zeta. cbn [fst snd]. destruct Hw as [Hq Hc].
  unfold Db.get_user, Db.read in Hu. cbn [fst] in Hu. injection Hu as Hu.
  rewrite Hq in Hu. pose proof (find_some _ _ Hu) as [Hin Hid].
  apply Z.eqb_eq in Hid.
  set (st := Db.modify_user uid (User.set_is_active false) (committed w)).
  set (ids := map UserSession.id _).
  assert (Husers : forall x, In x (users (revoke_ids ids st)) ->
                             User.id x = uid -> User.is_active x = false).
  { intros x Hx Hxid. rewrite revoke_ids_users in Hx. unfold st in Hx.
    cbn [Db.modify_user users] in Hx. apply in_map_iff in Hx.
    destruct Hx as [y [Hy Hiny]].
    destruct (User.id y =? uid) eqn:E; subst x; [reflexivity|].
    apply Z.eqb_neq in E. contradiction. }
  split; [reflexivity|]. split; [exact Husers|]. split.
  { intros x Hx. apply (revoke_ids_of_user uid st x). exact Hx. }
  split.
  - intro env.
    apply (proj2 (refresh_access_token_frame_aux env uid _)).
    cbn [quiet working]. exact Husers.
  - intros env email password ip ua He Hp Hnorm.
    rewrite authenticate_user_run by reflexivity.
    destruct email as [|c0 e0]; [congruence|].
    destruct password as [|c1 p1]; [congruence|]. cbn [PyStr.truthy negb orb].
    cbn [quiet committed]. rewrite no_active_user; [reflexivity|].
    intros x Hx Hxe. rewrite revoke_ids_users in Hx. unfold st in Hx.
    cbn [Db.modify_user users] in Hx. apply in_map_iff in Hx.
    destruct Hx as [y [Hy Hiny]].
    assert (y = u).
    { apply (emails_unique (committed w)); try assumption.
      rewrite <- Hnorm, <- Hxe, <- Hy.
      destruct (User.id y =? uid); reflexivity. }
    subst y. rewrite Hid, Z.eqb_refl in Hy. subst x. reflexivity.
Qed.

End Deactivation.

Lemma deactivated_account_is_locked_out_witness :
  let out := AuthenticationService.deactivate_user_account 1 None
               Demo.ann_registered in
  fst out = Ret (succeeded "Account deactivated successfully")
  /\ @AuthenticationService.authenticate_user Bcrypt.stand_in
       (Demo.env 2000 "jti-2") "A@B.com" "Str0ng!Pass" None None (snd out)
     = (Ret (failure "Invalid credentials"), snd out).
Proof.
  pose proof (@deactivated_account_is_locked_out Bcrypt.stand_in 1 None
                Demo.ann_registered Demo.ann_user demo_consistent eq_refl
                eq_refl) as H.
  cbv zeta in H. destruct H as [H1 [_ [_ [_ H5]]]].
  split; [exact H1|].
  apply H5; [discriminate | discriminate | reflexivity].
Defined.

(** ** Deleting an account *)

Lemma distinct_map_filter {A : Type} (key : A -> string) (p : A -> bool)
    (l : list A) :
  distinct (map key l) = true -> distinct (map key (filter p l)) = true.
Proof.
  rewrite !distinct_NoDup. induction l as [|x l IH]; intro H; [constructor|].
  cbn [map] in H. inversion H as [|? ? Hx Hl]; subst. cbn [filter].
  destruct (p x); [|apply IH; exact Hl].
  cbn [map]. constructor; [|apply IH; exact Hl].
  intro Hin. apply Hx. apply in_map_iff in Hin.
  destruct Hin as [y [Hy Hiny]]. apply filter_In in Hiny.
  rewrite <- Hy. apply in_map. apply Hiny.
Qed.

Lemma constraints_remove_user (uid : Z) (st : Store) :
  constraints_ok st = true -> constraints_ok (Db.remove_user uid st) = true.
Proof.
  unfold constraints_ok, Db.remove_user. cbn [users user_sessions].
  intro H. apply andb_true_iff in H. destruct H as [He Ht].
  rewrite (distinct_map_filter _ _ _ He), (distinct_map_filter _ _ _ Ht).
  reflexivity.
Qed.

Section Deletion.
Import AuthenticationService.

Lemma delete_user_account_run (uid : Z) (w : World) :
  consistent w -> faults w = [] ->
  delete_user_account uid w
  = match find (fun x => User.id x =? uid) (users (committed w)) with
    | None => (Ret (failure "User not found"), w)
    | Some _ =>
        (Ret (succeeded "Account deleted permanently"),
         quiet (Db.remove_user uid (committed w)))
    end.
Proof.
  intros [Hq Hc] Hf.
  unfold delete_user_account, try_except, Db.get_user, Db.read.
  unfold bind at 1. rewrite Hq.
  destruct (find _ (users (committed w))); [|reflexivity].
  unfold bind at 1, Db.delete_user, Db.with_working.
  unfold bind at 1. rewrite commit_clean; cbn [working faults committed].
  - rewrite Hq. reflexivity.
  - exact Hf.
  - rewrite Hq. apply constraints_remove_user. exact Hc.
Qed.

(** X8. With no commit refused, [delete_user_account] of an existing user
    removes the user and, by the cascade, every session of the user, and
    nothing else: the other users and the sessions of the other users are
    the rows that were there, in their order. Afterwards
    [is_session_valid] answers [False] on the tokens of the deleted
    sessions, [refresh_access_token] fails for the user, and a second
    deletion answers [User not found]. *)
Theorem delete_user_account_cascades (uid : Z) (w : World) (u : User.t) :
  consistent w -> faults w = [] ->
  fst (Db.get_user uid w) = Ret (Some u) ->
  let out := delete_user_account uid w in
  fst out = Ret (succeeded "Account deleted permanently")
  /\ users (committed (snd out))
     = filter (fun x => negb (User.id x =? uid)) (users (committed w))
  /\ user_sessions (committed (snd out))
     = filter (fun s => negb (UserSession.user_id s =? uid))
         (user_sessions (committed w))
  /\ (forall env s, In s (user_sessions (committed w)) ->
                    UserSession.user_id s = uid ->
                    is_session_valid env (UserSession.session_token s) (snd out)
                    = (Ret false, snd out))
  /\ (forall env,
        fst (refresh_access_token env uid (snd out))
        = Ret (failure "User not found or inactive"))
  /\ delete_user_account uid (snd out)
     = (Ret (failure "User not found"), snd out).
Proof.
  intros Hw Hf Hu. cbv zeta.
  assert (Hw' : consistent (quiet (Db.remove_user uid (committed w)))).
  { split; [reflexivity|]. apply constraints_remove_user. apply Hw. }
  assert (Hgone : forall x, In x (users (Db.remove_user uid (committed w))) ->
                            User.id x <> uid).
  { intros x Hx. cbn [Db.remove_user users] in Hx. apply filter_In in Hx.
    destruct Hx as [_ Hx]. apply negb_true_iff, Z.eqb_neq in Hx. exact Hx. }
  rewrite (delete_user_account_run uid w Hw Hf).
  destruct Hw as [Hq Hc].
  unfold Db.get_user, Db.read in Hu. cbn [fst] in Hu. injection Hu as Hu.
  rewrite Hq in Hu. rewrite Hu. cbn [fst snd quiet committed].
  split; [reflexivity|]. split; [reflexivity|]. split; [reflexivity|].
  split; [|split].
  - intros env s Hs Hsu. rewrite is_session_valid_run by (exact Hw' || reflexivity).
    cbn [quiet committed]. rewrite no_active_session; [reflexivity|].
    intros x Hx Hxt. exfalso. cbn [Db.remove_user user_sessions] in Hx.
    apply filter_In in Hx. destruct Hx as [Hx Hxu].
    assert (x = s) by (apply (tokens_unique (committed w)); assumption).
    subst x. rewrite Hsu, Z.eqb_refl in Hxu. discriminate.
  - intro env. apply (proj2 (refresh_access_token_frame_aux env uid _)).
    intros x Hx Hxid. exfalso. exact (Hgone x Hx Hxid).
  - rewrite delete_user_account_run by (exact Hw' || reflexivity).
    cbn [quiet committed].
    destruct (find _ (users (Db.remove_user uid (committed w)))) as [x|] eqn:E;
      [|reflexivity].
    exfalso. apply find_some in E. destruct E as [Hx Hxid].
    apply Z.eqb_eq in Hxid. exact (Hgone x Hx Hxid).
Qed.

End Deletion.

Lemma delete_user_account_cascades_witness :
  let out := AuthenticationService.delete_user_account 1 Demo.ann_registered in
  fst out = Ret (succeeded "Account deleted permanently")
  /\ users (committed (snd out)) = []
  /\ user_sessions (committed (snd out)) = [].
Proof.
  pose proof (delete_user_account_cascades 1 Demo.ann_registered Demo.ann_user
                demo_consistent eq_refl eq_refl) as H.
  cbv zeta in H. destruct H as [H1 [H2 [H3 _]]].
  split; [exact H1|]. split; [rewrite H2 | rewrite H3]; reflexivity.
Defined.

(** ** Logging in after a change of password *)

Section NewPassword.
Context {core : Bcrypt.Core}.
Import AuthenticationService.

(** X9. After [change_user_password] has succeeded for an active user, a
    login with the new password and the email of the user, under a token
    id that no session carries, succeeds for that user, and the session of
    that login is the only active session of the user. *)
Theorem change_password_then_login
    (env env2 : Env) (uid : Z) (current new email : string)
    (ip ua : option string) (w : World) (u : User.t) :
  consistent w -> faults w = [] ->
  fst (Db.get_user uid w) = Ret (Some u) ->
  User.check_password u current = Ret true ->
  (forall r, Policy.met r new) ->
  User.is_active u = true ->
  email <> "" -> PyStr.strip (PyStr.lower email) = User.email u ->
  let w1 := snd (change_user_password env uid current new w) in
  fresh_token (access_jti env2) (committed w1) ->
  exists r tok,
    fst (authenticate_user env2 email new ip ua w1) = Ret r
    /\ success r = true /\ message r = Some "Login successful"
    /\ access_token r = Some tok /\ Jwt.identity tok = uid
    /\ (forall s,
          In s (user_sessions
                  (committed (snd (authenticate_user env2 email new ip ua
                                     w1)))) ->
          UserSession.user_id s = uid -> UserSession.is_active s = true ->
          UserSession.session_token s = access_jti env2).
Proof.
  intros Hw Hf Hu Hchk Hpol Hact He Hnorm. cbv zeta.
  rewrite (change_user_password_run env uid current new w u Hw Hf Hu Hchk Hpol).
  cbv zeta. cbn [snd]. destruct Hw as [Hq Hc].
  unfold Db.get_user, Db.read in Hu. cbn [fst] in Hu. injection Hu as Hu.
  rewrite Hq in Hu. pose proof (find_some _ _ Hu) as [Hin Hid].
  apply Z.eqb_eq in Hid.
  set (st := Db.modify_user uid _ (committed w)).
  set (ids := map UserSession.id _).
  set (u' := User.set_password_hash (Some (new_hash (entropy env) new)) u).
  assert (Hin' : In u' (users (committed (quiet (revoke_ids ids st))))).
  { cbn [quiet committed]. rewrite revoke_ids_users. unfold st.
    cbn [Db.modify_user users]. apply in_map_iff. exists u.
    split; [rewrite Hid, Z.eqb_refl; reflexivity | exact Hin]. }
  assert (Hw1 : consistent (quiet (revoke_ids ids st))).
  { split; [reflexivity|]. cbn [quiet committed].
    rewrite constraints_revoke_ids. unfold st.
    rewrite constraints_modify_user; [exact Hc | reflexivity]. }
  assert (Hne : new <> "").
  { apply valid_password_nonempty. rewrite (policy_valid new Hpol).
    reflexivity. }
  intros Hfresh.
  destruct (authenticate_user_succeeds env2 email new ip ua _ u'
              Hw1 eq_refl He Hne Hin' (eq_sym Hnorm) Hact
              (check_password_new_hash (entropy env) new u Hne))
    as [r [H1 [H2 [H3 [_ [[tok [Ht1 [Ht2 _]]] _]]]]]].
  exists r, tok.
  split; [exact H1|]. split; [exact H2|]. split; [exact H3|].
  split; [exact Ht1|]. split; [rewrite Ht2; exact Hid|].
  rewrite (authenticate_user_session env2 email new ip ua _ u'
             Hw1 eq_refl He Hne Hin' (eq_sym Hnorm) Hact
             (check_password_new_hash (entropy env) new u Hne) Hfresh).
  intros s Hs Hsu Hsa. apply in_app_iff in Hs. destruct Hs as [Hs | [Hs | []]].
  - exfalso. cbn [quiet committed] in Hs.
    pose proof (revoke_ids_of_user uid st s Hs Hsu) as Hoff.
    rewrite Hoff in Hsa. discriminate.
  - subst s. reflexivity.
Qed.

End NewPassword.

Lemma change_password_then_login_witness :
  let w1 :=
    snd (@AuthenticationService.change_user_password Bcrypt.stand_in
           (Demo.env 2000 "jti-2") 1 "Str0ng!Pass" "N3w&Better"
           Demo.ann_registered) in
  exists r,
    fst (@AuthenticationService.authenticate_user Bcrypt.stand_in
           (Demo.env 3000 "jti-3") "a@b.com" "N3w&Better" None None w1) = Ret r
    /\ success r = true.
Proof.
  assert (Hpol : forall r, Policy.met r "N3w&Better").
  { intro r. apply metb_met. destruct r; reflexivity. }
  destruct (@change_password_then_login Bcrypt.stand_in
              (Demo.env 2000 "jti-2") (Demo.env 3000 "jti-3") 1
              "Str0ng!Pass" "N3w&Better" "a@b.com" None None
              Demo.ann_registered Demo.ann_user demo_consistent eq_refl
              eq_refl eq_refl Hpol eq_refl)
    as [r [tok [H1 [H2 _]]]]; [discriminate | reflexivity | |].
  - intros x. vm_compute. intros [Hx | []] Ht. subst x. discriminate Ht.
  - exists r. split; [exact H1 | exact H2].
Defined.

(** ** Verifying an email *)

Section Verification.
Import AuthenticationService.

Lemma verify_user_email_run (env : Env) (uid : Z) (token : string) (w : World) :
  consistent w -> faults w = [] ->
  verify_user_email env uid token w
  = match find (fun x => User.id x =? uid) (users (committed w)) with
    | None => (Ret (failure "User not found"), w)
    | Some _ =>
        (Ret (succeeded "Email verified successfully"),
         quiet (Db.modify_user uid
                  (fun u => User.set_email_verified_at (Some (now env))
                              (User.set_is_verified true u))
                  (committed w)))
    end.
Proof.
  intros [Hq Hc] Hf.
  unfold verify_user_email, try_except, Db.get_user, Db.read.
  unfold bind at 1. rewrite Hq.
  destruct (find _ (users (committed w))); [|reflexivity].
  unfold bind at 1, Db.update_user, Db.with_working.
  unfold bind at 1. rewrite commit_clean; cbn [working faults committed].
  - rewrite Hq. reflexivity.
  - exact Hf.
  - rewrite Hq, constraints_modify_user; [exact Hc | reflexivity].
Qed.

(** X10. [verify_user_email] does not look at its token: with no commit
    refused it verifies an existing user whatever the token is, setting
    [is_verified] and [email_verified_at] of that user and leaving the
    other users and every session as they were, and it answers
    [User not found] without a change for an unknown id. *)
Theorem verify_user_email_ignores_token (env : Env) (uid : Z)
    (token : string) (w : World) :
  consistent w -> faults w = [] ->
  (forall other, verify_user_email env uid other w
                 = verify_user_email env uid token w)
  /\ ((forall x, In x (users (committed w)) -> User.id x <> uid) ->
      verify_user_email env uid token w = (Ret (failure "User not found"), w))
  /\ (forall u, In u (users (committed w)) -> User.id u = uid ->
        let out := verify_user_email env uid token w in
        fst out = Ret (succeeded "Email verified successfully")
        /\ In (User.set_email_verified_at (Some (now env))
                 (User.set_is_verified true u))
             (users (committed (snd out)))
        /\ user_sessions (committed (snd out)) = user_sessions (committed w)
        /\ (forall x, In x (users (committed w)) -> User.id x <> uid ->
                      In x (users (committed (snd out))))).
Proof.
  intros Hw Hf. split; [|split].
  - intro other. rewrite !verify_user_email_run by assumption. reflexivity.
  - intro Hnone. rewrite verify_user_email_run by assumption.
    destruct (find _ (users (committed w))) as [x|] eqn:E; [|reflexivity].
    exfalso. apply find_some in E. destruct E as [Hx Hid].
    apply Z.eqb_eq in Hid. exact (Hnone x Hx Hid).
  - intros u Hin Hid. cbv zeta. rewrite verify_user_email_run by assumption.
    destruct (find _ (users (committed w))) as [x|] eqn:E.
    + cbn [fst snd quiet committed Db.modify_user users user_sessions].
      split; [reflexivity|]. split; [|split; [reflexivity|]].
      * apply in_map_iff. exists u.
        split; [rewrite Hid, Z.eqb_refl; reflexivity | exact Hin].
      * intros y Hy Hyid. apply in_map_iff. exists y.
        split; [|exact Hy]. apply Z.eqb_neq in Hyid. rewrite Hyid. reflexivity.
    + exfalso. pose proof (find_none _ _ E u Hin) as Hn. cbn beta in Hn.
      rewrite Hid, Z.eqb_refl in Hn. discriminate.
Qed.

End Verification.

Lemma verify_user_email_ignores_token_witness :
  fst (AuthenticationService.verify_user_email (Demo.env 2000 "jti-2") 1
         "any-token" Demo.ann_registered)
  = Ret (succeeded "Email verified successfully").
Proof.
  assert (Hin : In Demo.ann_user (users (committed Demo.ann_registered))).
  { left. reflexivity. }
  pose proof (proj2 (proj2 (verify_user_email_ignores_token
                              (Demo.env 2000 "jti-2") 1 "any-token"
                              Demo.ann_registered demo_consistent eq_refl))
                Demo.ann_user Hin eq_refl) as H.
  cbv zeta in H. exact (proj1 H).
Defined.

(** ** Profile and preferences *)


Lemma apply_profile_email (k : ProfileKwargs) (u : User.t) :
  User.email (apply_profile k u) = User.email u.
Proof. destruct k as [[?|] [?|] [?|] [?|] [?|] [?|] [?|] [?|]]; reflexivity. Qed.



Section Profile.
Import AuthenticationService.




End Profile.


Section Preferences.
Import AuthenticationService.





End Preferences.


(** ** The sessions of a user *)

Lemma insert_desc_perm (s : UserSession.t) (l : list UserSession.t) :
  Permutation (insert_desc s l) (s :: l).
Proof.
  induction l as [|x l IH]; cbn [insert_desc]; [apply Permutation_refl|].
  destruct (UserSession.last_activity x <? UserSession.last_activity s).
  - apply Permutation_refl.
  - apply perm_trans with (x :: s :: l); [|apply perm_swap].
    apply perm_skip. exact IH.
Qed.

Lemma order_by_perm (l : list UserSession.t) :
  Permutation (order_by_last_activity_desc l) l.
Proof.
  induction l as [|x l IH]; [apply Permutation_refl|].
  unfold order_by_last_activity_desc in *. cbn [fold_right].
  apply perm_trans with (x :: fold_right insert_desc [] l).
  - apply insert_desc_perm.
  - apply perm_skip. exact IH.
Qed.

Lemma insert_desc_sorted (s : UserSession.t) (l : list UserSession.t) :
  StronglySorted not_before l -> StronglySorted not_before (insert_desc s l).
Proof.
  induction 1 as [|x l Hl IH Hx]; cbn [insert_desc].
  - constructor; constructor.
  - destruct (UserSession.last_activity x <? UserSession.last_activity s) eqn:E.
    + apply Z.ltb_lt in E. constructor; [constructor; assumption|].
      constructor; [unfold not_before; lia|].
      apply Forall_forall. intros y Hy.
      pose proof (proj1 (Forall_forall _ _) Hx y Hy) as H.
      unfold not_before in *. lia.
    + apply Z.ltb_ge in E. constructor; [exact IH|].
      apply Forall_forall. intros y Hy.
      apply (Permutation_in _ (insert_desc_perm s l)) in Hy.
      destruct Hy as [Hy | Hy]; [subst y; exact E|].
      exact (proj1 (Forall_forall _ _) Hx y Hy).
Qed.

Lemma order_by_sorted (l : list UserSession.t) :
  StronglySorted not_before (order_by_last_activity_desc l).
Proof.
  induction l as [|x l IH]; [constructor|].
  unfold order_by_last_activity_desc in *. cbn [fold_right].
  apply insert_desc_sorted. exact IH.
Qed.

(** X14. [get_user_sessions] always succeeds, for an unknown user with an
    empty list, and changes nothing. Its list shows the active sessions of
    the user, each once and no other row, the most recently active first:
    no entry has an earlier [last_activity] than an entry after it. *)
Theorem get_user_sessions_lists_active (uid : Z) (w : World) :
  exists l,
    AuthenticationService.get_user_sessions uid w
    = (Ret {| success := true; message := None; user := None;
              access_token := None; refresh_token := None;
              sessions := Some (map UserSession.to_dict l) |}, w)
    /\ Permutation l (active_of uid (working w))
    /\ StronglySorted not_before l
    /\ Forall (fun d => UserSession.d_is_active d = true)
         (map UserSession.to_dict l).
Proof.
  exists (order_by_last_activity_desc (active_of uid (working w))).
  split; [reflexivity|]. split; [apply order_by_perm|].
  split; [apply order_by_sorted|].
  apply Forall_forall. intros d Hd. apply in_map_iff in Hd.
  destruct Hd as [s [Hs Hin]]. subst d.
  apply (Permutation_in _ (order_by_perm _)) in Hin.
  unfold active_of in Hin. apply filter_In in Hin. destruct Hin as [_ Hin].
  apply andb_true_iff in Hin. apply Hin.
Qed.

(** ** Revoking all the sessions of a user *)

Lemma NoDup_map_inj {A B : Type} (f : A -> B) (l : list A) (a b : A) :
  NoDup (map f l) -> In a l -> In b l -> f a = f b -> a = b.
Proof.
  induction l as [|x l IH]; intros Hn Ha Hb E; [destruct Ha|].
  cbn [map] in Hn. inversion Hn as [|? ? Hx Hl]; subst.
  destruct Ha as [Ha | Ha], Hb as [Hb | Hb].
  - congruence.
  - subst x. exfalso. apply Hx. rewrite E. apply in_map. exact Hb.
  - subst x. exfalso. apply Hx. rewrite <- E. apply in_map. exact Ha.
  - apply IH; assumption.
Qed.

Lemma revoke_ids_active_of (uid : Z) (st : Store) :
  NoDup (map UserSession.id (user_sessions st)) ->
  user_sessions (revoke_ids (map UserSession.id (active_of uid st)) st)
  = map (fun s => if (UserSession.user_id s =? uid) && UserSession.is_active s
                  then UserSession.revoke s else s)
      (user_sessions st).
Proof.
  intro Hn. rewrite revoke_ids_sessions. apply map_ext_in. intros s Hs.
  destruct ((UserSession.user_id s =? uid) && UserSession.is_active s)%bool
    eqn:E.
  - assert (Hex : existsb (fun k => UserSession.id s =? k)
                    (map UserSession.id (active_of uid st)) = true).
    { apply existsb_exists. exists (UserSession.id s).
      split; [|apply Z.eqb_refl]. apply in_map. unfold active_of.
      apply filter_In. split; assumption. }
    rewrite Hex. reflexivity.
  - destruct (existsb _ (map UserSession.id (active_of uid st))) eqn:Hex;
      [|reflexivity].
    exfalso. apply existsb_exists in Hex. destruct Hex as [k [Hk Heq]].
    apply Z.eqb_eq in Heq. apply in_map_iff in Hk.
    destruct Hk as [y [Hy Hin]]. unfold active_of in Hin.
    apply filter_In in Hin. destruct Hin as [Hin Hact].
    assert (s = y).
    { apply (NoDup_map_inj UserSession.id (user_sessions st)); try assumption.
      congruence. }
    subst y. rewrite Hact in E. discriminate.
Qed.

Section RevokeAllCount.
Import AuthenticationService.

(** X15. With no commit refused and the session keys distinct,
    [revoke_all_user_sessions] answers with the number of active sessions
    of the user and revokes exactly those: every other row, of another
    user or inactive already, and every user are as before. A second call
    answers 0 and changes nothing. *)
Theorem revoke_all_user_sessions_counts (uid : Z) (w : World) :
  consistent w -> faults w = [] ->
  NoDup (map UserSession.id (user_sessions (committed w))) ->
  let out := revoke_all_user_sessions uid w in
  fst out = Ret (Z.of_nat (List.length (active_of uid (committed w))))
  /\ user_sessions (committed (snd out))
     = map (fun s => if (UserSession.user_id s =? uid)
                        && UserSession.is_active s
                     then UserSession.revoke s else s)
         (user_sessions (committed w))
  /\ users (committed (snd out)) = users (committed w)
  /\ active_of uid (committed (snd out)) = []
  /\ revoke_all_user_sessions uid (snd out) = (Ret 0, snd out).
Proof.
  intros Hw Hf Hn. cbv zeta.
  rewrite (revoke_all_user_sessions_run uid w Hw Hf). cbv zeta.
  cbn [fst snd quiet committed]. fold (active_of uid (committed w)).
  assert (Hnone : active_of uid
                    (revoke_ids (map UserSession.id (active_of uid (committed w)))
                       (committed w)) = []).
  { unfold active_of at 1. rewrite (revoke_ids_active_of uid _ Hn).
    clear Hn. induction (user_sessions (committed w)) as [|s l IH]; [reflexivity|].
    cbn [map filter].
    destruct (UserSession.user_id s =? uid) eqn:Eu;
      destruct (UserSession.is_active s) eqn:Ea; cbn [andb];
      cbn [UserSession.revoke UserSession.set_is_active UserSession.user_id
           UserSession.is_active];
      rewrite ?Eu, ?Ea; cbn [andb]; exact IH. }
  split; [reflexivity|]. split; [apply revoke_ids_active_of; exact Hn|].
  split; [apply revoke_ids_users|]. split; [exact Hnone|].
  rewrite revoke_all_user_sessions_run;
    [|split; [reflexivity|]; cbn [quiet committed];
      rewrite constraints_revoke_ids; apply Hw
     |reflexivity].
  cbv zeta. cbn [quiet committed].
  fold (active_of uid
          (revoke_ids (map UserSession.id (active_of uid (committed w)))
             (committed w))).
  rewrite Hnone. reflexivity.
Qed.

End RevokeAllCount.

Lemma revoke_all_user_sessions_counts_witness :
  let out := AuthenticationService.revoke_all_user_sessions 1
               Demo.ann_registered in
  fst out = Ret 1
  /\ AuthenticationService.revoke_all_user_sessions 1 (snd out)
     = (Ret 0, snd out).
Proof.
  assert (Hn : NoDup (map UserSession.id
                        (user_sessions (committed Demo.ann_registered)))).
  { vm_compute. constructor; [intros []|constructor]. }
  pose proof (revoke_all_user_sessions_counts 1 Demo.ann_registered
                demo_consistent eq_refl Hn) as H.
  cbv zeta in H. destruct H as [H1 [_ [_ [_ H5]]]].
  split; [exact H1 | exact H5].
Defined.
(** ** Creating a session *)



Section SessionCreation.
Import AuthenticationService.


End SessionCreation.


(** ** Validity when a commit is refused *)

Section FailClosed.
Import AuthenticationService.

(** X17. [is_session_valid] fails closed. Whichever commits are refused,
    it answers [True] only for the token of an active session that has not
    expired and only once the new [last_activity] of that session is in
    the database; and when the next commit is refused it answers [False]
    for every token and the database is as before. *)
Theorem is_session_valid_fails_closed (env : Env) (t : string) (w : World) :
  consistent w ->
  (fst (is_session_valid env t w) = Ret true ->
   exists s,
     In s (user_sessions (committed w))
     /\ UserSession.session_token s = t
     /\ UserSession.is_active s = true
     /\ now env <= UserSession.expires_at s
     /\ committed (snd (is_session_valid env t w))
        = Db.modify_session (UserSession.id s)
            (UserSession.update_activity (now env)) (committed w)
     /\ In (UserSession.update_activity (now env) s)
          (user_sessions (committed (snd (is_session_valid env t w)))))
  /\ (forall fs, faults w = true :: fs ->
        fst (is_session_valid env t w) = Ret false
        /\ committed (snd (is_session_valid env t w)) = committed w
        /\ working (snd (is_session_valid env t w)) = committed w).
Proof.
  intros [Hq Hc].
  unfold is_session_valid, try_except, Db.active_session_by_token, Db.read,
    bind, Db.update_session, Db.with_working, Db.commit, ret.
  cbv beta zeta. rewrite Hq.
  destruct (find _ (user_sessions (committed w))) as [s|] eqn:E.
  - apply find_some in E. destruct E as [Hin Hp].
    apply andb_true_iff in Hp. destruct Hp as [Ht Ha].
    apply String.eqb_eq in Ht.
    cbn [faults working committed]. rewrite ?Hq.
    destruct (UserSession.is_expired (now env) s) eqn:Ex;
      cbn [faults working committed]; rewrite ?Hq.
    + split.
      * destruct (match faults w with b :: _ => b | [] => false end);
          [cbn [fst]; intro H; discriminate H|].
        destruct (constraints_ok (Db.modify_session _ _ _)); cbn [fst]; intro H; discriminate H.
      * intros fs Hf. rewrite Hf. repeat split; reflexivity.
    + split.
      * destruct (match faults w with b :: _ => b | [] => false end);
          [cbn [fst]; intro H; discriminate H|].
        destruct (constraints_ok (Db.modify_session _ _ _)); [|cbn [fst]; intro H; discriminate H].
        intros _. exists s. cbn [snd committed].
        split; [exact Hin|]. split; [exact Ht|]. split; [exact Ha|].
        split; [unfold UserSession.is_expired in Ex; apply Z.ltb_ge; exact Ex|].
        split; [reflexivity|].
        cbn [Db.modify_session user_sessions]. apply in_map_iff. exists s.
        split; [rewrite Z.eqb_refl; reflexivity | exact Hin].
      * intros fs Hf. rewrite Hf. repeat split; reflexivity.
  - split; [cbn [fst]; intro H; discriminate H|]. intros fs Hf. cbn [fst snd].
    repeat split; try reflexivity. exact Hq.
Qed.

(** X18. The [/logout] route reports success without looking at the
    outcome of the revocation: when the commit of the revocation is
    refused, the answer is still [Logged out successfully] while the
    database is as before, so that a session that was valid stays valid. *)
Theorem logout_success_when_commit_refused (env : Env) (t : string)
    (w : World) (s : UserSession.t) (fs : list bool) :
  consistent w -> faults w = true :: fs ->
  In s (user_sessions (committed w)) ->
  UserSession.session_token s = t ->
  logout t w
  = (Ret (succeeded "Logged out successfully"),
     {| committed := committed w; working := committed w; faults := fs |})
  /\ (fs = [] -> UserSession.is_active s = true ->
      now env <= UserSession.expires_at s ->
      fst (is_session_valid env t (snd (logout t w))) = Ret true).
Proof.
  intros [Hq Hc] Hf Hin Ht.
  assert (E : logout t w
              = (Ret (succeeded "Logged out successfully"),
                 {| committed := committed w; working := committed w;
                    faults := fs |})).
  { unfold logout, revoke_user_session, try_except, Db.session_by_token,
      Db.read.
    unfold bind at 1. unfold bind at 1. rewrite Hq.
    destruct (find _ (user_sessions (committed w))) as [x|] eqn:E.
    - unfold bind, Db.update_session, Db.with_working, Db.commit, ret.
      cbn [faults working committed]. rewrite Hf. reflexivity.
    - exfalso. pose proof (find_none _ _ E s Hin) as Hn. cbn beta in Hn.
      rewrite Ht, String.eqb_refl in Hn. discriminate. }
  split; [exact E|].
  intros Hfs Ha Hexp. rewrite E. cbn [snd]. subst fs.
  rewrite is_session_valid_run; [|split; [reflexivity | exact Hc] | reflexivity].
  cbn [committed]. subst t.
  rewrite (the_active_session (committed w) s Hc Hin Ha).
  unfold UserSession.is_expired.
  apply Z.ltb_ge in Hexp. rewrite Hexp. reflexivity.
Qed.

End FailClosed.

Lemma is_session_valid_fails_closed_witness :
  let w := {| committed := committed Demo.ann_registered;
              working := committed Demo.ann_registered;
              faults := [true] |} in
  fst (AuthenticationService.is_session_valid (Demo.env 2000 "jti-2") "jti-1" w)
  = Ret false.
Proof.
  intro w.
  assert (Hw : consistent w).
  { split; [reflexivity | apply demo_consistent]. }
  exact (proj1 (proj2 (is_session_valid_fails_closed (Demo.env 2000 "jti-2")
                         "jti-1" w Hw) [] eq_refl)).
Defined.

Lemma logout_success_when_commit_refused_witness :
  let w := {| committed := committed Demo.ann_registered;
              working := committed Demo.ann_registered;
              faults := [true] |} in
  fst (AuthenticationService.logout "jti-1" w)
  = Ret (succeeded "Logged out successfully")
  /\ fst (AuthenticationService.is_session_valid (Demo.env 2000 "jti-2") "jti-1"
            (snd (AuthenticationService.logout "jti-1" w)))
     = Ret true.
Proof.
  intro w.
  assert (Hw : consistent w).
  { split; [reflexivity | apply demo_consistent]. }
  assert (Hin : In Demo.ann_session (user_sessions (committed w))).
  { left. reflexivity. }
  pose proof (logout_success_when_commit_refused (Demo.env 2000 "jti-2")
                "jti-1" w Demo.ann_session [] Hw eq_refl Hin eq_refl)
    as [H1 H2].
  split; [rewrite H1; reflexivity|].
  apply H2; [reflexivity | reflexivity | vm_compute; discriminate].
Defined.

(** ** Stored emails are in normal form *)

Lemma preserves_bind_lift {A B : Type} (P : World -> Prop) (r : res A)
    (k : A -> M B) :
  (forall a, r = Ret a -> preserves P (k a)) -> preserves P (bind (lift r) k).
Proof.
  intros Hk w H. unfold bind, lift. destruct r as [a|e]; [|exact H].
  apply (Hk a eq_refl). exact H.
Qed.

Lemma set_password_email {core : Bcrypt.Core} (entropy : list N)
    (password : string) (u a : User.t) :
  User.set_password entropy password u = Ret a -> User.email a = User.email u.
Proof.
  unfold User.set_password. destruct (negb (PyStr.truthy password));
    [discriminate|].
  destruct (Bcrypt.hashpw password (Bcrypt.gensalt entropy)); [|discriminate].
  intro H. injection H as H. subst a. reflexivity.
Qed.

Lemma emails_normal_kept : db_keeps_emails emails_normal_in.
Proof.
  constructor.
  - intros w [Hc Hw]. unfold Db.commit.
    destruct (match faults w with b :: _ => b | [] => false end);
      [split; exact Hc|].
    destruct (constraints_ok (working w)); split; assumption.
  - intros w [Hc Hw]. split; exact Hc.
  - intros t u Hu w [Hc Hw]. split; [exact Hc|]. cbn [Db.add_user snd working].
    intros x Hx. cbn [Db.insert_user users] in Hx. apply in_app_iff in Hx.
    destruct Hx as [Hx | [Hx | []]]; [apply Hw; exact Hx|]. subst x. exact Hu.
  - intros t s w [Hc Hw]. split; [exact Hc | exact Hw].
  - intros k f Hf w [Hc Hw]. split; [exact Hc|].
    cbn [Db.update_user Db.with_working snd working].
    intros x Hx. cbn [Db.modify_user users] in Hx. apply in_map_iff in Hx.
    destruct Hx as [y [Hy Hin]]. specialize (Hw y Hin).
    destruct (User.id y =? k); subst x; [|exact Hw].
    unfold normal_email in *. rewrite Hf. exact Hw.
  - intros k w [Hc Hw]. split; [exact Hc|].
    cbn [Db.delete_user Db.with_working snd working].
    intros x Hx. cbn [Db.remove_user users] in Hx. apply filter_In in Hx.
    apply Hw, Hx.
  - intros k f w [Hc Hw]. split; [exact Hc | exact Hw].
Qed.

Section EmailsKept.
Context {core : Bcrypt.Core}.
Import AuthenticationService.
Variable P : World -> Prop.
Hypothesis HP : db_keeps_emails P.

Ltac hold_step :=
  match goal with
  | |- preserves _ (ret _) => apply preserves_ret
  | |- preserves _ (bind (lift _) _) => apply preserves_bind_lift; intros ? ?
  | |- preserves _ (lift _) => apply preserves_lift
  | |- preserves _ (Db.read _) => apply preserves_read
  | |- preserves _ Db.commit => apply (emails_commit HP)
  | |- preserves _ Db.rollback => apply (emails_rollback HP)
  | |- preserves _ (Db.add_session _ _) => apply (emails_add_session HP)
  | |- preserves _ (Db.delete_user _) => apply (emails_delete_user HP)
  | |- preserves _ (Db.update_session _ _) => apply (emails_update_session HP)
  | |- preserves _ (for_each _ _) => apply preserves_for_each; intro
  | |- preserves _ (bind _ _) => apply preserves_bind; [|intro]
  | |- preserves _ (try_except _ _) => apply preserves_try_except; [|intro]
  | |- preserves _ (match ?x with _ => _ end) => destruct x
  end.

Ltac hold := repeat hold_step.

Ltac same_email :=
  apply (emails_update_user HP); intro;
  repeat match goal with
    | |- context [assign_if ?v _ _] => destruct v
    end;
  reflexivity.

Lemma create_user_session_keeps_emails env uid tok ip ua :
  preserves P (create_user_session env uid tok ip ua).
Proof. unfold create_user_session. hold. Qed.

Lemma revoke_user_session_keeps_emails t :
  preserves P (revoke_user_session t).
Proof. unfold revoke_user_session, Db.session_by_token. hold. Qed.

Lemma revoke_all_user_sessions_keeps_emails uid :
  preserves P (revoke_all_user_sessions uid).
Proof. unfold revoke_all_user_sessions, Db.active_sessions_of. hold. Qed.

Lemma step_keeps_emails (env : Env) (o : op) (w : World) :
  P w -> P (step env o w).
Proof.
  assert (Hs := create_user_session_keeps_emails).
  assert (Hr := revoke_user_session_keeps_emails).
  assert (Ha := revoke_all_user_sessions_keeps_emails).
  revert w.
  destruct o; unfold step, forget;
    match goal with
    | |- forall w, _ -> P (snd (?c w)) => change (preserves P c)
    end.
  - unfold register_user, Db.user_by_email. hold; try apply Hs; hold.
    apply (emails_add_user HP). unfold normal_email.
    match goal with
    | H : User.set_password _ _ _ = Ret _ |- _ =>
        apply set_password_email in H
    end.
    destruct (kw_bio kwargs), (kw_phone kwargs); cbn [assign_if];
      cbn [User.set_bio User.set_phone User.email];
      match goal with H : User.email _ = _ |- _ => rewrite H end;
      cbn [User.init User.email]; rewrite !normalize_idempotent; reflexivity.
  - unfold authenticate_user, update_last_login, Db.active_user_by_email.
    hold; try apply Hs; hold. same_email.
  - unfold refresh_access_token, Db.get_user. hold.
  - apply Hs.
  - apply Hr.
  - apply Ha.
  - unfold update_user_profile, Db.get_user. hold.
    apply (emails_update_user HP). intro. apply apply_profile_email.
  - unfold change_user_password, Db.get_user. hold; try apply Ha; hold.
    same_email.
  - unfold generate_password_reset_token, Db.user_by_email. hold.
  - unfold reset_password_with_token. hold.
  - unfold verify_user_email, Db.get_user. hold. same_email.
  - unfold deactivate_user_account, Db.get_user. hold; try apply Ha; hold.
    same_email.
  - unfold delete_user_account, Db.get_user. hold.
  - unfold get_user_sessions, Db.active_sessions_of. hold.
  - unfold update_notification_preferences, Db.get_user. hold.
    apply (emails_update_user HP). intro.
    destruct preferences as [[?|] [?|] [?|] [?|]]; reflexivity.
  - unfold update_privacy_settings, Db.get_user. hold.
    apply (emails_update_user HP). intro.
    destruct settings as [[?|] [?|]]; reflexivity.
  - unfold is_session_valid, Db.active_session_by_token. hold.
  - unfold logout. hold; try apply Hr; hold.
Qed.

Lemma run_keeps_emails (trace : list (Env * op)) (w : World) :
  P w -> P (run trace w).
Proof.
  revert w. induction trace as [|[env o] rest IH]; intros w H; simpl.
  - exact H.
  - apply IH. apply step_keeps_emails. exact H.
Qed.

End EmailsKept.

(** X20. Stored emails stay in normal form. Along every run of operations
    of the service, whichever commits are refused, every email in the
    database is what [lower().strip()] makes of it, if it was so at the
    start (as in the empty store): [register_user] stores the normalised
    address and no operation assigns to the column afterwards. With the
    UNIQUE constraint, no two accounts have addresses that agree up to
    case and surrounding whitespace. *)
Theorem stored_emails_stay_normal {core : Bcrypt.Core}
    (trace : list (Env * AuthenticationService.op)) (w : World) :
  consistent w -> emails_normal (committed w) ->
  let w' := AuthenticationService.run trace w in
  emails_normal (committed w')
  /\ (forall u v, In u (users (committed w')) -> In v (users (committed w')) ->
        PyStr.strip (PyStr.lower (User.email u))
        = PyStr.strip (PyStr.lower (User.email v)) ->
        u = v).
Proof.
  intros Hw Hn. cbv zeta.
  assert (Hn' : emails_normal_in (AuthenticationService.run trace w)).
  { apply (run_keeps_emails _ emails_normal_kept). split; [exact Hn|].
    destruct Hw as [Hq _]. rewrite Hq. exact Hn. }
  destruct Hn' as [Hc _]. split; [exact Hc|].
  intros u v Hu Hv E. rewrite (Hc u Hu), (Hc v Hv) in E.
  pose proof (consistent_run trace w Hw) as [_ Hok].
  exact (emails_unique _ u v Hok Hu Hv E).
Qed.

Lemma stored_emails_stay_normal_witness :
  let trace :=
    [(Demo.env 1000 "jti-1",
      AuthenticationService.Register "Ann" "A@B.com" "Str0ng!Pass" "en"
        Demo.no_kwargs);
     (Demo.env 2000 "jti-2",
      AuthenticationService.Authenticate " a@b.COM" "Str0ng!Pass" None None)] in
  emails_normal
    (committed (@AuthenticationService.run Bcrypt.stand_in trace
                  (quiet empty_store))).
Proof.
  intro trace.
  assert (Hw : consistent (quiet empty_store)) by (split; reflexivity).
  assert (Hn : emails_normal (committed (quiet empty_store))).
  { intros u []. }
  exact (proj1 (@stored_emails_stay_normal Bcrypt.stand_in trace
                  (quiet empty_store) Hw Hn)).
Defined.

(** ** What a login changes *)

Section LoginFrame.
Context {core : Bcrypt.Core}.
Import AuthenticationService.


End LoginFrame.


(** ** Password reset *)

Section Reset.
Import AuthenticationService.

(** X22. The two operations of password reset are placeholders that touch
    nothing. [generate_password_reset_token] gives one answer, whether an
    account has the email or not, and leaves the world as it is.
    [reset_password_with_token] does not look at its token and changes no
    password: it leaves the world as it is, and it answers that the
    password has been reset exactly when the new password meets the five
    rules of the policy. *)
Theorem password_reset_touches_nothing (email token new_password : string)
    (w : World) :
  generate_password_reset_token email w
  = (Ret (succeeded "If the email exists, a reset link has been sent"), w)
  /\ snd (reset_password_with_token token new_password w) = w
  /\ (fst (reset_password_with_token token new_password w)
      = Ret (succeeded "Password has been reset successfully")
      <-> forall r, Policy.met r new_password)
  /\ (forall other,
        reset_password_with_token other new_password w
        = reset_password_with_token token new_password w).
Proof.
  split; [|split; [|split]].
  - unfold generate_password_reset_token, try_except, bind, Db.user_by_email,
      Db.read, ret.
    destruct (find _ (users (working w))); reflexivity.
  - unfold reset_password_with_token, try_except, validate_password, ret.
    destruct (Validator.validate_password new_password) as [[|] errors];
      reflexivity.
  - unfold reset_password_with_token, try_except, validate_password, ret.
    split.
    + intros H r. apply metb_met.
      apply (proj1 (unmet_reasons_nil new_password)).
      rewrite <- validate_password_reasons.
      apply validate_password_flag.
      destruct (Validator.validate_password new_password) as [[|] errors];
        [reflexivity | discriminate H].
    + intro H. rewrite (policy_valid new_password H). reflexivity.
  - intro other. reflexivity.
Qed.

End Reset.

(** ** The routes *)

Lemma strip_idempotent (s : string) : PyStr.strip (PyStr.strip s) = PyStr.strip s.
Proof.
  unfold PyStr.strip. rewrite list_ascii_of_string_of_list_ascii.
  rewrite strip_l_idempotent. reflexivity.
Qed.

Section NewAccount.
Context {core : Bcrypt.Core}.
Import AuthenticationService.

(** What [register_user] does for a new address when nothing stands in its
    way. *)
Lemma register_user_new_account (env : Env)
    (name email password lang : string) (kw : RegisterKwargs) (w : World) :
  consistent w -> faults w = [] ->
  PyStr.strip name <> "" ->
  Validator.validate_email email = true ->
  (forall r, Policy.met r password) ->
  (forall x, In x (users (committed w)) ->
             User.email x <> PyStr.strip (PyStr.lower email)) ->
  fresh_token (access_jti env) (committed w) ->
  exists r u s,
    register_user env name email password lang kw w
    = (Ret r,
       quiet (Db.insert_session s (Db.insert_user u (committed w))))
    /\ success r = true
    /\ user r = Some (User.to_dict u)
    /\ User.id u = next_user_id (committed w)
    /\ User.email u = PyStr.strip (PyStr.lower email)
    /\ User.name u = PyStr.strip name
    /\ User.preferred_language u = lang
    /\ User.phone u = or_else (kw_phone kw) None
    /\ User.bio u = or_else (kw_bio kw) None
    /\ User.is_active u = true
    /\ UserSession.user_id s = User.id u
    /\ UserSession.session_token s = access_jti env.
Proof.
  intros [Hq Hc] Hf Hname Hemail Hpol Hnew Hfresh.
  rewrite (register_user_run env name email password lang kw w Hq Hf).
  rewrite (stripped_name_truthy name Hname).
  rewrite Hemail, (valid_email_truthy email Hemail). cbn [negb orb].
  rewrite (policy_valid password Hpol). cbn [fst snd negb].
  destruct (find _ (users (committed w))) as [x|] eqn:E.
  { exfalso. apply find_some in E. destruct E as [Hx He].
    apply String.eqb_eq in He. exact (Hnew x Hx He). }
  cbv zeta.
  set (u := Db.stamp_user (now env) (committed w) _).
  assert (Hue : User.email u = PyStr.strip (PyStr.lower email)).
  { unfold u. destruct (kw_bio kw), (kw_phone kw); cbn;
      apply normalize_idempotent. }
  assert (Hc1 : constraints_ok (Db.insert_user u (committed w)) = true).
  { apply constraints_insert_user; [exact Hc|].
    intros x Hx. rewrite Hue. apply Hnew. exact Hx. }
  rewrite Hc1.
  match goal with
  | |- context [constraints_ok (Db.insert_session ?x ?st)] =>
      set (s := x);
      assert (Hc2 : constraints_ok (Db.insert_session s st) = true)
  end.
  { apply constraints_insert_session; [exact Hc1|].
    intros x Hx. apply Hfresh. exact Hx. }
  rewrite Hc2.
  eexists. exists u, s. split; [reflexivity|].
  split; [reflexivity|]. split; [reflexivity|].
  unfold u.
  repeat split; try exact Hue;
    destruct (kw_bio kw), (kw_phone kw); reflexivity.
Qed.

Lemma register_user_known_address (env : Env)
    (name email password lang : string) (kw : RegisterKwargs) (w : World)
    (u : User.t) :
  consistent w -> faults w = [] ->
  PyStr.strip name <> "" ->
  Validator.validate_email email = true ->
  (forall r, Policy.met r password) ->
  In u (users (committed w)) ->
  User.email u = PyStr.strip (PyStr.lower email) ->
  register_user env name email password lang kw w
  = (Ret (failure "Email already registered"), w).
Proof.
  intros [Hq Hc] Hf Hname Hemail Hpol Hin Hu.
  rewrite (register_user_run env name email password lang kw w Hq Hf).
  rewrite (stripped_name_truthy name Hname).
  rewrite Hemail, (valid_email_truthy email Hemail). cbn [negb orb].
  rewrite (policy_valid password Hpol). cbn [fst snd negb].
  destruct (find _ (users (committed w))) as [x|] eqn:E; [reflexivity|].
  exfalso. pose proof (find_none _ _ E u Hin) as Hn. cbn beta in Hn.
  rewrite Hu, String.eqb_refl in Hn. discriminate.
Qed.

End NewAccount.

Section Signup.
Context {core : Bcrypt.Core}.
Import AuthenticationService.

Lemma signup_name_stripped (data : Fields) :
  PyStr.strip (Routes.signup_name data) = Routes.signup_name data.
Proof.
  unfold Routes.signup_name.
  destruct (negb (PyStr.truthy _)); apply strip_idempotent.
Qed.

(** X23. The [/signup] route strips the email before it registers. For a
    JSON request with a name, a password that meets the policy and an
    email field that is a valid address once the whitespace around it is
    removed, between two calls with no commit refused: when an account has
    that address, in lower case, the reply is [Email already registered]
    with status 400 and nothing changes; otherwise, under a token id that
    no session carries, the reply has status 201 and carries the profile
    of the one user that was added, with the address in lower case and the
    name, language, phone and bio of the request. *)
Theorem signup_strips_the_email (env : Env) (req : Request) (w : World) :
  consistent w -> faults w = [] ->
  method req = POST -> is_json req = true ->
  let data := json req in
  let address :=
    PyStr.strip (PyStr.lower (PyStr.strip (get data "email" ""))) in
  Routes.signup_name data <> "" ->
  Validator.validate_email (PyStr.strip (get data "email" "")) = true ->
  (forall r, Policy.met r (get data "password" "")) ->
  ((exists u, In u (users (committed w)) /\ User.email u = address) ->
   Routes.signup env req w
   = (Ret (Json (failure "Email already registered") 400), w))
  /\ ((forall x, In x (users (committed w)) -> User.email x <> address) ->
      fresh_token (access_jti env) (committed w) ->
      exists r u,
        fst (Routes.signup env req w) = Ret (Json r 201)
        /\ success r = true
        /\ user r = Some (User.to_dict u)
        /\ users (committed (snd (Routes.signup env req w)))
           = (users (committed w) ++ [u])%list
        /\ User.email u = address
        /\ User.name u = Routes.signup_name data
        /\ User.preferred_language u = get data "preferredLanguage" "en"
        /\ User.phone u = data "phone"
        /\ User.bio u = data "bio").
Proof.
  intros Hw Hf Hm Hj. cbv zeta. intros Hname Hemail Hpol.
  assert (Hname' : PyStr.strip (Routes.signup_name (json req)) <> "").
  { rewrite signup_name_stripped. exact Hname. }
  unfold Routes.signup, Routes.data_of. rewrite Hm, Hj. cbv zeta.
  unfold try_except, bind. split.
  - intros [u [Hin Hu]].
    rewrite (register_user_known_address env _ _ _ _ _ w u Hw Hf Hname'
               Hemail Hpol Hin Hu).
    reflexivity.
  - intros Hnew Hfresh.
    destruct (register_user_new_account env _ _ _
                (get (json req) "preferredLanguage" "en")
                {| kw_phone := Some (json req "phone");
                   kw_bio := Some (json req "bio") |}
                w Hw Hf Hname' Hemail Hpol Hnew Hfresh)
      as [r [u [s [E [H1 [H2 [_ [H4 [H5 [H6 [H7 [H8 _]]]]]]]]]]]].
    rewrite E. cbn [fst snd ret]. rewrite H1.
    exists r, u. split; [reflexivity|]. split; [exact H1|].
    split; [exact H2|]. split; [reflexivity|]. split; [exact H4|].
    split; [rewrite H5; apply signup_name_stripped|].
    split; [exact H6|]. split; [exact H7 | exact H8].
Qed.

End Signup.

Lemma signup_strips_the_email_witness :
  let data : Fields :=
    fun key =>
      if String.eqb key "name" then Some "Bob"
      else if String.eqb key "email" then Some "  A@b.COM "
      else if String.eqb key "password" then Some "Str0ng!Pass"
      else None in
  let req := {| method := POST; is_json := true; json := data;
                form := fun _ => None; args := fun _ => None;
                remote_addr := None; user_agent := None |} in
  @Routes.signup Bcrypt.stand_in (Demo.env 2000 "jti-2") req Demo.ann_registered
  = (Ret (Json (failure "Email already registered") 400), Demo.ann_registered).
Proof.
  intros data req.
  assert (Hpol : forall r, Policy.met r (get (json req) "password" "")).
  { intro r. apply metb_met. destruct r; reflexivity. }
  apply (proj1 (@signup_strips_the_email Bcrypt.stand_in (Demo.env 2000 "jti-2")
                  req Demo.ann_registered demo_consistent eq_refl eq_refl
                  eq_refl ltac:(discriminate) eq_refl Hpol)).
  exists Demo.ann_user. split; [left; reflexivity | reflexivity].
Defined.

Section Login.
Context {core : Bcrypt.Core}.
Import AuthenticationService.

(** [authenticate_user] returns, and a failure that it answers with
    carries a message. *)
Lemma authenticate_user_answers (env : Env) (email password : string)
    (ip ua : option string) (w : World) :
  exists r w',
    authenticate_user env email password ip ua w = (Ret r, w')
    /\ (success r = false -> exists m, message r = Some m).
Proof.
  unfold authenticate_user, update_last_login. primitives. split_cases;
    eexists; eexists; (split; [reflexivity|]); cbn [success message failure];
    intro H; first [discriminate H | eexists; reflexivity].
Qed.

(** X24. The [/login] route never answers with its own error reply: for
    every POST request and every world it passes the stripped email, the
    password and the address and agent of the request to
    [authenticate_user] and turns the answer into the reply. A JSON
    request gets the answer with status 200 on success and 401 otherwise.
    A form gets the message of a failure flashed on the login page, and on
    success a redirect to the query parameter [redirect] as it was sent,
    whatever it is, or to the index when there is none. *)
Theorem login_route_replies (env : Env) (req : Request) (w : World) :
  method req = POST ->
  let data := Routes.data_of req in
  exists r,
    authenticate_user env (PyStr.strip (get data "email" ""))
      (get data "password" "") (remote_addr req) (user_agent req) w
    = (Ret r, snd (Routes.login env req w))
    /\ (is_json req = true ->
        fst (Routes.login env req w)
        = Ret (Json r (if success r then 200 else 401)))
    /\ (is_json req = false -> success r = true ->
        fst (Routes.login env req w)
        = Ret (Redirect ("Login successful!", "success")
                 (match args req "redirect" with
                  | Some target => Url target
                  | None => Endpoint "main.index"
                  end)))
    /\ (is_json req = false -> success r = false ->
        exists m, message r = Some m
                  /\ fst (Routes.login env req w)
                     = Ret (Template "auth/login.html" (Some (m, "error")))).
Proof.
  intros Hm. cbv zeta. unfold Routes.login. rewrite Hm. cbv zeta.
  destruct (authenticate_user_answers env
              (PyStr.strip (get (Routes.data_of req) "email" ""))
              (get (Routes.data_of req) "password" "")
              (remote_addr req) (user_agent req) w)
    as [r [w' [E Hmsg]]].
  exists r. unfold try_except, bind. rewrite E.
  destruct (is_json req); cbn [fst snd ret].
  - split; [reflexivity|]. split; [reflexivity|].
    split; intro H; discriminate H.
  - destruct (success r) eqn:Hs; cbn [fst snd ret].
    + split; [reflexivity|]. split; [intro H; discriminate H|].
      split; [reflexivity|]. intros _ H. discriminate H.
    + destruct (Hmsg eq_refl) as [m Hm']. rewrite Hm'. cbn [fst snd ret].
      split; [reflexivity|]. split; [intro H; discriminate H|].
      split; [intros _ H; discriminate H|].
      intros _ _. exists m. split; reflexivity.
Qed.

End Login.

Lemma login_route_replies_witness :
  let data : Fields :=
    fun key =>
      if String.eqb key "email" then Some " a@b.com"
      else if String.eqb key "password" then Some "Str0ng!Pass"
      else None in
  let req := {| method := POST; is_json := false; json := fun _ => None;
                form := data;
                args := fun key => if String.eqb key "redirect"
                                   then Some "https://elsewhere.example/"
                                   else None;
                remote_addr := Some "10.0.0.7"; user_agent := None |} in
  fst (@Routes.login Bcrypt.stand_in (Demo.env 2000 "jti-2") req
         Demo.ann_registered)
  = Ret (Redirect ("Login successful!", "success")
           (Url "https://elsewhere.example/")).
Proof.
  intros data req.
  destruct (@login_route_replies Bcrypt.stand_in (Demo.env 2000 "jti-2") req
              Demo.ann_registered eq_refl)
    as [r [E [_ [H _]]]].
  apply H; [reflexivity|].
  assert (Er : fst (@AuthenticationService.authenticate_user Bcrypt.stand_in
                      (Demo.env 2000 "jti-2")
                      (PyStr.strip (get (Routes.data_of req) "email" ""))
                      (get (Routes.data_of req) "password" "")
                      (remote_addr req) (user_agent req) Demo.ann_registered)
               = Ret r).
  { rewrite E. reflexivity. }
  revert Er. vm_compute. intro Er. injection Er as Er. subst r. reflexivity.
Defined.

(** ** The start of the application *)

Section Start.
Context {core : Bcrypt.Core}.
Import AuthenticationService.

(** X25. Starting the application resets the store to one hard-wired
    account. With no commit refused, whatever the database held before,
    after [create_app] it holds no session and exactly one user: the
    administrator, active, with the key 1 and the email
    [admin@airecipehub.com]. Its password [admin123] does not meet the
    policy that [register_user] enforces, yet [authenticate_user] accepts
    it: a login with these credentials succeeds. *)
Theorem create_app_leaves_the_default_admin (env : Env) (w : World) :
  faults w = [] ->
  let w' := snd (create_app env w) in
  exists admin,
    fst (create_app env w) = Ret tt
    /\ users (committed w') = [admin]
    /\ user_sessions (committed w') = []
    /\ User.id admin = 1
    /\ User.name admin = "Admin User"
    /\ User.email admin = "admin@airecipehub.com"
    /\ User.is_active admin = true
    /\ fst (validate_password "admin123") = false
    /\ (forall env2 ip ua,
          exists r tok,
            fst (authenticate_user env2 "admin@airecipehub.com" "admin123"
                   ip ua w') = Ret r
            /\ success r = true
            /\ access_token r = Some tok
            /\ Jwt.identity tok = 1).
Proof.
  intros Hf. cbv zeta.
  assert (Hp : "admin123" <> "") by discriminate.
  assert (E : create_app env w
              = (Ret tt,
                 quiet (Db.insert_user
                          (Db.stamp_user (now env) empty_store
                             (User.set_password_hash
                                (Some (new_hash (entropy env) "admin123"))
                                (User.init "Admin User"
                                   "admin@airecipehub.com" "en")))
                          empty_store))).
  { unfold create_app, drop_all_create_all, bind, Db.user_by_email, Db.read.
    cbn [working users empty_store find].
    rewrite (set_password_returns (entropy env) "admin123" _ Hp).
    unfold lift, Db.add_user, Db.commit. cbn [faults working committed].
    rewrite Hf. reflexivity. }
  rewrite E. cbn [fst snd]. eexists.
  split; [reflexivity|]. split; [reflexivity|]. split; [reflexivity|].
  split; [reflexivity|]. split; [reflexivity|]. split; [reflexivity|].
  split; [reflexivity|]. split; [reflexivity|].
  intros env2 ip ua.
  match goal with
  | |- context [quiet (Db.insert_user ?u empty_store)] => set (admin := u)
  end.
  assert (Hw : consistent (quiet (Db.insert_user admin empty_store))).
  { split; reflexivity. }
  assert (Hchk : User.check_password admin "admin123" = Ret true).
  { exact (check_password_new_hash (entropy env) "admin123"
             (User.init "Admin User" "admin@airecipehub.com" "en") Hp). }
  destruct (authenticate_user_succeeds env2 "admin@airecipehub.com"
              "admin123" ip ua _ admin Hw eq_refl
              ltac:(discriminate) Hp
              ltac:(left; reflexivity) eq_refl eq_refl Hchk)
    as [r [H1 [H2 [_ [_ [[tok [Ht1 [Ht2 _]]] _]]]]]].
  exists r, tok. repeat split; assumption.
Qed.

End Start.

Lemma create_app_leaves_the_default_admin_witness :
  users (committed (snd (@create_app Bcrypt.stand_in (Demo.env 3000 "jti-3")
                           Demo.ann_registered)))
  = [Db.stamp_user 3000 empty_store
       (User.set_password_hash
          (Some (@new_hash Bcrypt.stand_in [1; 2; 3]%N "admin123"))
          (User.init "Admin User" "admin@airecipehub.com" "en"))].
Proof.
  destruct (@create_app_leaves_the_default_admin Bcrypt.stand_in
              (Demo.env 3000 "jti-3") Demo.ann_registered eq_refl)
    as [admin [_ [H _]]].
  cbv zeta in H. rewrite H. revert H. vm_compute. intro H.
  injection H as H. rewrite H. reflexivity.
Defined.

(** ** Secure tokens *)

Lemma choice_alnum (n : N) :
  Validator.alnum (choice token_alphabet n) = true.
Proof.
  unfold choice. change (N.of_nat (String.length token_alphabet)) with 62%N.
  assert (H : (N.to_nat (n mod 62) < 62)%nat).
  { pose proof (N.mod_lt n 62 ltac:(discriminate)). lia. }
  revert H. generalize (N.to_nat (n mod 62)). intros k H.
  do 62 (destruct k as [|k]; [reflexivity|]). lia.
Qed.

Lemma choices_length (alphabet : string) (k : nat) (draws : list N) :
  List.length (choices alphabet k draws) = k.
Proof.
  revert draws. induction k as [|k IH]; intro draws; [reflexivity|].
  cbn [choices]. destruct draws; cbn [List.length]; rewrite IH; reflexivity.
Qed.

Lemma choices_alnum (k : nat) (draws : list N) (c : ascii) :
  In c (choices token_alphabet k draws) -> Validator.alnum c = true.
Proof.
  revert draws. induction k as [|k IH]; intros draws H; [destruct H|].
  cbn [choices] in H.
  destruct draws as [|n t]; destruct H as [H | H];
    try (subst c; apply choice_alnum); apply (IH _ H).
Qed.

Lemma string_length_of_list (l : list ascii) :
  String.length (string_of_list_ascii l) = List.length l.
Proof.
  induction l as [|c l IH]; [reflexivity|]. cbn. rewrite IH. reflexivity.
Qed.

(** X26. [generate_secure_token] returns as many characters as asked for
    (none for a length that is not positive), each of them a letter or a
    digit of ASCII, whatever the random source draws; and each of the 62
    letters and digits is the choice of some draw. *)
Theorem generate_secure_token_shape (length : Z) (draws : list N) :
  String.length (generate_secure_token length draws) = Z.to_nat length
  /\ (forall c, In c (list_ascii_of_string (generate_secure_token length draws))
                -> Validator.alnum c = true)
  /\ (forall c, Validator.alnum c = true ->
                exists n, choice token_alphabet n = c).
Proof.
  unfold generate_secure_token. split; [|split].
  - rewrite string_length_of_list. apply choices_length.
  - intros c. rewrite list_ascii_of_string_of_list_ascii. apply choices_alnum.
  - intros c Hc.
    assert (Hin : In c (list_ascii_of_string token_alphabet)).
    { revert Hc. destruct c as [[] [] [] [] [] [] [] []];
        vm_compute; intro H; try discriminate H; tauto. }
    destruct (In_nth _ _ "a"%char Hin) as [i [Hi Hnth]].
    exists (N.of_nat i). unfold choice.
    change (N.of_nat (String.length token_alphabet)) with 62%N.
    change (List.length (list_ascii_of_string token_alphabet)) with 62%nat in Hi.
    rewrite N.mod_small by lia. rewrite Nat2N.id. exact Hnth.
Qed.

(** ** Preferences *)

Section PreferenceFacts.
Import UserPreference.
Context {J : Json}.

Lemma same_key_iff (uid : Z) (key : string) (p : t) :
  same_key uid key p = true <-> key_of p = (uid, key).
Proof.
  unfold same_key, key_of. rewrite andb_true_iff, Z.eqb_eq, String.eqb_eq.
  split; [intros [-> ->]; reflexivity | intro H; injection H; auto].
Qed.

Lemma same_key_other (uid uid' : Z) (key key' : string) (p : t) :
  (uid', key') <> (uid, key) -> same_key uid key p = true ->
  same_key uid' key' p = false.
Proof.
  intros Hne H. apply same_key_iff in H.
  destruct (same_key uid' key' p) eqn:E; [|reflexivity].
  apply same_key_iff in E. congruence.
Qed.

Lemma find_update_first (p : t -> bool) (f : t -> t) (l : list t) :
  (forall x, p (f x) = p x) ->
  find p (update_first p f l) = option_map f (find p l).
Proof.
  intro Hf. induction l as [|x l IH]; [reflexivity|]. cbn [update_first find].
  destruct (p x) eqn:E; cbn [find].
  - rewrite Hf, E. reflexivity.
  - rewrite E. exact IH.
Qed.

Lemma find_update_first_other (p q : t -> bool) (f : t -> t) (l : list t) :
  (forall x, p x = true -> q x = false) ->
  (forall x, q (f x) = q x) ->
  find q (update_first p f l) = find q l.
Proof.
  intros Hpq Hf. induction l as [|x l IH]; [reflexivity|].
  cbn [update_first find]. destruct (p x) eqn:E; cbn [find].
  - rewrite Hf, (Hpq x E). reflexivity.
  - rewrite IH. reflexivity.
Qed.

Lemma find_remove_first_other (p q : t -> bool) (l : list t) :
  (forall x, p x = true -> q x = false) ->
  find q (remove_first p l) = find q l.
Proof.
  intros Hpq. induction l as [|x l IH]; [reflexivity|].
  cbn [remove_first find]. destruct (p x) eqn:E; cbn [find].
  - rewrite (Hpq x E). reflexivity.
  - rewrite IH. reflexivity.
Qed.

Lemma find_snoc_none {A : Type} (p : A -> bool) (l : list A) (a : A) :
  find p l = None -> find p (l ++ [a]) = if p a then Some a else None.
Proof.
  induction l as [|x l IH]; intro H; [reflexivity|]. cbn [app find] in *.
  destruct (p x); [discriminate|]. apply IH. exact H.
Qed.

Lemma find_snoc_other {A : Type} (p : A -> bool) (l : list A) (a : A) :
  p a = false -> find p (l ++ [a]) = find p l.
Proof.
  intro Ha. induction l as [|x l IH]; cbn [app find].
  - rewrite Ha. reflexivity.
  - destruct (p x); [reflexivity | exact IH].
Qed.

Lemma in_remove_first (p : t -> bool) (l : list t) (x : t) :
  In x (remove_first p l) -> In x l.
Proof.
  induction l as [|y l IH]; intro H; [destruct H|]. cbn [remove_first] in H.
  destruct (p y); [right; exact H|].
  destruct H as [H | H]; [left; exact H | right; apply IH; exact H].
Qed.

Lemma find_remove_first_unique (uid : Z) (key : string) (l : list t) :
  NoDup (map key_of l) ->
  find (same_key uid key) (remove_first (same_key uid key) l) = None.
Proof.
  induction l as [|x l IH]; intro Hn; [reflexivity|].
  cbn [map] in Hn. inversion Hn as [|? ? Hx Hl]; subst.
  cbn [remove_first]. destruct (same_key uid key x) eqn:E.
  - destruct (find (same_key uid key) l) as [y|] eqn:F; [|reflexivity].
    exfalso. apply find_some in F. destruct F as [Hy Hk].
    apply same_key_iff in E. apply same_key_iff in Hk.
    apply Hx. rewrite E, <- Hk. apply in_map. exact Hy.
  - cbn [find]. rewrite E. apply IH. exact Hl.
Qed.

Lemma unique_remove_first (p : t -> bool) (l : list t) :
  NoDup (map key_of l) -> NoDup (map key_of (remove_first p l)).
Proof.
  induction l as [|x l IH]; intro Hn; [constructor|].
  cbn [map] in Hn. inversion Hn as [|? ? Hx Hl]; subst.
  cbn [remove_first]. destruct (p x); [exact Hl|].
  cbn [map]. constructor; [|apply IH; exact Hl].
  intro Hin. apply Hx. apply in_map_iff in Hin. destruct Hin as [y [Hy Hin]].
  rewrite <- Hy. apply in_map. apply (in_remove_first p). exact Hin.
Qed.

Lemma map_key_update_first (p : t -> bool) (f : t -> t) (l : list t) :
  (forall x, key_of (f x) = key_of x) ->
  map key_of (update_first p f l) = map key_of l.
Proof.
  intro Hf. induction l as [|x l IH]; [reflexivity|]. cbn [update_first].
  destruct (p x); cbn [map]; [rewrite Hf | rewrite IH]; reflexivity.
Qed.

Lemma NoDup_snoc {A : Type} (l : list A) (a : A) :
  NoDup l -> ~ In a l -> NoDup (l ++ [a]).
Proof.
  induction l as [|x l IH]; intros Hn Ha.
  - constructor; [intros []|constructor].
  - inversion Hn as [|? ? Hx Hl]; subst. cbn [app]. constructor.
    + intro Hin. apply in_app_iff in Hin. destruct Hin as [Hin | [Hin | []]].
      * exact (Hx Hin).
      * apply Ha. left. symmetry. exact Hin.
    + apply IH; [exact Hl|]. intro Hin. apply Ha. right. exact Hin.
Qed.

(** X27. [set_preference] then [get_preference]. Reading the key just
    set gives, for a value that is not a string, the value itself whenever
    [json.loads] undoes [json.dumps] on it; for a string, which is stored
    as it is, it gives what [json.loads] makes of the string when the
    string reads as JSON, and the string itself only when it does not.
    The preferences under the other keys and of the other users read as
    before. *)
Theorem set_preference_then_get (now uid : Z) (key : string) (v d : value)
    (tb : Table) :
  let tb' := set_preference now uid key v tb in
  get_preference uid key d tb' = decode (Some (encode v))
  /\ (as_text v = None -> loads (dumps v) = Some v ->
      get_preference uid key d tb' = v)
  /\ (forall s, as_text v = Some s ->
        get_preference uid key d tb'
        = match loads s with Some v' => v' | None => text s end)
  /\ (forall uid' key' d',
        (uid', key') <> (uid, key) ->
        get_preference uid' key' d' tb' = get_preference uid' key' d' tb).
Proof.
  cbv zeta.
  assert (Hget : get_preference uid key d (set_preference now uid key v tb)
                 = decode (Some (encode v))).
  { unfold get_preference, set_preference, first_of.
    destruct (find (same_key uid key) (rows tb)) as [p|] eqn:E; cbn [rows].
    - rewrite find_update_first by reflexivity. rewrite E. reflexivity.
    - rewrite (find_snoc_none _ _ _ E). unfold same_key at 1.
      cbn [user_id preference_key]. rewrite Z.eqb_refl, String.eqb_refl.
      reflexivity. }
  split; [exact Hget|]. split; [|split].
  - intros Ht Hl. rewrite Hget. unfold decode, encode. rewrite Ht, Hl.
    reflexivity.
  - intros s Ht. rewrite Hget. unfold decode, encode. rewrite Ht.
    reflexivity.
  - intros uid' key' d' Hne. unfold get_preference, set_preference, first_of.
    destruct (find (same_key uid key) (rows tb)) as [p|] eqn:E; cbn [rows].
    + rewrite find_update_first_other;
        [reflexivity | intros x Hx; exact (same_key_other uid uid' key key' x Hne Hx) | reflexivity].
    + rewrite find_snoc_other; [reflexivity|].
      destruct (same_key uid' key' _) eqn:F; [|reflexivity].
      apply same_key_iff in F. unfold key_of in F.
      cbn [user_id preference_key] in F. congruence.
Qed.

(** X28. One row for a user and a key. When the table has at most one
    row for each user and key, [set_preference] and [delete_preference]
    keep it so: a second [set_preference] of a key replaces the value in
    place and adds no row. After [delete_preference] the key reads as its
    default, and the preferences under the other keys and of the other
    users read as before. *)
Theorem preferences_keep_one_row_per_key (now uid : Z) (key : string)
    (v d : value) (tb : Table) :
  unique_keys tb ->
  unique_keys (set_preference now uid key v tb)
  /\ unique_keys (delete_preference uid key tb)
  /\ (forall now' v',
        List.length
          (rows (set_preference now' uid key v'
                   (set_preference now uid key v tb)))
        = List.length (rows (set_preference now uid key v tb)))
  /\ get_preference uid key d (delete_preference uid key tb) = d
  /\ (forall uid' key' d',
        (uid', key') <> (uid, key) ->
        get_preference uid' key' d' (delete_preference uid key tb)
        = get_preference uid' key' d' tb).
Proof.
  unfold unique_keys. intro Hn.
  assert (Hlen : forall p f l, List.length (update_first p f l)
                               = List.length l).
  { intros p f l. induction l as [|x l IH]; [reflexivity|].
    cbn [update_first]. destruct (p x); cbn [List.length];
      [|rewrite IH]; reflexivity. }
  split; [|split; [|split; [|split]]].
  - unfold set_preference, first_of.
    destruct (find (same_key uid key) (rows tb)) as [p|] eqn:E; cbn [rows].
    + rewrite map_key_update_first by reflexivity. exact Hn.
    + rewrite map_app. cbn [map]. apply NoDup_snoc; [exact Hn|].
      intro Hin. apply in_map_iff in Hin. destruct Hin as [y [Hy Hin]].
      pose proof (find_none _ _ E y Hin) as Hno.
      apply (proj2 (same_key_iff uid key y)) in Hy. congruence.
  - unfold delete_preference, first_of.
    destruct (find (same_key uid key) (rows tb)); cbn [rows];
      [apply unique_remove_first|]; exact Hn.
  - intros now' v'. unfold set_preference at 1. unfold first_of.
    assert (Hfound : exists p,
               find (same_key uid key)
                 (rows (set_preference now uid key v tb)) = Some p).
    { unfold set_preference, first_of.
      destruct (find (same_key uid key) (rows tb)) as [p|] eqn:E; cbn [rows].
      - rewrite find_update_first by reflexivity. rewrite E.
        eexists. reflexivity.
      - rewrite (find_snoc_none _ _ _ E). unfold same_key at 1.
        cbn [user_id preference_key]. rewrite Z.eqb_refl, String.eqb_refl.
        eexists. reflexivity. }
    destruct Hfound as [p Hp]. rewrite Hp. cbn [rows]. apply Hlen.
  - unfold get_preference, delete_preference, first_of.
    destruct (find (same_key uid key) (rows tb)) as [p|] eqn:E; cbn [rows].
    + rewrite (find_remove_first_unique uid key _ Hn). reflexivity.
    + rewrite E. reflexivity.
  - intros uid' key' d' Hne.
    unfold get_preference, delete_preference, first_of.
    destruct (find (same_key uid key) (rows tb)) as [p|] eqn:E; cbn [rows];
      [|reflexivity].
    rewrite find_remove_first_other;
      [reflexivity | intros x Hx; exact (same_key_other uid uid' key key' x Hne Hx)].
Qed.

End PreferenceFacts.

Lemma set_preference_then_get_witness :
  let tb := UserPreference.set_preference (J := UserPreference.small_json)
              1000 1 "newsletter" (UserPreference.SText "true")
              {| UserPreference.rows := []; UserPreference.next_id := 1 |} in
  UserPreference.get_preference (J := UserPreference.small_json)
    1 "newsletter" UserPreference.SNone tb
  = UserPreference.SBool true.
Proof.
  intro tb.
  pose proof (set_preference_then_get
                (J := UserPreference.small_json) 1000 1 "newsletter"
                (UserPreference.SText "true") UserPreference.SNone
                {| UserPreference.rows := []; UserPreference.next_id := 1 |})
    as H.
  cbv zeta in H. destruct H as [_ [_ [H _]]].
  exact (H "true" eq_refl).
Defined.

Lemma preferences_keep_one_row_per_key_witness :
  let tb := UserPreference.set_preference (J := UserPreference.small_json)
              1000 1 "theme" (UserPreference.SText "dark")
              {| UserPreference.rows := []; UserPreference.next_id := 1 |} in
  UserPreference.get_preference (J := UserPreference.small_json)
    1 "theme" UserPreference.SNone
    (UserPreference.delete_preference 1 "theme" tb)
  = UserPreference.SNone.
Proof.
  intro tb.
  assert (Hn : UserPreference.unique_keys tb).
  { unfold UserPreference.unique_keys. vm_compute.
    constructor; [intros []|constructor]. }
  exact (proj1 (proj2 (proj2 (proj2
           (preferences_keep_one_row_per_key
              (J := UserPreference.small_json) 2000 1 "theme"
              (UserPreference.SText "dark") UserPreference.SNone tb Hn))))).
Defined.

(** ** How long the session of a login is valid *)

Section Lifetime.
Context {core : Bcrypt.Core}.
Import AuthenticationService.

(** X29. The session of a login lives for one hour plus the offset of the
    server's local time from UTC. [create_user_session] reads the [exp] of
    the token in local time and [is_expired] compares with the UTC clock:
    after a login that succeeded at time [t] under a token id that no
    session carried, [is_session_valid] answers [True] for that token at
    the time [t'] exactly when [t' <= t + 3600 + utc_offset], with no
    commit refused. On a server whose local time is more than an hour
    behind UTC the session is never valid. *)
Theorem login_session_lifetime (env env2 : Env) (email password : string)
    (ip ua : option string) (w : World) (u : User.t) :
  consistent w -> faults w = [] ->
  email <> "" -> password <> "" ->
  In u (users (committed w)) ->
  User.email u = PyStr.strip (PyStr.lower email) ->
  User.is_active u = true ->
  User.check_password u password = Ret true ->
  fresh_token (access_jti env) (committed w) ->
  let w1 := snd (authenticate_user env email password ip ua w) in
  fst (is_session_valid env2 (access_jti env) w1)
  = Ret (now env2 <=? now env + 3600 + utc_offset env)
  /\ (utc_offset env < -3600 -> now env <= now env2 ->
      fst (is_session_valid env2 (access_jti env) w1) = Ret false).
Proof.
  intros Hw Hf He Hp Hin Hemail Hact Hchk Hfresh. cbv zeta.
  destruct (authenticate_user_succeeds env email password ip ua w u
              Hw Hf He Hp Hin Hemail Hact Hchk)
    as [r [_ [_ [_ [_ [_ [_ [Hw1 [Hf1 _]]]]]]]]].
  pose proof (authenticate_user_session env email password ip ua w u
                Hw Hf He Hp Hin Hemail Hact Hchk Hfresh) as Hs.
  set (w1 := snd (authenticate_user env email password ip ua w)) in *.
  assert (E : fst (is_session_valid env2 (access_jti env) w1)
              = Ret (now env2 <=? now env + 3600 + utc_offset env)).
  { rewrite (is_session_valid_run env2 (access_jti env) w1 Hw1 Hf1).
    match type of Hs with
    | _ = (_ ++ [?x])%list => set (s := x) in *
    end.
    assert (Hfind : find (fun x => String.eqb (UserSession.session_token x)
                                     (UserSession.session_token s)
                                   && UserSession.is_active x)
                      (user_sessions (committed w1)) = Some s).
    { apply the_active_session; [apply Hw1 | | reflexivity].
      rewrite Hs. apply in_or_app. right. left. reflexivity. }
    change (UserSession.session_token s) with (access_jti env) in Hfind.
    rewrite Hfind. unfold UserSession.is_expired.
    change (UserSession.expires_at s) with (now env + 3600 + utc_offset env).
    rewrite Z.leb_antisym.
    destruct (now env + 3600 + utc_offset env <? now env2); reflexivity. }
  split; [exact E|].
  intros Hoff Hlater. rewrite E. f_equal. apply Z.leb_gt. lia.
Qed.

(** X30. A token from [refresh_access_token] has no session. For an
    active user the refresh succeeds whatever the sessions of the user
    are, also when all of them are revoked, and writes nothing; so when no
    session carries the token id of the call, none carries it afterwards
    and [is_session_valid] answers [False] for the new access token, with
    no commit refused. *)
Theorem refreshed_token_has_no_session (env env2 : Env) (uid : Z) (w : World)
    (u : User.t) :
  consistent w -> faults w = [] ->
  fst (Db.get_user uid w) = Ret (Some u) ->
  User.is_active u = true ->
  fresh_token (access_jti env) (committed w) ->
  exists r tok,
    refresh_access_token env uid w = (Ret r, w)
    /\ success r = true
    /\ access_token r = Some tok
    /\ Jwt.identity tok = uid
    /\ Jwt.jti tok = access_jti env
    /\ is_session_valid env2 (Jwt.jti tok) w = (Ret false, w).
Proof.
  intros Hw Hf Hu Hact Hfresh.
  unfold Db.get_user, Db.read in Hu. cbn [fst] in Hu. injection Hu as Hu.
  pose proof (find_some _ _ Hu) as [_ Hid]. apply Z.eqb_eq in Hid.
  eexists. eexists. split.
  { unfold refresh_access_token, try_except, bind, Db.get_user, Db.read, ret.
    rewrite Hu, Hact. cbn [negb]. reflexivity. }
  cbn [success access_token]. split; [reflexivity|].
  split; [reflexivity|]. split; [exact Hid|]. split; [reflexivity|].
  rewrite (is_session_valid_run env2 _ w Hw Hf).
  rewrite no_active_session; [reflexivity|].
  intros x Hx Ht. exfalso. exact (Hfresh x Hx Ht).
Qed.

End Lifetime.

Lemma login_session_lifetime_witness :
  let west := {| now := 2000; utc_offset := -18000; entropy := [4]%N;
                 access_jti := "jti-2"; refresh_jti := "jti-2-r" |} in
  let w1 := snd (@AuthenticationService.authenticate_user Bcrypt.stand_in west
                   "a@b.com" "Str0ng!Pass" None None Demo.ann_registered) in
  fst (AuthenticationService.is_session_valid (Demo.env 2001 "jti-3") "jti-2"
         w1)
  = Ret false.
Proof.
  intros west w1.
  assert (Hin : In Demo.ann_user (users (committed Demo.ann_registered))).
  { left. reflexivity. }
  assert (Hfresh : fresh_token "jti-2" (committed Demo.ann_registered)).
  { intros x. vm_compute. intros [Hx | []] Ht. subst x. discriminate Ht. }
  pose proof (@login_session_lifetime Bcrypt.stand_in west
                (Demo.env 2001 "jti-3") "a@b.com" "Str0ng!Pass" None None
                Demo.ann_registered Demo.ann_user demo_consistent eq_refl)
    as H.
  cbv zeta in H.
  destruct H as [_ H];
    [discriminate | discriminate | exact Hin | reflexivity | reflexivity
    | reflexivity | exact Hfresh |].
  apply H; [reflexivity | discriminate].
Defined.

Lemma refreshed_token_has_no_session_witness :
  exists r,
    fst (AuthenticationService.refresh_access_token (Demo.env 2000 "jti-2") 1
           Demo.ann_registered) = Ret r
    /\ success r = true
    /\ AuthenticationService.is_session_valid (Demo.env 2001 "jti-3") "jti-2"
         Demo.ann_registered
       = (Ret false, Demo.ann_registered).
Proof.
  assert (Hfresh : fresh_token "jti-2" (committed Demo.ann_registered)).
  { intros x. vm_compute. intros [Hx | []] Ht. subst x. discriminate Ht. }
  destruct (refreshed_token_has_no_session (Demo.env 2000 "jti-2")
              (Demo.env 2001 "jti-3") 1 Demo.ann_registered Demo.ann_user
              demo_consistent eq_refl eq_refl eq_refl Hfresh)
    as [r [tok [H1 [H2 [_ [_ [H5 H6]]]]]]].
  exists r. split; [rewrite H1; reflexivity|]. split; [exact H2|].
  rewrite H5 in H6. exact H6.
Defined.
